(** * RetroVisionAI: provider fallback, response coercion, cache and
      request handling

    A shallow embedding of the server side of the repository:
    - [server/routes/openai.js]: [simpleRateLimit],
      [validateAndModerateInput], the [/deconstruct] and [/simulate]
      routes; then the [/generate-image], [/narrative], [/transcribe],
      [/export] and [/cache-stats] routes;
    - [server/utils/cache.js]: the four [NodeCache] namespaces and their
      key derivations; statistics and flushing;
    - [server/utils/openaiClient.js]: [callGPT], [moderateContent],
      [generateImage], [transcribeAudio];
    - [server/utils/prompts.js]: [checkModerationKeywords], the
      deconstruction and simulation prompts, the visual and narrative
      prompts;
    - [server/utils/exports.js]: the sections of an export and its file
      name (the slides themselves are left to the slide library);
    - [supabase/functions/*/index.ts]: the provider adapters, the
      [callLLM] / [generateImage] fallback loops and the [deconstruct]
      handler with its JSON extraction and placeholder object; then the
      [generate-image], [simulate] and [narrative] handlers.

    Conventions.  A JavaScript string is a Rocq [string] whose characters
    are UTF-16 code units below 256.  [Date.now()] is an argument [now : Z]
    in milliseconds.  Remote services (chat completion, moderation, image
    back ends) are functions of an environment record: what they answer is
    not fixed by the repository.  A thrown value is always an [Error]
    object, as everywhere in the sources. *)

From Stdlib Require Import String Ascii List ZArith QArith Qminmax Lia Bool DecimalString.
From stdpp Require Import gmap strings.
Import ListNotations.
Local Open Scope string_scope.
Local Open Scope Z_scope.

(* stdpp keeps [simpl] from unfolding the append of strings; the proofs
   below compute with it. *)
#[local] Arguments String.append !s1 s2 : simpl nomatch.

(* No induction scheme is needed for the nested type of JSON values. *)
#[local] Set Warnings "-register-all".

(* ===================================================================== *)
(** * JavaScript strings *)
(* ===================================================================== *)

Module Js.

(** The double quote, as a one-character string. *)
Definition dq : string := String (ascii_of_nat 34) EmptyString.

(** A text between double quotes. *)
Definition q (s : string) : string := dq ++ s ++ dq.

(** The line feed, as a one-character string. *)
Definition nl : string := String (ascii_of_nat 10) EmptyString.

(** [WhiteSpace] and [LineTerminator] code units below 256: TAB, LF, VT,
    FF, CR, SP and NBSP.  These are what [String.prototype.trim] strips. *)
Definition is_whitespace (a : ascii) : bool :=
  let n := nat_of_ascii a in
  ((9 <=? n) && (n <=? 13) || (n =? 32) || (n =? 160))%nat.

Fixpoint trimStart (s : string) : string :=
  match s with
  | EmptyString => EmptyString
  | String a r => if is_whitespace a then trimStart r else s
  end.

Fixpoint trimEnd (s : string) : string :=
  match s with
  | EmptyString => EmptyString
  | String a r =>
      match trimEnd r with
      | EmptyString => if is_whitespace a then EmptyString else String a EmptyString
      | r' => String a r'
      end
  end.

(** [s.trim()] *)
Definition trim (s : string) : string := trimEnd (trimStart s).

(** Lower-casing of one code unit below 256: A-Z, and the Latin-1 capitals
    U+00C0..U+00DE except the multiplication sign U+00D7. *)
Definition lower_ascii (a : ascii) : ascii :=
  let n := nat_of_ascii a in
  if ((65 <=? n) && (n <=? 90))%nat then ascii_of_nat (n + 32)
  else if ((192 <=? n) && (n <=? 222) && negb (n =? 215))%nat then ascii_of_nat (n + 32)
  else a.

(** [s.toLowerCase()] *)
Fixpoint toLowerCase (s : string) : string :=
  match s with
  | EmptyString => EmptyString
  | String a r => String (lower_ascii a) (toLowerCase r)
  end.

(** [s.startsWith(p)] *)
Fixpoint startsWith (p s : string) : bool :=
  match p, s with
  | EmptyString, _ => true
  | String _ _, EmptyString => false
  | String a p', String b s' => Ascii.eqb a b && startsWith p' s'
  end.

(** [s.includes(sub)] *)
Fixpoint includes (s sub : string) : bool :=
  startsWith sub s ||
  match s with
  | EmptyString => false
  | String _ r => includes r sub
  end.

(** [s.length], as an integer. *)
Definition str_length (s : string) : Z := Z.of_nat (String.length s).

(** [s.slice(0, n)] for a non-negative [n]. *)
Fixpoint slice0 (n : nat) (s : string) : string :=
  match n, s with
  | O, _ => EmptyString
  | S _, EmptyString => EmptyString
  | S n', String a r => String a (slice0 n' r)
  end.

(** An [Error] object; only its [message] is ever read. *)
Record Error : Type := mkError { message : string }.

(** How an (awaited) call ends: with a value, or with a thrown error. *)
Inductive Completion (A : Type) : Type :=
| Return (a : A)
| Throw (e : Error).
Arguments Return {A} a.
Arguments Throw {A} e.

End Js.

Import Js.

(* ===================================================================== *)
(** * JSON values and [JSON.parse] *)
(* ===================================================================== *)

Module Json.

(** A parsed JSON value.  A number keeps its lexeme: no arithmetic is done
    on parsed numbers anywhere in the modelled code.  An object is an
    association list in insertion order. *)
Inductive Value : Type :=
| JNull
| JBool (b : bool)
| JNumber (lexeme : string)
| JString (s : string)
| JArray (items : list Value)
| JObject (fields : list (string * Value)).

(** Property assignment [o[k] = v]: an existing key keeps its position. *)
Fixpoint obj_set (k : string) (v : Value) (fields : list (string * Value))
  : list (string * Value) :=
  match fields with
  | [] => [(k, v)]
  | (k', v') :: rest =>
      if String.eqb k k' then (k, v) :: rest else (k', v') :: obj_set k v rest
  end.

(** Property read [o.k]; [None] is [undefined]. *)
Fixpoint obj_get (k : string) (fields : list (string * Value)) : option Value :=
  match fields with
  | [] => None
  | (k', v) :: rest => if String.eqb k k' then Some v else obj_get k rest
  end.

(** A number lexeme denotes zero when its mantissa has no non-zero digit. *)
Fixpoint is_zero_lexeme (s : string) : bool :=
  match s with
  | EmptyString => true
  | String a r =>
      if Ascii.eqb a "e" || Ascii.eqb a "E" then true
      else if Ascii.eqb a "-" || Ascii.eqb a "0" || Ascii.eqb a "." then is_zero_lexeme r
      else false
  end.

(** [ToBoolean]: what [if (x)] tests. *)
Definition truthy (v : Value) : bool :=
  match v with
  | JNull => false
  | JBool b => b
  | JNumber lexeme => negb (is_zero_lexeme lexeme)
  | JString s => negb (String.eqb s "")
  | JArray _ | JObject _ => true
  end.

(** ** A reference [JSON.parse] for code units below 256

    The handlers below take the parser as an argument; this one is the
    instance used to run them.  A [\uXXXX] escape above U+00FF has no
    representation in the string model and is rejected here. *)

Definition is_ws (a : ascii) : bool :=
  let n := nat_of_ascii a in ((n =? 32) || (n =? 9) || (n =? 10) || (n =? 13))%nat.

Fixpoint skip_ws (s : string) : string :=
  match s with
  | EmptyString => EmptyString
  | String a r => if is_ws a then skip_ws r else s
  end.

Definition is_digit (a : ascii) : bool :=
  let n := nat_of_ascii a in ((48 <=? n) && (n <=? 57))%nat.

(** The longest prefix of digits, and what follows it. *)
Fixpoint take_digits (s : string) : string * string :=
  match s with
  | EmptyString => (EmptyString, EmptyString)
  | String a r =>
      if is_digit a then let '(d, r') := take_digits r in (String a d, r')
      else (EmptyString, s)
  end.

Definition hex_digit (a : ascii) : option nat :=
  let n := nat_of_ascii a in
  if ((48 <=? n) && (n <=? 57))%nat then Some (n - 48)%nat
  else if ((65 <=? n) && (n <=? 70))%nat then Some (n - 55)%nat
  else if ((97 <=? n) && (n <=? 102))%nat then Some (n - 87)%nat
  else None.

(** The four hex digits of a [\u] escape. *)
Definition parse_hex4 (s : string) : option (nat * string) :=
  match s with
  | String a (String b (String c (String d r))) =>
      match hex_digit a, hex_digit b, hex_digit c, hex_digit d with
      | Some x, Some y, Some z, Some w =>
          Some (((x * 16 + y) * 16 + z) * 16 + w, r)%nat
      | _, _, _, _ => None
      end
  | _ => None
  end.

(** The characters of a string literal after its opening quote, up to and
    including the closing quote. *)
Fixpoint parse_chars (fuel : nat) (s : string) : option (string * string) :=
  match fuel with
  | O => None
  | S f =>
      match s with
      | EmptyString => None
      | String a r =>
          if Ascii.eqb a (ascii_of_nat 34) then Some (EmptyString, r)
          else if Ascii.eqb a "\" then
            match r with
            | EmptyString => None
            | String e r' =>
                let simple (c : nat) :=
                  match parse_chars f r' with
                  | Some (t, rest) => Some (String (ascii_of_nat c) t, rest)
                  | None => None
                  end in
                if Ascii.eqb e (ascii_of_nat 34) then simple 34%nat
                else if Ascii.eqb e "\" then simple 92%nat
                else if Ascii.eqb e "/" then simple 47%nat
                else if Ascii.eqb e "b" then simple 8%nat
                else if Ascii.eqb e "f" then simple 12%nat
                else if Ascii.eqb e "n" then simple 10%nat
                else if Ascii.eqb e "r" then simple 13%nat
                else if Ascii.eqb e "t" then simple 9%nat
                else if Ascii.eqb e "u" then
                  match parse_hex4 r' with
                  | Some (c, r'') =>
                      if (c <? 256)%nat then
                        match parse_chars f r'' with
                        | Some (t, rest) => Some (String (ascii_of_nat c) t, rest)
                        | None => None
                        end
                      else None
                  | None => None
                  end
                else None
            end
          else if (nat_of_ascii a <? 32)%nat then None
          else
            match parse_chars f r with
            | Some (t, rest) => Some (String a t, rest)
            | None => None
            end
      end
  end.

(** A number literal: an optional minus sign, an integer part without a
    leading zero, an optional fraction, an optional exponent. *)
Definition parse_number (s : string) : option (string * string) :=
  let '(sign, s1) :=
    match s with
    | String a r => if Ascii.eqb a "-" then ("-", r) else (EmptyString, s)
    | EmptyString => (EmptyString, s)
    end in
  let '(int, s2) := take_digits s1 in
  let int_ok :=
    match int with
    | EmptyString => false
    | String a EmptyString => true
    | String a _ => negb (Ascii.eqb a "0")
    end in
  if negb int_ok then None else
  let frac :=
    match s2 with
    | String a r =>
        if Ascii.eqb a "." then
          match take_digits r with
          | (EmptyString, _) => None
          | (d, r') => Some ("." ++ d, r')
          end
        else Some (EmptyString, s2)
    | EmptyString => Some (EmptyString, s2)
    end in
  match frac with
  | None => None
  | Some (fr, s3) =>
      let exp :=
        match s3 with
        | String a r =>
            if Ascii.eqb a "e" || Ascii.eqb a "E" then
              let '(sg, r1) :=
                match r with
                | String b r0 =>
                    if Ascii.eqb b "+" || Ascii.eqb b "-"
                    then (String b EmptyString, r0) else (EmptyString, r)
                | EmptyString => (EmptyString, r)
                end in
              match take_digits r1 with
              | (EmptyString, _) => None
              | (d, r') => Some (String a sg ++ d, r')
              end
            else Some (EmptyString, s3)
        | EmptyString => Some (EmptyString, s3)
        end in
      match exp with
      | None => None
      | Some (ex, s4) => Some (sign ++ int ++ fr ++ ex, s4)
      end
  end.

(** [n] characters dropped from the front. *)
Fixpoint drop (n : nat) (s : string) : string :=
  match n, s with
  | O, _ => s
  | S _, EmptyString => EmptyString
  | S n', String _ r => drop n' r
  end.

Fixpoint parse_value (fuel : nat) (s : string) : option (Value * string) :=
  match fuel with
  | O => None
  | S f =>
      match skip_ws s with
      | EmptyString => None
      | String a r =>
          if Ascii.eqb a "{" then
            match skip_ws r with
            | EmptyString => None
            | String b r' =>
                if Ascii.eqb b "}" then Some (JObject [], r')
                else parse_members f (String b r') []
            end
          else if Ascii.eqb a "[" then
            match skip_ws r with
            | EmptyString => None
            | String b r' =>
                if Ascii.eqb b "]" then Some (JArray [], r')
                else parse_elements f (String b r') []
            end
          else if Ascii.eqb a (ascii_of_nat 34) then
            match parse_chars (S (String.length r)) r with
            | Some (t, rest) => Some (JString t, rest)
            | None => None
            end
          else if startsWith "true" (String a r) then Some (JBool true, drop 4 (String a r))
          else if startsWith "false" (String a r) then Some (JBool false, drop 5 (String a r))
          else if startsWith "null" (String a r) then Some (JNull, drop 4 (String a r))
          else
            match parse_number (String a r) with
            | Some (lexeme, rest) => Some (JNumber lexeme, rest)
            | None => None
            end
      end
  end

with parse_elements (fuel : nat) (s : string) (acc : list Value)
  : option (Value * string) :=
  match fuel with
  | O => None
  | S f =>
      match parse_value f s with
      | None => None
      | Some (v, r) =>
          match skip_ws r with
          | EmptyString => None
          | String c r' =>
              if Ascii.eqb c "," then parse_elements f r' (acc ++ [v])
              else if Ascii.eqb c "]" then Some (JArray (acc ++ [v]), r')
              else None
          end
      end
  end

with parse_members (fuel : nat) (s : string) (acc : list (string * Value))
  : option (Value * string) :=
  match fuel with
  | O => None
  | S f =>
      match skip_ws s with
      | EmptyString => None
      | String q r =>
          if negb (Ascii.eqb q (ascii_of_nat 34)) then None else
          match parse_chars (S (String.length r)) r with
          | None => None
          | Some (k, r1) =>
              match skip_ws r1 with
              | EmptyString => None
              | String c r2 =>
                  if negb (Ascii.eqb c ":") then None else
                  match parse_value f r2 with
                  | None => None
                  | Some (v, r3) =>
                      match skip_ws r3 with
                      | EmptyString => None
                      | String d r4 =>
                          if Ascii.eqb d "," then parse_members f r4 (obj_set k v acc)
                          else if Ascii.eqb d "}" then Some (JObject (obj_set k v acc), r4)
                          else None
                      end
                  end
              end
          end
      end
  end.

(** [JSON.parse(text)]; [None] stands for the [SyntaxError] it throws. *)
Definition parse (text : string) : option Value :=
  match parse_value (2 * String.length text + 2) text with
  | Some (v, rest) =>
      match skip_ws rest with
      | EmptyString => Some v
      | String _ _ => None
      end
  | None => None
  end.

End Json.

Import Json.

(* ===================================================================== *)
(** * Bytes: UTF-8, base64, percent-encoding *)
(* ===================================================================== *)

Module Bytes.

Definition byte_of_N (n : N) : Byte.byte := byte_of_ascii (ascii_of_N n).

(** UTF-8 of a string of code units below 256 ([Buffer.from(s)]): one byte
    below 128, two bytes from 128 on. *)
Fixpoint utf8 (s : string) : list Byte.byte :=
  match s with
  | EmptyString => []
  | String a r =>
      let c := N_of_ascii a in
      if (c <? 128)%N then byte_of_ascii a :: utf8 r
      else byte_of_N (N.lor 192 (N.shiftr c 6))
           :: byte_of_N (N.lor 128 (N.land c 63)) :: utf8 r
  end.

(** The bytes of a binary string, one per code unit
    ([String.fromCharCode(...bytes)] read back by [btoa]). *)
Definition latin1 (s : string) : list Byte.byte := map byte_of_ascii (list_ascii_of_string s).

Definition alphabet : string :=
  "ABCDEFGHIJKLMNOPQRSTUVWXYZabcdefghijklmnopqrstuvwxyz0123456789+/".

(** The base64 digit of a six-bit value. *)
Definition digit (n : N) : ascii :=
  match String.get (N.to_nat n) alphabet with
  | Some c => c
  | None => "="%char
  end.

(** [buffer.toString('base64')] and [btoa]: three bytes give four digits,
    a last group of one or two bytes is padded. *)
Fixpoint base64 (bs : list Byte.byte) : string :=
  match bs with
  | [] => EmptyString
  | [a] =>
      let x := Byte.to_N a in
      String (digit (N.shiftr x 2))
        (String (digit (N.shiftl (N.land x 3) 4)) "==")
  | [a; b] =>
      let x := Byte.to_N a in
      let y := Byte.to_N b in
      String (digit (N.shiftr x 2))
        (String (digit (N.lor (N.shiftl (N.land x 3) 4) (N.shiftr y 4)))
           (String (digit (N.shiftl (N.land y 15) 2)) "="))
  | a :: b :: c :: rest =>
      let x := Byte.to_N a in
      let y := Byte.to_N b in
      let z := Byte.to_N c in
      String (digit (N.shiftr x 2))
        (String (digit (N.lor (N.shiftl (N.land x 3) 4) (N.shiftr y 4)))
           (String (digit (N.lor (N.shiftl (N.land y 15) 2) (N.shiftr z 6)))
              (String (digit (N.land z 63)) (base64 rest))))
  end.

Definition hex_upper (n : N) : ascii :=
  match String.get (N.to_nat n) "0123456789ABCDEF" with
  | Some c => c
  | None => "0"%char
  end.

(** [%XX] for each byte. *)
Fixpoint percent (bs : list Byte.byte) : string :=
  match bs with
  | [] => EmptyString
  | b :: rest =>
      let x := Byte.to_N b in
      String "%" (String (hex_upper (N.shiftr x 4))
                    (String (hex_upper (N.land x 15)) (percent rest)))
  end.

(** The characters [encodeURIComponent] leaves alone: letters, digits and
    [- _ . ! ~ * ' ( )]. *)
Definition unreserved (a : ascii) : bool :=
  let n := nat_of_ascii a in
  ((65 <=? n) && (n <=? 90) || (97 <=? n) && (n <=? 122) || (48 <=? n) && (n <=? 57)
   || (n =? 45) || (n =? 95) || (n =? 46) || (n =? 33) || (n =? 126)
   || (n =? 42) || (n =? 39) || (n =? 40) || (n =? 41))%nat.

Fixpoint encodeURIComponent (s : string) : string :=
  match s with
  | EmptyString => EmptyString
  | String a r =>
      (if unreserved a then String a EmptyString
       else percent (utf8 (String a EmptyString)))
      ++ encodeURIComponent r
  end.

End Bytes.

(* ===================================================================== *)
(** * What a run does besides returning: the calls it makes *)
(* ===================================================================== *)

(** The calls to collaborators made while serving a request, in order.
    Console output is not recorded. *)
Inductive Event : Type :=
| EvInvoke (index : nat) (name : string)  (** [providers[index].fn(...)] *)
| EvChat (system user : string)           (** [client.chat.completions.create] *)
| EvModeration (text : string)            (** [client.moderations.create] *)
| EvCacheGet (namespace key : string)     (** [NodeCache.get] *)
| EvCacheSet (namespace key : string)     (** [NodeCache.set] *)
| EvPrompt (builder : string).            (** a prompt builder of [prompts.js] *)

(** An HTTP answer: status code and JSON body. *)
Record Response : Type := mkResponse { status : Z; body : Value }.

(** [res.status(code).json({ error })] *)
Definition error_response (code : Z) (msg : string) : Response :=
  mkResponse code (JObject [("error", JString msg)]).

(** [Number.prototype.toString] on an integer. *)
Definition Z_to_string (z : Z) : string :=
  DecimalString.NilZero.string_of_int (Z.to_int z).

(* ===================================================================== *)
(** * The fallback loop ([callLLM], [generateImage]) *)
(* ===================================================================== *)

Module Fallback.

(** [{ name, fn }] *)
Record Provider (Req Res : Type) : Type :=
  mkProvider { name : string; fn : Req -> Completion Res }.
Arguments mkProvider {Req Res} name fn.
Arguments name {Req Res} p.
Arguments fn {Req Res} p.

(** The body shared by every [callLLM] and by [generateImage]:
<<
  let lastError;
  for (const provider of providers) {
    try { const result = await provider.fn(...); return result; }
    catch (error) { lastError = error; continue; }
  }
  throw lastError || new Error(exhausted);
>>
    [index] is the position of the head of [providers] in the original
    list. *)
Fixpoint for_of {Req Res : Type} (exhausted : string) (index : nat)
    (providers : list (Provider Req Res)) (req : Req) (lastError : option Error)
  : Completion Res * list Event :=
  match providers with
  | [] =>
      (Throw (match lastError with
              | Some e => e
              | None => mkError exhausted
              end), [])
  | provider :: rest =>
      match fn provider req with
      | Return result => (Return result, [EvInvoke index (name provider)])
      | Throw error =>
          let '(outcome, calls) := for_of exhausted (S index) rest req (Some error) in
          (outcome, EvInvoke index (name provider) :: calls)
      end
  end.

(** The loop from its start: [lastError] is [undefined]. *)
Definition run {Req Res : Type} (exhausted : string)
    (providers : list (Provider Req Res)) (req : Req)
  : Completion Res * list Event :=
  for_of exhausted 0 providers req None.

(** One invocation of each provider of a list, in the order of the list;
    [index] is the position of the first. *)
Fixpoint invocations {Req Res : Type} (index : nat)
    (providers : list (Provider Req Res)) : list Event :=
  match providers with
  | [] => []
  | p :: rest => EvInvoke index (name p) :: invocations (S index) rest
  end.

(** [p] throws on [req]. *)
Definition fails {Req Res : Type} (req : Req) (p : Provider Req Res) : Prop :=
  exists e, fn p req = Throw e.

End Fallback.

(* ===================================================================== *)
(** * Edge functions ([supabase/functions]) *)
(* ===================================================================== *)

Module Edge.

Import Fallback.

(** What [await fetch(url, init)] gives: a rejection (DNS, reset, ...), or
    a response with its status and with the outcome of reading its payload:
    the answer text [(await response.json()).choices[0].message.content]
    of a chat back end (which throws on a body of another shape), the body
    text or the image bytes of an image back end. *)
Inductive FetchResult : Type :=
| Rejected (e : Error)
| Responded (status : Z) (content : Completion string).

(** The process environment, the clock, the random source, the network. *)
Record Env : Type := mkEnv {
  env_get : string -> option string;   (** [Deno.env.get] *)
  now : Z;                             (** [Date.now()] *)
  seed : Z;                            (** [Math.floor(Math.random() * 1000000)] *)
  fetch : string -> option string -> Value -> FetchResult
    (** url, bearer token, JSON body ([JNull] for a plain GET) *)
}.

(** [response.ok] *)
Definition ok (status : Z) : bool := (200 <=? status) && (status <=? 299).

(** [!token]: absent or empty. *)
Definition missing (token : option string) : bool :=
  match token with
  | None => true
  | Some t => String.eqb t ""
  end.

Definition chat_body (model system user temperature max_tokens : string) : Value :=
  JObject
    [("model", JString model);
     ("messages",
       JArray [JObject [("role", JString "system"); ("content", JString system)];
               JObject [("role", JString "user"); ("content", JString user)]]);
     ("temperature", JNumber temperature);
     ("max_tokens", JNumber max_tokens)].

(** The body shared by [callGroqAPI] and [callTogetherAPI] in the three
    functions; they differ in the key, the url, the model and the sampling
    parameters. *)
Definition chat_adapter (env : Env)
    (key_name label url model temperature max_tokens : string)
    (req : string * string) : Completion string :=
  let '(prompt, systemPrompt) := req in
  let token := env_get env key_name in
  if missing token then Throw (mkError (key_name ++ " not configured")) else
  match fetch env url token
          (chat_body model systemPrompt prompt temperature max_tokens) with
  | Rejected e => Throw e
  | Responded status content =>
      if negb (ok status)
      then Throw (mkError (label ++ " API error: " ++ Z_to_string status))
      else content
  end.

Definition callGroqAPI (env : Env) (temperature max_tokens : string)
  : string * string -> Completion string :=
  chat_adapter env "GROQ_API_KEY" "Groq"
    "https://api.groq.com/openai/v1/chat/completions" "llama3-8b-8192"
    temperature max_tokens.

Definition callTogetherAPI (env : Env) (temperature max_tokens : string)
  : string * string -> Completion string :=
  chat_adapter env "TOGETHER_API_KEY" "Together"
    "https://api.together.xyz/v1/chat/completions" "meta-llama/Llama-2-7b-chat-hf"
    temperature max_tokens.

Definition callHuggingFaceAPI (env : Env) (req : string * string) : Completion string :=
  let '(prompt, systemPrompt) := req in
  let hfToken := env_get env "HUGGING_FACE_API_KEY" in
  if missing hfToken then Throw (mkError "HUGGING_FACE_API_KEY not configured") else
  match fetch env "https://api-inference.huggingface.co/models/microsoft/DialoGPT-medium"
          hfToken
          (JObject
             [("inputs", JString (systemPrompt ++ nl ++ nl ++ "User: " ++ prompt
                                    ++ nl ++ "Assistant:"));
              ("parameters",
                JObject [("max_new_tokens", JNumber "1000");
                         ("temperature", JNumber "0.3");
                         ("return_full_text", JBool false)])]) with
  | Rejected e => Throw e
  | Responded status content =>
      if negb (ok status)
      then Throw (mkError ("Hugging Face API error: " ++ Z_to_string status))
      else content
  end.

(** ** The match of [/\{[\s\S]*\}/]

    The leftmost match starts at the first opening brace; the star is
    greedy, so it ends at the last closing brace after it.  When no closing
    brace follows the first opening brace, none follows a later one
    either, and there is no match. *)

(** The text from the first opening brace on. *)
Fixpoint from_first_open (s : string) : option string :=
  match s with
  | EmptyString => None
  | String a r => if Ascii.eqb a "{" then Some s else from_first_open r
  end.

(** The longest prefix that ends with a closing brace. *)
Fixpoint upto_last_close (s : string) : option string :=
  match s with
  | EmptyString => None
  | String a r =>
      match upto_last_close r with
      | Some p => Some (String a p)
      | None => if Ascii.eqb a "}" then Some (String a EmptyString) else None
      end
  end.

(** [response.match(/\{[\s\S]*\}/)], as [jsonMatch[0]] or [null]. *)
Definition jsonMatch (response : string) : option string :=
  match from_first_open response with
  | Some (String a r) =>
      match upto_last_close r with
      | Some p => Some (String a p)
      | None => None
      end
  | _ => None
  end.

(** [jsonMatch ? jsonMatch[0] : response] *)
Definition jsonStr (response : string) : string :=
  match jsonMatch response with
  | Some m => m
  | None => response
  end.

Definition strings (l : list string) : Value := JArray (map JString l).

(** ** [deconstruct/index.ts] *)

Module Deconstruct.

Definition providers (env : Env) : list (Provider (string * string) string) :=
  [ mkProvider "Groq" (callGroqAPI env "0.3" "1000");
    mkProvider "Together" (callTogetherAPI env "0.3" "1000");
    mkProvider "HuggingFace" (callHuggingFaceAPI env) ].

(** [callLLM(prompt, systemPrompt)] *)
Definition callLLM (env : Env) (prompt systemPrompt : string)
  : Completion string * list Event :=
  run "All LLM providers failed" (providers env) (prompt, systemPrompt).

(** The placeholder object of the [catch (parseError)] branch. *)
Definition fallback (invention : string) : Value :=
  JObject
    [("name", JString invention);
     ("core_functions", strings ["primary function"; "secondary function"]);
     ("materials", strings ["basic materials"; "advanced materials"]);
     ("enabling_sciences", strings ["physics"; "engineering"]);
     ("subsystems",
       JArray [JObject [("name", JString "main component");
                        ("dependency", strings ["materials"; "science"])]]);
     ("cultural_drivers", strings ["societal need"; "technological advancement"]);
     ("min_tech_level", strings ["industrial technology"; "scientific knowledge"])].

(** The [try { ... JSON.parse(jsonStr) } catch { fallback }] block. *)
Definition coerce (JSON_parse : string -> option Value) (invention response : string)
  : Value :=
  match JSON_parse (jsonStr response) with
  | Some decomposition => decomposition
  | None => fallback invention
  end.

Definition systemPrompt : string :=
  "You are an expert historian-engineer. For any given invention you will deconstruct it into its fundamental dependencies in a structured JSON format. Always respond with valid JSON only, no additional text.

Return JSON with this exact structure:
{
  " ++ q "name" ++ ": " ++ q "invention_name" ++ ",
  " ++ q "core_functions" ++ ": [" ++ q "function1" ++ ", " ++ q "function2" ++ "],
  " ++ q "materials" ++ ": [" ++ q "material1" ++ ", " ++ q "material2" ++ "],
  " ++ q "enabling_sciences" ++ ": [" ++ q "science1" ++ ", " ++ q "science2" ++ "],
  " ++ q "subsystems" ++ ": [{" ++ q "name" ++ ": " ++ q "subsystem_name" ++ ", "
    ++ q "dependency" ++ ": [" ++ q "dep1" ++ ", " ++ q "dep2" ++ "]}],
  " ++ q "cultural_drivers" ++ ": [" ++ q "driver1" ++ ", " ++ q "driver2" ++ "],
  " ++ q "min_tech_level" ++ ": [" ++ q "tech1" ++ ", " ++ q "tech2" ++ "]
}".

Definition userPrompt (invention : string) : string :=
  "Deconstruct the invention: " ++ q invention ++ "

Analyze its core functions, required materials, enabling sciences, key subsystems, cultural drivers that led to its creation, and minimum technology level required. Return only valid JSON.".

(** A request: the method and the [invention] field of the JSON body
    ([None] when the field is absent; [DeconstructionRequest] makes it a
    string). *)
Record Request : Type := mkRequest { method : string; invention : option string }.

(** The handler passed to [serve]. *)
Definition serve (JSON_parse : string -> option Value) (env : Env) (req : Request)
  : Response * list Event :=
  if String.eqb (method req) "OPTIONS" then (mkResponse 200 JNull, []) else
  match invention req with
  | None => (error_response 400 "Invention name is required", [])
  | Some invention =>
      if String.eqb (trim invention) "" then
        (error_response 400 "Invention name is required", [])
      else if str_length invention >? 100 then
        (error_response 400 "Invention name too long (max 100 characters)", [])
      else
        match callLLM env (userPrompt invention) systemPrompt with
        | (Return response, calls) =>
            (mkResponse 200
               (JObject [("decomposition", coerce JSON_parse invention response)]),
             calls)
        | (Throw error, calls) =>
            (mkResponse 500
               (JObject [("error", JString "Failed to deconstruct invention");
                         ("details", JString (message error))]),
             calls)
        end
  end.

End Deconstruct.

(** ** [simulate/index.ts] and [narrative/index.ts]: the fallback loops *)

Module Simulate.

Definition providers (env : Env) : list (Provider (string * string) string) :=
  [ mkProvider "Groq" (callGroqAPI env "0.8" "1500");
    mkProvider "Together" (callTogetherAPI env "0.8" "1500") ].

Definition callLLM (env : Env) (prompt systemPrompt : string)
  : Completion string * list Event :=
  run "All LLM providers failed" (providers env) (prompt, systemPrompt).

End Simulate.

Module Narrative.

Definition providers (env : Env) : list (Provider (string * string) string) :=
  [ mkProvider "Groq" (callGroqAPI env "0.7" "800") ].

Definition callLLM (env : Env) (prompt systemPrompt : string)
  : Completion string * list Event :=
  run "All LLM providers failed" (providers env) (prompt, systemPrompt).

End Narrative.

(** ** [generate-image/index.ts] *)

Module GenerateImage.

Definition image (id url provider : string) : Value :=
  JObject [("id", JString id); ("url", JString url); ("provider", JString provider)].

Definition generateWithHuggingFace (env : Env) (prompt : string) : Completion Value :=
  let hfToken := env_get env "HUGGING_FACE_API_KEY" in
  if missing hfToken then Throw (mkError "HUGGING_FACE_API_KEY not configured") else
  match fetch env "https://api-inference.huggingface.co/models/black-forest-labs/FLUX.1-schnell"
          hfToken
          (JObject
             [("inputs", JString prompt);
              ("parameters",
                JObject [("guidance_scale", JNumber "7.5");
                         ("num_inference_steps", JNumber "4");
                         ("width", JNumber "1024");
                         ("height", JNumber "1024")])]) with
  | Rejected e => Throw e
  | Responded status content =>
      match content with
      | Throw e => Throw e
      | Return payload =>
          if negb (ok status) then
            Throw (mkError ("Hugging Face API error: " ++ Z_to_string status
                              ++ " - " ++ payload))
          else
            Return (image (Z_to_string (now env))
                      ("data:image/png;base64," ++ Bytes.base64 (Bytes.latin1 payload))
                      "HuggingFace")
      end
  end.

Definition generateWithPollinations (env : Env) (prompt : string) : Completion Value :=
  let cleanPrompt := Bytes.encodeURIComponent prompt in
  let imageUrl :=
    "https://image.pollinations.ai/prompt/" ++ cleanPrompt
      ++ "?width=1024&height=1024&model=flux&seed=" ++ Z_to_string (seed env) in
  let attempt : Completion Value :=
    match fetch env imageUrl None JNull with
    | Rejected e => Throw e
    | Responded status _ =>
        if negb (ok status)
        then Throw (mkError ("Pollinations API error: " ++ Z_to_string status))
        else Return (image (Z_to_string (now env)) imageUrl "Pollinations")
    end in
  match attempt with
  | Return r => Return r
  | Throw error =>
      Throw (mkError ("Failed to generate image with Pollinations: " ++ message error))
  end.

(** The closures [() => generateWithHuggingFace(prompt)] and
    [() => generateWithPollinations(prompt)]. *)
Definition providers (env : Env) (prompt : string) : list (Provider unit Value) :=
  [ mkProvider "HuggingFace" (fun _ => generateWithHuggingFace env prompt);
    mkProvider "Pollinations" (fun _ => generateWithPollinations env prompt) ].

(** [generateImage(prompt)] *)
Definition generateImage (env : Env) (prompt : string)
  : Completion Value * list Event :=
  run "All image generation providers failed" (providers env prompt) tt.

End GenerateImage.

End Edge.

(* ===================================================================== *)
(** * The [node-cache] package, as [cache.js] uses it *)
(* ===================================================================== *)

Module NodeCache.

(** A stored entry [{ v, t }]: the value and its expiry time in
    milliseconds, [0] for none. *)
Record Entry : Type := mkEntry { v : Value; t : Z }.

(** The mutable part of an instance: its [data] and the hit and miss
    counters of [getStats()].  The [stdTTL] option, fixed by the
    constructor call, is an argument of [set]; the other options keep
    their defaults ([deleteOnExpire: true], no key limit). *)
Record Cache : Type := mkCache {
  data : gmap string Entry;
  hits : Z;
  misses : Z
}.

(** A new instance. *)
Definition empty : Cache := mkCache ∅ 0 0.

(** [set(key, value)] on an instance built with [{ stdTTL }] (seconds): the
    entry lives until [now + stdTTL * 1000], or for ever when [stdTTL] is
    [0]. *)
Definition set (stdTTL : Z) (c : Cache) (now : Z) (key : string) (value : Value)
  : Cache :=
  let livetime := if stdTTL =? 0 then 0 else now + stdTTL * 1000 in
  mkCache (<[key := mkEntry value livetime]> (data c)) (hits c) (misses c).

(** [get(key)]: the value of a live entry; an entry whose time has passed
    ([t !== 0 && t < Date.now()]) is deleted and counts as a miss.  [None]
    is [undefined]. *)
Definition get (c : Cache) (now : Z) (key : string) : option Value * Cache :=
  match data c !! key with
  | Some e =>
      if negb (t e =? 0) && (t e <? now)
      then (None, mkCache (delete key (data c)) (hits c) (misses c + 1))
      else (Some (v e), mkCache (data c) (hits c + 1) (misses c))
  | None => (None, mkCache (data c) (hits c) (misses c + 1))
  end.

End NodeCache.

(* ===================================================================== *)
(** * [server/utils/cache.js] *)
(* ===================================================================== *)

Module CacheJs.

(** The four module-level instances. *)
Record Caches : Type := mkCaches {
  deconstructionCache : NodeCache.Cache;
  simulationCache : NodeCache.Cache;
  imageCache : NodeCache.Cache;
  audioCache : NodeCache.Cache
}.

(** The [stdTTL] each instance is built with, in seconds: 1 hour,
    30 minutes, 2 hours, 10 minutes. *)
Definition deconstructionTTL : Z := 3600.
Definition simulationTTL : Z := 1800.
Definition imageTTL : Z := 7200.
Definition audioTTL : Z := 600.

(** The instances when the module is loaded. *)
Definition initial : Caches :=
  mkCaches NodeCache.empty NodeCache.empty NodeCache.empty NodeCache.empty.

Definition deconstruct_key (invention : string) : string :=
  "deconstruct_" ++ trim (toLowerCase invention).

Definition getCachedDeconstruction (cs : Caches) (now : Z) (invention : string)
  : option Value * Caches :=
  let '(r, c) := NodeCache.get (deconstructionCache cs) now (deconstruct_key invention) in
  (r, mkCaches c (simulationCache cs) (imageCache cs) (audioCache cs)).

Definition setCachedDeconstruction (cs : Caches) (now : Z) (invention : string)
    (data : Value) : Caches :=
  mkCaches (NodeCache.set deconstructionTTL (deconstructionCache cs) now (deconstruct_key invention) data)
           (simulationCache cs) (imageCache cs) (audioCache cs).

(** [creativity] is the number as the template literal prints it. *)
Definition simulate_key (invention era creativity : string) : string :=
  "simulate_" ++ trim (toLowerCase invention) ++ "_" ++ trim (toLowerCase era)
    ++ "_" ++ creativity.

Definition getCachedSimulation (cs : Caches) (now : Z) (invention era creativity : string)
  : option Value * Caches :=
  let '(r, c) :=
    NodeCache.get (simulationCache cs) now (simulate_key invention era creativity) in
  (r, mkCaches (deconstructionCache cs) c (imageCache cs) (audioCache cs)).

Definition setCachedSimulation (cs : Caches) (now : Z) (invention era creativity : string)
    (data : Value) : Caches :=
  mkCaches (deconstructionCache cs)
           (NodeCache.set simulationTTL (simulationCache cs) now
              (simulate_key invention era creativity) data)
           (imageCache cs) (audioCache cs).

(** [`image_${Buffer.from(prompt).toString('base64').slice(0, 50)}`] *)
Definition image_key (prompt : string) : string :=
  "image_" ++ slice0 50 (Bytes.base64 (Bytes.utf8 prompt)).

Definition getCachedImage (cs : Caches) (now : Z) (prompt : string)
  : option Value * Caches :=
  let '(r, c) := NodeCache.get (imageCache cs) now (image_key prompt) in
  (r, mkCaches (deconstructionCache cs) (simulationCache cs) c (audioCache cs)).

Definition setCachedImage (cs : Caches) (now : Z) (prompt : string) (data : Value)
  : Caches :=
  mkCaches (deconstructionCache cs) (simulationCache cs)
           (NodeCache.set imageTTL (imageCache cs) now (image_key prompt) data)
           (audioCache cs).

Definition audio_key (audioHash : string) : string := "audio_" ++ audioHash.

Definition getCachedTranscription (cs : Caches) (now : Z) (audioHash : string)
  : option Value * Caches :=
  let '(r, c) := NodeCache.get (audioCache cs) now (audio_key audioHash) in
  (r, mkCaches (deconstructionCache cs) (simulationCache cs) (imageCache cs) c).

Definition setCachedTranscription (cs : Caches) (now : Z) (audioHash : string)
    (text : Value) : Caches :=
  mkCaches (deconstructionCache cs) (simulationCache cs) (imageCache cs)
           (NodeCache.set audioTTL (audioCache cs) now (audio_key audioHash) text).

(** The namespaces, to speak of the four pairs of functions at once. *)
Inductive Namespace : Type := Deconstruction | Simulation | Image | Transcription.

(** The time to live the specification gives each namespace (1 h, 30 min,
    2 h, 10 min), in milliseconds. *)
Definition ttl_ms (ns : Namespace) : Z :=
  match ns with
  | Deconstruction => 60 * 60 * 1000
  | Simulation => 30 * 60 * 1000
  | Image => 2 * 60 * 60 * 1000
  | Transcription => 10 * 60 * 1000
  end.

(** What the functions of a namespace derive their key from: the
    invention; the invention, the era and the creativity; the prompt; the
    hash of the audio. *)
Definition Subject (ns : Namespace) : Type :=
  match ns with
  | Deconstruction => string
  | Simulation => string * string * string
  | Image => string
  | Transcription => string
  end.

(** The [getCached...] function of a namespace. *)
Definition getCached (ns : Namespace) (cs : Caches) (now : Z)
  : Subject ns -> option Value * Caches :=
  match ns with
  | Deconstruction => fun invention => getCachedDeconstruction cs now invention
  | Simulation => fun '(invention, era, creativity) =>
      getCachedSimulation cs now invention era creativity
  | Image => fun prompt => getCachedImage cs now prompt
  | Transcription => fun audioHash => getCachedTranscription cs now audioHash
  end.

(** The [setCached...] function of a namespace. *)
Definition setCached (ns : Namespace) (cs : Caches) (now : Z)
  : Subject ns -> Value -> Caches :=
  match ns with
  | Deconstruction => fun invention data => setCachedDeconstruction cs now invention data
  | Simulation => fun '(invention, era, creativity) data =>
      setCachedSimulation cs now invention era creativity data
  | Image => fun prompt data => setCachedImage cs now prompt data
  | Transcription => fun audioHash text => setCachedTranscription cs now audioHash text
  end.

End CacheJs.

(* ===================================================================== *)
(** * The Express server ([server/]) *)
(* ===================================================================== *)

Module Server.

Import CacheJs.

(** An entry of [response.results] of the moderation endpoint. *)
Record Moderation : Type := mkModeration { flagged : bool }.

(** The built-ins and the OpenAI client, which the repository calls but
    does not define.  [chat] is [client.chat.completions.create] followed
    by [.choices[0].message.content]; [moderations] is
    [client.moderations.create] followed by [.results].  Numbers are
    rationals: no claim depends on floating-point rounding. *)
Record Env : Type := mkEnv {
  JSON_parse : string -> option Value;
  JSON_stringify : Value -> string;        (** [JSON.stringify(v, null, 2)] *)
  Number_toString : Q -> string;           (** a number in a template literal *)
  chat : string -> string -> Q -> Z -> Completion string;
    (** system prompt, user prompt, temperature, max_tokens *)
  moderations : string -> Completion (list Moderation)
}.

(** ** [utils/openaiClient.js] *)

Definition callGPT (env : Env) (systemPrompt userPrompt : string)
    (temperature : Q) (maxTokens : Z) : Completion string * list Event :=
  (match chat env systemPrompt userPrompt temperature maxTokens with
   | Return content => Return content
   | Throw error => Throw (mkError ("GPT API failed: " ++ message error))
   end,
   [EvChat systemPrompt userPrompt]).

(** [moderateContent(text)]: [response.results[0]] ([None] is [undefined],
    for an empty list), and [{ flagged: false }] when the call throws. *)
Definition moderateContent (env : Env) (text : string)
  : option Moderation * list Event :=
  (match moderations env text with
   | Return results => head results
   | Throw _ => Some (mkModeration false)
   end,
   [EvModeration text]).

(** ** [utils/prompts.js] *)

Definition DECONSTRUCTION_SYSTEM : string :=
  "You are an expert historian-engineer who specializes in analyzing inventions and their technological dependencies. You will deconstruct any given invention into its fundamental components in a structured JSON format.

Your analysis should be thorough, historically accurate, and consider both technical and cultural factors that enabled the invention.".

Definition getDeconstructionPrompt (invention : string) : string :=
  "
Deconstruct the invention: " ++ q invention ++ "

Return a JSON object with the following structure:
{
  " ++ q "name" ++ ": " ++ q invention ++ ",
  " ++ q "core_functions" ++ ": [" ++ q "list of primary functions this invention serves" ++ "],
  " ++ q "materials" ++ ": [" ++ q "list of key materials required" ++ "],
  " ++ q "enabling_sciences" ++ ": [" ++ q "list of scientific principles and discoveries required" ++ "],
  " ++ q "subsystems" ++ ": [
    {
      " ++ q "name" ++ ": " ++ q "subsystem name" ++ ",
      " ++ q "dependencies" ++ ": [" ++ q "list of technologies or materials this subsystem requires" ++ "],
      " ++ q "complexity" ++ ": " ++ q "low|medium|high" ++ "
    }
  ],
  " ++ q "cultural_drivers" ++ ": [" ++ q "social, economic, or cultural needs that drove its development" ++ "],
  " ++ q "min_tech_level" ++ ": [
    {
      " ++ q "technology" ++ ": " ++ q "required prerequisite technology" ++ ",
      " ++ q "notes" ++ ": " ++ q "brief explanation of why this is necessary" ++ "
    }
  ],
  " ++ q "manufacturing_requirements" ++ ": [" ++ q "list of manufacturing processes or capabilities needed" ++ "],
  " ++ q "key_breakthroughs" ++ ": [" ++ q "critical innovations that made this invention possible" ++ "]
}

Focus on being comprehensive and historically accurate.".

Definition SIMULATION_SYSTEM : string :=
  "You are a speculative historian and systems engineer with expertise in technological development across different eras. You excel at imagining plausible alternate technological pathways and understanding how inventions could have emerged differently given different historical circumstances.

Your simulations should be creative yet grounded in historical possibility, considering the materials, knowledge, and cultural context of the specified era.".

Definition getSimulationPrompt (env : Env) (invention era : string)
    (decomposition : Value) (creativity : Q) : string :=
  "
Using the decomposition data below, imagine 3-4 alternate invention pathways that could plausibly have produced " ++ q invention ++ " during the " ++ q era ++ " era.

Decomposition data:
" ++ JSON_stringify env decomposition ++ "

For each pathway, create a JSON object with:
{
  " ++ q "pathways" ++ ": [
    {
      " ++ q "id" ++ ": " ++ q "unique_id" ++ ",
      " ++ q "title" ++ ": " ++ q "Creative name for this alternate invention" ++ ",
      " ++ q "narrative" ++ ": " ++ q "80-140 word story written as if this actually happened in that era, using period-appropriate language and context" ++ ",
      " ++ q "technical_steps" ++ ": [" ++ q "ordered list of how existing technology/knowledge would be combined" ++ "],
      " ++ q "prototype_description" ++ ": " ++ q "detailed description of how the device would look, feel, and function using era-appropriate materials and methods" ++ ",
      " ++ q "feasibility_score" ++ ": " ++ q "0-10 rating (0=impossible, 10=very plausible for the era)" ++ ",
      " ++ q "required_breakthroughs" ++ ": [" ++ q "1-3 key innovations needed to make this work" ++ "],
      " ++ q "cultural_impact" ++ ": " ++ q "how this would have changed society in that era" ++ ",
      " ++ q "visual_description" ++ ": " ++ q "detailed description for image generation, including era-appropriate aesthetics and materials" ++ "
    }
  ]
}

Consider:
- Available materials and manufacturing techniques of the era
- Scientific knowledge of the time
- Cultural and social context
- Economic factors and trade networks
- Existing technological foundations

Creativity level: " ++ Number_toString env creativity ++ " (0=conservative, 1=highly speculative)".

Definition MODERATION_KEYWORDS : list string :=
  ["weapon"; "bomb"; "explosive"; "poison"; "drug"; "illegal"; "harmful"; "dangerous"].

Definition checkModerationKeywords (text : string) : bool :=
  let lowercaseText := toLowerCase text in
  existsb (fun keyword => includes lowercaseText keyword) MODERATION_KEYWORDS.

(** ** [routes/openai.js] *)

(** What a middleware does: answer, or hand over with [next()]. *)
Inductive Step (A : Type) : Type :=
| Respond (r : Response)
| Next (a : A).
Arguments Respond {A} r.
Arguments Next {A} a.

(** [simpleRateLimit(maxRequests, windowMs)] applied to a request from
    [ip] at time [now].  [rateLimits] is the one module-level [Map] that
    every limiter built by this function reads and writes. *)
Definition simpleRateLimit (maxRequests windowMs : Z)
    (rateLimits : gmap string (list Z)) (ip : string) (now : Z)
  : Step unit * gmap string (list Z) :=
  let key := ip in
  let rateLimits :=
    match rateLimits !! key with
    | Some _ => rateLimits
    | None => <[key := []]> rateLimits
    end in
  let requests := default [] (rateLimits !! key) in
  let validRequests := List.filter (fun time => now - time <? windowMs) requests in
  if Z.of_nat (Datatypes.length validRequests) >=? maxRequests then
    (Respond
       (mkResponse 429
          (JObject [("error", JString "Rate limit exceeded. Please try again later.");
                    ("retryAfter", JNumber (Z_to_string windowMs))])),
     rateLimits)
  else
    (Next tt, <[key := (validRequests ++ [now])%list]> rateLimits).

Definition deconstructLimiter := simpleRateLimit 10 300000.
Definition imageLimiter := simpleRateLimit 3 300000.

(** The fields of [req.body] the routes read.  [None] is an absent field. *)
Record Body : Type := mkBody {
  invention : option string;
  era : option string;
  creativity : option Q;
  decomposition : option Value
}.

(** [req.sanitizedInput] *)
Record Sanitized : Type := mkSanitized { s_invention : string; s_era : string }.

Definition validateAndModerateInput (env : Env) (body : Body)
  : Step Sanitized * list Event :=
  match invention body with
  | None => (Respond (error_response 400 "Invention name is required"), [])
  | Some invention =>
      if String.eqb (trim invention) "" then
        (Respond (error_response 400 "Invention name is required"), [])
      else if str_length invention >? 100 then
        (Respond (error_response 400 "Invention name too long (max 100 characters)"), [])
      else if checkModerationKeywords invention then
        (Respond (error_response 400 "Invalid invention topic"), [])
      else
        let '(moderation, calls) := moderateContent env invention in
        let proceed :=
          Next (mkSanitized (trim invention)
                  (match era body with
                   | Some era => if String.eqb era "" then "1800s" else trim era
                   | None => "1800s"
                   end)) in
        match moderation with
        | Some m =>
            if flagged m
            then (Respond (error_response 400 "Content flagged by moderation system"), calls)
            else (proceed, calls)
        | None => (proceed, calls)   (* TypeError on [.flagged], caught *)
        end
  end.

(** The state of the process: the limiter map and the caches. *)
Record State : Type := mkState {
  rateLimits : gmap string (list Z);
  caches : Caches
}.

(** A request: the peer address and the parsed body. *)
Record Request : Type := mkRequest { ip : string; body : Body }.

Definition cached_true (field : string) (cached : Value) : Response :=
  mkResponse 200 (JObject [(field, cached); ("cached", JBool true)]).

Definition cached_false (field : string) (fresh : Value) : Response :=
  mkResponse 200 (JObject [(field, fresh); ("cached", JBool false)]).

(** [if (x)] on a value that may be [undefined]. *)
Definition present (x : option Value) : bool :=
  match x with
  | Some v => truthy v
  | None => false
  end.

(** The last handler of [POST /deconstruct]. *)
Definition deconstruct_handler (env : Env) (now : Z) (cs : Caches) (input : Sanitized)
  : Response * Caches * list Event :=
  let invention := s_invention input in
  let '(cached, cs) := getCachedDeconstruction cs now invention in
  let lookup := [EvCacheGet "deconstruction" (deconstruct_key invention)] in
  if present cached then
    (cached_true "decomposition" (default JNull cached), cs, lookup)
  else
    let prompt := getDeconstructionPrompt invention in
    let '(response, calls) := callGPT env DECONSTRUCTION_SYSTEM prompt (2 # 10) 1500 in
    let calls := (lookup ++ EvPrompt "getDeconstructionPrompt" :: calls)%list in
    match response with
    | Throw _ => (error_response 500 "Failed to deconstruct invention", cs, calls)
    | Return response =>
        match JSON_parse env response with
        | None => (error_response 500 "Failed to parse AI response", cs, calls)
        | Some decomposition =>
            (cached_false "decomposition" decomposition,
             setCachedDeconstruction cs now invention decomposition,
             (calls ++ [EvCacheSet "deconstruction" (deconstruct_key invention)])%list)
        end
    end.

(** The last handler of [POST /simulate].  [validatedDepth] is computed
    and never read, and is left out. *)
Definition simulate_handler (env : Env) (now : Z) (cs : Caches) (input : Sanitized)
    (body : Body) : Response * Caches * list Event :=
  let invention := s_invention input in
  let era := s_era input in
  let creativity := default (7 # 10) (creativity body) in
  let validatedCreativity := Qmax 0 (Qmin 1 creativity) in
  let key := simulate_key invention era (Number_toString env validatedCreativity) in
  let '(cached, cs) :=
    getCachedSimulation cs now invention era (Number_toString env validatedCreativity) in
  let lookup := [EvCacheGet "simulation" key] in
  if present cached then
    (cached_true "simulations" (default JNull cached), cs, lookup)
  else
    (* [deconstructionData], or the answer that ends the request *)
    let '(deconstructionData, cs, calls) :=
      if present (decomposition body)
      then (inl (default JNull (decomposition body)), cs, lookup)
      else
        let '(cachedDecomposition, cs) := getCachedDeconstruction cs now invention in
        let calls := (lookup ++ [EvCacheGet "deconstruction" (deconstruct_key invention)])%list in
        if present cachedDecomposition
        then (inl (default JNull cachedDecomposition), cs, calls)
        else
          let decompPrompt := getDeconstructionPrompt invention in
          let '(decompResponse, gpt) :=
            callGPT env DECONSTRUCTION_SYSTEM decompPrompt (2 # 10) 1500 in
          let calls := (calls ++ EvPrompt "getDeconstructionPrompt" :: gpt)%list in
          match decompResponse with
          | Throw _ => (inr (error_response 500 "Failed to generate simulations"), cs, calls)
          | Return decompResponse =>
              match JSON_parse env decompResponse with
              | None => (inr (error_response 500 "Failed to analyze invention"), cs, calls)
              | Some d =>
                  (inl d, setCachedDeconstruction cs now invention d,
                   (calls ++ [EvCacheSet "deconstruction" (deconstruct_key invention)])%list)
              end
          end in
    match deconstructionData with
    | inr answer => (answer, cs, calls)
    | inl deconstructionData =>
        let simulationPrompt :=
          getSimulationPrompt env invention era deconstructionData validatedCreativity in
        let temperature := ((7 # 10) + validatedCreativity * (2 # 10))%Q in
        let '(response, gpt) :=
          callGPT env SIMULATION_SYSTEM simulationPrompt temperature 2500 in
        let calls := (calls ++ EvPrompt "getSimulationPrompt" :: gpt)%list in
        match response with
        | Throw _ => (error_response 500 "Failed to generate simulations", cs, calls)
        | Return response =>
            match JSON_parse env response with
            | None => (error_response 500 "Failed to parse simulation results", cs, calls)
            | Some simulations =>
                (cached_false "simulations" simulations,
                 setCachedSimulation cs now invention era
                   (Number_toString env validatedCreativity) simulations,
                 (calls ++ [EvCacheSet "simulation" key])%list)
            end
        end
    end.

(** A route [router.post(path, validateAndModerateInput, limiter, handler)]:
    each middleware runs only when the one before called [next()]. *)
Definition route
    (limiter : gmap string (list Z) -> string -> Z -> Step unit * gmap string (list Z))
    (handler : Caches -> Sanitized -> Body -> Response * Caches * list Event)
    (env : Env) (now : Z) (st : State) (req : Request)
  : Response * State * list Event :=
  match validateAndModerateInput env (body req) with
  | (Respond answer, calls) => (answer, st, calls)
  | (Next input, calls) =>
      match limiter (rateLimits st) (ip req) now with
      | (Respond answer, rl) => (answer, mkState rl (caches st), calls)
      | (Next _, rl) =>
          let '(answer, cs, calls') := handler (caches st) input (body req) in
          (answer, mkState rl cs, (calls ++ calls')%list)
      end
  end.

(** [POST /api/deconstruct] *)
Definition post_deconstruct (env : Env) (now : Z) : State -> Request -> Response * State * list Event :=
  route deconstructLimiter (fun cs input _ => deconstruct_handler env now cs input) env now.


End Server.

(* ===================================================================== *)
(** * Notions of the specification *)
(* ===================================================================== *)

Module Spec.

(** ** The schema of a decomposition

    The structure the system prompt of [deconstruct/index.ts] asks for: an
    object with a string [name], five arrays of strings, and an array of
    subsystems, each with a string [name] and an array of strings
    [dependency]. *)

Definition is_string (v : Value) : bool :=
  match v with
  | JString _ => true
  | _ => false
  end.

Definition is_string_array (v : Value) : bool :=
  match v with
  | JArray items => forallb is_string items
  | _ => false
  end.

(** The field [k] is there and satisfies [p]. *)
Definition has (k : string) (p : Value -> bool) (fields : list (string * Value)) : bool :=
  match obj_get k fields with
  | Some v => p v
  | None => false
  end.

Definition is_subsystem (v : Value) : bool :=
  match v with
  | JObject fields => has "name" is_string fields && has "dependency" is_string_array fields
  | _ => false
  end.

Definition is_subsystem_array (v : Value) : bool :=
  match v with
  | JArray items => forallb is_subsystem items
  | _ => false
  end.

Definition schema_valid (v : Value) : bool :=
  match v with
  | JObject fields =>
      has "name" is_string fields
      && has "core_functions" is_string_array fields
      && has "materials" is_string_array fields
      && has "enabling_sciences" is_string_array fields
      && has "subsystems" is_subsystem_array fields
      && has "cultural_drivers" is_string_array fields
      && has "min_tech_level" is_string_array fields
  | _ => false
  end.

(** ** The first balanced top-level object of a text

    The text is read from its first opening brace; braces are counted,
    except inside string literals, until the count is back to zero. *)




(** ** The sliding window of the rate limiter *)

(** The timestamps recorded for [ip], [[]] when there is no entry. *)
Definition recorded (rateLimits : gmap string (list Z)) (ip : string) : list Z :=
  default [] (rateLimits !! ip).

(** How many of them lie within the window that ends at [now]. *)
Definition in_window (rateLimits : gmap string (list Z)) (ip : string)
    (now windowMs : Z) : Z :=
  Z.of_nat (Datatypes.length
              (List.filter (fun time => now - time <? windowMs) (recorded rateLimits ip))).

(** ** The error of an exhausted provider list

    The only error the sources create for exhaustion is
    [new Error('All LLM providers failed')] (or its image counterpart):
    this is what an [AllProvidersFailedError] can be in this code. *)
Definition is_all_providers_failed (exhausted : string) (e : Error) : Prop :=
  message e = exhausted.

End Spec.

(* ===================================================================== *)
(** * Concrete environments and requests *)
(* ===================================================================== *)

Module Scenario.

(** No credential is configured; the network is never reached. *)
Definition no_keys : Edge.Env :=
  Edge.mkEnv (fun _ => None) 0 0 (fun _ _ _ => Edge.Rejected (mkError "unreachable")).

(** Only the Hugging Face key is configured, and the back end answers with
    [text]. *)
Definition hf_only (text : string) : Edge.Env :=
  Edge.mkEnv
    (fun k => if String.eqb k "HUGGING_FACE_API_KEY" then Some "hf_token" else None)
    0 0
    (fun _ _ _ => Edge.Responded 200 (Return text)).

(** Every key is configured; every back end answers 500. *)
Definition all_down : Edge.Env :=
  Edge.mkEnv (fun _ => Some "token") 0 0
    (fun _ _ _ => Edge.Responded 500 (Return "upstream error")).

(** No credential is configured; the network answers 200 to everything. *)
Definition keyless : Edge.Env :=
  Edge.mkEnv (fun _ => None) 1700000000000 42
    (fun _ _ _ => Edge.Responded 200 (Return "")).

Definition telephone : Edge.Deconstruct.Request :=
  Edge.Deconstruct.mkRequest "POST" (Some "Telephone").

(** A server whose chat back end answers [text] and whose moderation
    endpoint answers [moderation]. *)
Definition server (text : Completion string)
    (moderation : Completion (list Server.Moderation)) : Server.Env :=
  Server.mkEnv Json.parse (fun _ => "{}") (fun _ => "0.7")
    (fun _ _ _ _ => text) (fun _ => moderation).

Definition body_of (invention : string) : Server.Body :=
  Server.mkBody (Some invention) None None None.

Definition fresh : Server.State := Server.mkState ∅ CacheJs.initial.

(** The limiter map after a sequence of requests, each one an address and
    a time, passed through [limiter]. *)
Definition after_requests
    (limiter : gmap string (list Z) -> string -> Z -> Server.Step unit * gmap string (list Z))
    (requests : list (string * Z)) (rateLimits : gmap string (list Z))
  : gmap string (list Z) :=
  fold_left (fun rl '(ip, time) => snd (limiter rl ip time)) requests rateLimits.


End Scenario.

(* ===================================================================== *)
(** * Values in text: property reads, [join], template literals *)
(* ===================================================================== *)

Module Coerce.

(** What the JavaScript engine does and the repository only uses:
    [JSON.parse], [JSON.stringify] without and with indentation, the text
    of a number (of the number a JSON lexeme denotes, and of a number the
    code computed), the comparison [x > 0] on a value read from a parsed
    object, and the [TypeError] made for an operation that cannot be done
    (its message is the engine's). *)
Record Engine : Type := mkEngine {
  JSON_parse : string -> option Value;
  JSON_stringify : Value -> string;
  JSON_stringify_pretty : Value -> string;
  number_text : string -> string;
  Number_toString : Q -> string;
  positive : Value -> bool;
  type_error : string -> Error
}.

(** [if (x)] on a value that may be [undefined]. *)
Definition is_truthy (x : option Value) : bool :=
  match x with
  | Some v => truthy v
  | None => false
  end.

(** [if (s)] on a text that may be [undefined]. *)
Definition nonempty (s : option string) : bool :=
  match s with
  | Some t => negb (String.eqb t "")
  | None => false
  end.

(** [v.k] on a value that is neither [null] nor [undefined], for a name
    [k] that no prototype defines: an own property of an object, and
    [undefined] ([None]) on anything else. *)
Definition get (k : string) (v : Value) : option Value :=
  match v with
  | JObject fields => obj_get k fields
  | _ => None
  end.

(** [v.k] on any value: reading a property of [null] throws. *)
Definition read (engine : Engine) (k : string) (v : Value) : Completion (option Value) :=
  match v with
  | JNull => Throw (type_error engine "Cannot read properties of null")
  | _ => Return (get k v)
  end.


(** Sequencing of evaluations that may throw. *)
Definition bind {A B : Type} (x : Completion A) (k : A -> Completion B) : Completion B :=
  match x with
  | Return a => k a
  | Throw e => Throw e
  end.

(** [items.join(sep)] given the text of an element: [null] counts as the
    empty text, the first element that throws ends the join. *)
Definition join_by (text : Value -> Completion string) (sep : string)
  : list Value -> Completion string :=
  fix go (items : list Value) : Completion string :=
    match items with
    | [] => Return EmptyString
    | x :: rest =>
        bind (match x with
              | JNull => Return EmptyString
              | _ => text x
              end)
          (fun first =>
             match rest with
             | [] => Return first
             | _ :: _ => bind (go rest) (fun others => Return (first ++ sep ++ others))
             end)
    end.

(** [String(v)], which is what a template literal and [join] apply. An
    array is joined with commas; a plain object is [[object Object]],
    unless it has a [toString] property of its own: no value out of
    [JSON.parse] can be called, and the conversion throws. *)
Fixpoint ToString (engine : Engine) (v : Value) : Completion string :=
  match v with
  | JNull => Return "null"
  | JBool true => Return "true"
  | JBool false => Return "false"
  | JNumber lexeme => Return (number_text engine lexeme)
  | JString s => Return s
  | JArray items => join_by (ToString engine) "," items
  | JObject fields =>
      match obj_get "toString" fields with
      | Some _ => Throw (type_error engine "Cannot convert object to primitive value")
      | None => Return "[object Object]"
      end
  end.

(** [`${x}`] for a value that may be [undefined]. *)
Definition text_of (engine : Engine) (x : option Value) : Completion string :=
  match x with
  | Some v => ToString engine v
  | None => Return "undefined"
  end.

(** [items.join(sep)] *)
Definition join (engine : Engine) (sep : string) (items : list Value) : Completion string :=
  join_by (ToString engine) sep items.

(** [x?.join(sep)]: [undefined] when [x] is [undefined] or [null], the
    joined text when [x] is an array; anything else has no [join] that
    can be called. *)
Definition optional_join (engine : Engine) (sep : string) (x : option Value)
  : Completion (option string) :=
  match x with
  | None | Some JNull => Return None
  | Some (JArray items) => bind (join engine sep items) (fun s => Return (Some s))
  | Some _ => Throw (type_error engine "join is not a function")
  end.

(** [`${s}`] for a text that may be [undefined]. *)
Definition text_or_undefined (s : option string) : string :=
  match s with
  | Some t => t
  | None => "undefined"
  end.

End Coerce.

(* ===================================================================== *)
(** * Edge functions: the other handlers *)
(* ===================================================================== *)

Module EdgeHandlers.

Import Coerce.

(** [{ error, details: error.message }] with status 500. *)
Definition failure (msg : string) (error : Error) : Response :=
  mkResponse 500 (JObject [("error", JString msg); ("details", JString (message error))]).

(** ** [generate-image/index.ts] *)





(** ** [simulate/index.ts] *)

Definition simulate_system : string :=
  "You are a speculative historian and systems engineer. You create alternate invention pathways that could plausibly produce inventions in different historical eras. Always respond with valid JSON only, no additional text.

Return JSON with this exact structure:
{
  " ++ q "pathways" ++ ": [
    {
      " ++ q "id" ++ ": 1,
      " ++ q "title" ++ ": " ++ q "Pathway Name" ++ ",
      " ++ q "narrative" ++ ": " ++ q "80-140 word historical narrative as if it happened" ++ ",
      " ++ q "technical_steps" ++ ": [" ++ q "step1" ++ ", " ++ q "step2" ++ ", " ++ q "step3" ++ "],
      " ++ q "prototype_description" ++ ": " ++ q "How the device looks and works in that era" ++ ",
      " ++ q "feasibility_score" ++ ": 7,
      " ++ q "required_breakthroughs" ++ ": [" ++ q "breakthrough1" ++ ", " ++ q "breakthrough2" ++ "]
    }
  ]
}".

Definition simulate_user (engine : Engine) (invention era : string)
    (decomposition : option Value) (depth creativity : Q) : string :=
  let decompositionText :=
    if is_truthy decomposition
    then "Based on this decomposition: "
           ++ JSON_stringify engine (default JNull decomposition) ++ nl ++ nl
    else "For the invention " ++ q invention ++ ", consider its basic requirements."
           ++ nl ++ nl in
  decompositionText ++ "Imagine 3 alternate invention pathways that could plausibly produce "
    ++ q invention ++ " in the " ++ q era ++ " era.

For each pathway:
- Create a compelling title
- Write a 80-140 word narrative as if it actually happened in that era
- List 3-5 technical steps describing how existing technology is combined
- Describe the prototype (appearance, materials, interface) for that era
- Give a feasibility score 0-10 (considering available technology in " ++ era ++ ")
- List 1-3 required breakthroughs

Creativity level: " ++ Number_toString engine creativity ++ "
Depth level: " ++ Number_toString engine depth ++ "

Return only valid JSON.".

Definition pathway (id : string) (title narrative : string) (technical_steps : list string)
    (prototype_description : string) (feasibility_score : string)
    (required_breakthroughs : list string) : Value :=
  JObject
    [("id", JNumber id);
     ("title", JString title);
     ("narrative", JString narrative);
     ("technical_steps", Edge.strings technical_steps);
     ("prototype_description", JString prototype_description);
     ("feasibility_score", JNumber feasibility_score);
     ("required_breakthroughs", Edge.strings required_breakthroughs)].

(** The placeholder simulations of the [catch (parseError)] branch. *)
Definition fallback_simulations (invention era : string) : Value :=
  JObject
    [("pathways",
      JArray
        [ pathway "1"
            ("Early " ++ invention ++ " - Mechanical Approach")
            ("In the " ++ era ++ ", inventors combined existing mechanical principles to create an early version of the " ++ invention ++ ". Using materials and techniques available at the time, they developed a functional prototype that served similar purposes to the modern invention.")
            ["Combine existing mechanical components";
             "Use available materials and craftsmanship";
             "Apply known scientific principles";
             "Iterate through manual testing"]
            ("A " ++ era ++ "-era device using wood, metal, and basic mechanisms to replicate core functions of a " ++ invention ++ ".")
            "6"
            ["Advanced materials"; "Precision manufacturing"];
          pathway "2"
            (invention ++ " - Alternative Path")
            ("An alternate timeline where the " ++ invention ++ " emerged through a different technological path in the " ++ era ++ ". Inventors approached the problem from a unique angle, leading to an innovative solution using period-appropriate technology.")
            ["Alternative technical approach";
             "Use of different base technologies";
             "Novel combination of existing tools";
             "Gradual refinement process"]
            ("A unique " ++ era ++ " interpretation of the " ++ invention ++ " using alternative materials and methods.")
            "5"
            ["New manufacturing techniques"; "Scientific understanding"];
          pathway "3"
            ("Revolutionary " ++ invention ++ " Concept")
            ("A visionary " ++ era ++ " inventor reimagined the fundamental approach to creating a " ++ invention ++ ". This revolutionary concept challenged conventional thinking and proposed a radically different method to achieve the same goals.")
            ["Revolutionary design approach";
             "Novel use of available resources";
             "Innovative problem-solving";
             "Prototype development"]
            ("A groundbreaking " ++ era ++ " device that challenges traditional approaches to the " ++ invention ++ " concept.")
            "4"
            ["Paradigm shift"; "Technical innovations"; "Resource availability"] ])].

(** The body of a request to [simulate]; [SimulationRequest] makes
    [invention] and [era] texts and [depth] and [creativity] numbers. *)
Record SimulationRequest : Type := mkSimulationRequest {
  s_method : string;
  s_invention : option string;
  s_era : option string;
  s_decomposition : option Value;
  s_depth : option Q;
  s_creativity : option Q
}.

(** The handler passed to [serve] in [simulate/index.ts]. *)
Definition serve_simulate (engine : Engine) (env : Edge.Env) (req : SimulationRequest)
  : Response * list Event :=
  if String.eqb (s_method req) "OPTIONS" then (mkResponse 200 JNull, []) else
  let depth := default (3 # 1) (s_depth req) in
  let creativity := default (8 # 10) (s_creativity req) in
  if negb (nonempty (s_invention req)) || negb (nonempty (s_era req)) then
    (error_response 400 "Invention and era are required", [])
  else
    let invention := default "" (s_invention req) in
    let era := default "" (s_era req) in
    let userPrompt :=
      simulate_user engine invention era (s_decomposition req) depth creativity in
    match Edge.Simulate.callLLM env userPrompt simulate_system with
    | (Return response, calls) =>
        (mkResponse 200
           (match JSON_parse engine (Edge.jsonStr response) with
            | Some simulations => simulations
            | None => fallback_simulations invention era
            end),
         calls)
    | (Throw error, calls) =>
        (failure "Failed to simulate invention pathways" error, calls)
    end.

(** ** [narrative/index.ts] *)

Definition narrative_system : string :=
  "You are a distinguished historian writing alternate history textbook entries. Write in the style appropriate for the historical era requested. Use historically accurate language, terminology, and social context for that time period.".

Definition narrative_user (engine : Engine) (pathwayData : Value) (era : string)
  : Completion string :=
  bind (text_of engine (get "title" pathwayData)) (fun title =>
  bind (text_of engine (get "prototype_description" pathwayData)) (fun description =>
  bind (optional_join engine ", " (get "technical_steps" pathwayData)) (fun steps =>
  bind (optional_join engine ", " (get "required_breakthroughs" pathwayData))
    (fun breakthroughs =>
  Return ("Write a 250-350 word history book entry about this alternate invention pathway:

Title: " ++ title ++ "
Era: " ++ era ++ "
Description: " ++ description ++ "
Technical Steps: " ++ text_or_undefined steps ++ "
Required Breakthroughs: " ++ text_or_undefined breakthroughs ++ "

Write as if this invention actually existed and had real historical impact in the " ++ era ++ ". Include:
- The circumstances of its invention
- Its social and economic impact
- How it changed daily life
- Technical details appropriate for the era
- Names of fictional but plausible inventors/locations

Use vocabulary and writing style appropriate for the " ++ era ++ " period. Make it sound like it's from an actual history textbook about this alternate timeline."))))).

(** The body of a request to [narrative]. *)
Record NarrativeRequest : Type := mkNarrativeRequest {
  n_method : string;
  n_pathwayData : option Value;
  n_era : option string
}.

(** The handler passed to [serve] in [narrative/index.ts]. A property
    that is [undefined] is left out of the JSON body. *)
Definition serve_narrative (engine : Engine) (env : Edge.Env) (req : NarrativeRequest)
  : Response * list Event :=
  if String.eqb (n_method req) "OPTIONS" then (mkResponse 200 JNull, []) else
  if negb (is_truthy (n_pathwayData req)) || negb (nonempty (n_era req)) then
    (error_response 400 "Pathway data and era are required", [])
  else
    let pathwayData := default JNull (n_pathwayData req) in
    let era := default "" (n_era req) in
    match narrative_user engine pathwayData era with
    | Throw error => (failure "Failed to generate narrative" error, [])
    | Return userPrompt =>
        match Edge.Narrative.callLLM env userPrompt narrative_system with
        | (Return narrative, calls) =>
            (mkResponse 200
               (JObject
                  ([("narrative", JString (trim narrative)); ("era", JString era)]
                   ++ match get "title" pathwayData with
                      | Some title => [("title", title)]
                      | None => []
                      end)),
             calls)
        | (Throw error, calls) => (failure "Failed to generate narrative" error, calls)
        end
    end.

End EdgeHandlers.

(* ===================================================================== *)
(** * [cache.js]: statistics and flushing *)
(* ===================================================================== *)

Module CacheAdmin.

Import CacheJs.

(** [cache.keys().length]: the entries held, those whose time has passed
    but that no [get] has met yet included. *)
Definition key_count (c : NodeCache.Cache) : Z := Z.of_nat (size (NodeCache.data c)).

(** [cache.flushAll()]: no entry left, counters back to zero. *)
Definition flushAll (c : NodeCache.Cache) : NodeCache.Cache := NodeCache.empty.

(** The instance of a namespace. *)
Definition instance (ns : Namespace) (cs : Caches) : NodeCache.Cache :=
  match ns with
  | Deconstruction => deconstructionCache cs
  | Simulation => simulationCache cs
  | Image => imageCache cs
  | Transcription => audioCache cs
  end.

Definition stats_of (c : NodeCache.Cache) : Value :=
  JObject [("keys", JNumber (Z_to_string (key_count c)));
           ("hits", JNumber (Z_to_string (NodeCache.hits c)));
           ("misses", JNumber (Z_to_string (NodeCache.misses c)))].

(** [getCacheStats()] *)
Definition getCacheStats (cs : Caches) : Value :=
  JObject [("deconstruction", stats_of (deconstructionCache cs));
           ("simulation", stats_of (simulationCache cs));
           ("image", stats_of (imageCache cs));
           ("audio", stats_of (audioCache cs))].

(** [clearAllCaches()] *)
Definition clearAllCaches (cs : Caches) : Caches :=
  mkCaches (flushAll (deconstructionCache cs)) (flushAll (simulationCache cs))
           (flushAll (imageCache cs)) (flushAll (audioCache cs)).

End CacheAdmin.

(* ===================================================================== *)
(** * [server/utils/exports.js] *)
(* ===================================================================== *)

Module Exports.

Import Coerce.

(** The bullet U+2022 of the source, held as its three UTF-8 bytes: the
    string model has no code unit above 255. *)
Definition bullet : string := "•".

(** [x || "N/A"] for a text that may be [undefined]. *)
Definition or_na (x : option string) : string :=
  match x with
  | Some t => if String.eqb t "" then "N/A" else t
  | None => "N/A"
  end.

(** [x && x.length > 0]: the length of an array or of a text is its own;
    an object may have a [length] property, compared as the engine does. *)
Definition has_items (engine : Engine) (x : option Value) : bool :=
  match x with
  | Some (JArray items) => negb (Nat.eqb (Datatypes.length items) 0)
  | Some (JString s) => negb (String.eqb s "")
  | Some (JObject fields) =>
      match obj_get "length" fields with
      | Some n => positive engine n
      | None => false
      end
  | _ => false
  end.

(** [x.forEach(f)] with the text that [f] adds for each element and its
    index: [x] has to be an array. *)
Definition forEach (engine : Engine) (f : nat -> Value -> Completion string)
    (x : option Value) : Completion string :=
  match x with
  | Some (JArray items) =>
      (fix go (i : nat) (l : list Value) : Completion string :=
         match l with
         | [] => Return EmptyString
         | item :: rest =>
             bind (f i item) (fun first =>
             bind (go (S i) rest) (fun others => Return (first ++ others)))
         end) 0%nat items
  | _ => Throw (type_error engine "forEach is not a function")
  end.

(** [formatDecomposition(decomposition)], for a [decomposition] that
    [if (decomposition)] accepted. *)
Definition formatDecomposition (engine : Engine) (decomposition : Value)
  : Completion string :=
  bind (optional_join engine ", " (get "core_functions" decomposition)) (fun functions =>
  bind (optional_join engine ", " (get "materials" decomposition)) (fun materials =>
  bind (optional_join engine ", " (get "enabling_sciences" decomposition)) (fun sciences =>
  let content :=
    "Core Functions:" ++ nl ++ or_na functions ++ nl ++ nl
    ++ "Key Materials:" ++ nl ++ or_na materials ++ nl ++ nl
    ++ "Enabling Sciences:" ++ nl ++ or_na sciences ++ nl ++ nl in
  let subsystems := get "subsystems" decomposition in
  if is_truthy subsystems && has_items engine subsystems then
    bind (forEach engine
            (fun _ sub =>
               bind (read engine "name" sub) (fun name =>
               bind (text_of engine name) (fun name_text =>
               bind (optional_join engine ", " (get "dependencies" sub)) (fun deps =>
               Return (bullet ++ " " ++ name_text ++ ": " ++ or_na deps ++ nl)))))
            subsystems)
      (fun lines => Return (content ++ "Subsystems:" ++ nl ++ lines))
  else Return content))).

(** [formatPathway(pathway)], for a [pathway] that is not [null]. *)
Definition formatPathway (engine : Engine) (pathway : Value) : Completion string :=
  bind (text_of engine (get "narrative" pathway)) (fun narrative =>
  let steps := get "technical_steps" pathway in
  bind (if is_truthy steps && has_items engine steps then
          bind (forEach engine
                  (fun i step =>
                     bind (ToString engine step) (fun step_text =>
                     Return (Z_to_string (Z.of_nat i + 1) ++ ". " ++ step_text ++ nl)))
                  steps)
            (fun lines => Return ("Technical Steps:" ++ nl ++ lines ++ nl))
        else Return EmptyString) (fun steps_text =>
  bind (text_of engine (get "prototype_description" pathway)) (fun prototype =>
  let impact := get "cultural_impact" pathway in
  bind (if is_truthy impact
        then bind (text_of engine impact) (fun t => Return ("Cultural Impact: " ++ t))
        else Return EmptyString) (fun impact_text =>
  Return (narrative ++ nl ++ nl ++ steps_text
            ++ "Prototype: " ++ prototype ++ nl ++ nl ++ impact_text))))).

(** An object literal: a property whose value is [undefined] is left
    out. *)
Definition field (k : string) (x : option Value) : list (string * Value) :=
  match x with
  | Some v => [(k, v)]
  | None => []
  end.

(** The section made for the pathway at position [index]. *)
Definition pathway_section (engine : Engine) (index : nat) (pathway : Value)
  : Completion Value :=
  bind (read engine "title" pathway) (fun title =>
  bind (text_of engine title) (fun title_text =>
  bind (formatPathway engine pathway) (fun content =>
  Return (JObject
            ([("title", JString ("Pathway " ++ Z_to_string (Z.of_nat index + 1) ++ ": "
                                   ++ title_text));
              ("content", JString content);
              ("type", JString "pathway")]
             ++ field "feasibility_score" (get "feasibility_score" pathway)
             ++ field "required_breakthroughs" (get "required_breakthroughs" pathway)
             ++ field "image" (get "id" pathway)))))).

(** The sections of the pathways from position [index] on. *)
Fixpoint pathway_sections (engine : Engine) (index : nat) (pathways : list Value)
  : Completion (list Value) :=
  match pathways with
  | [] => Return []
  | pathway :: rest =>
      bind (pathway_section engine index pathway) (fun section =>
      bind (pathway_sections engine (S index) rest) (fun sections =>
      Return (section :: sections)))
  end.

(** [prepareSectionsForExport(decomposition, simulations, narratives)] *)
Definition prepareSectionsForExport (engine : Engine)
    (decomposition simulations narratives : option Value) : Completion (list Value) :=
  bind (if is_truthy decomposition
        then bind (formatDecomposition engine (default JNull decomposition))
               (fun content =>
                  Return [JObject [("title", JString "Invention Deconstruction");
                                   ("content", JString content);
                                   ("type", JString "decomposition")]])
        else Return []) (fun first =>
  let pathways :=
    if is_truthy simulations then get "pathways" (default JNull simulations) else None in
  bind (if is_truthy pathways
        then match pathways with
             | Some (JArray items) => pathway_sections engine 0 items
             | _ => Throw (type_error engine "forEach is not a function")
             end
        else Return []) (fun middle =>
  let last :=
    if is_truthy narratives
    then [JObject [("title", JString "Historical Narrative");
                   ("content", default JNull narratives);
                   ("type", JString "narrative")]]
    else [] in
  Return (first ++ middle ++ last)%list)).

(** The test of [/[^a-zA-Z0-9]/]'s complement: a letter or a digit. *)
Definition is_alnum (a : ascii) : bool :=
  let n := nat_of_ascii a in
  ((97 <=? n) && (n <=? 122) || (65 <=? n) && (n <=? 90) || (48 <=? n) && (n <=? 57))%nat.

(** [s.replace(/[^a-zA-Z0-9]/g, "_")] *)
Fixpoint clean (s : string) : string :=
  match s with
  | EmptyString => EmptyString
  | String a r => String (if is_alnum a then a else "_"%char) (clean r)
  end.

(** [generateExportFilename(invention, era, format)] on a day whose ISO
    date is [today]; [era.replace] throws when [era] is [undefined]. *)
Definition generateExportFilename (engine : Engine) (today : string)
    (invention : string) (era : option string) (format : string) : Completion string :=
  let timestamp := today in
  let cleanInvention := clean invention in
  match era with
  | None => Throw (type_error engine "Cannot read properties of undefined")
  | Some era =>
      let cleanEra := clean era in
      Return ("reverse_invention_" ++ cleanInvention ++ "_" ++ cleanEra ++ "_"
                ++ timestamp ++ "." ++ format)
  end.

End Exports.

(* ===================================================================== *)
(** * The Express server: the other routes *)
(* ===================================================================== *)

Module Routes.

Import CacheJs Coerce.

(** The calls made while serving a request of these routes: those of
    [Event], and the calls for images, audio and files. *)
Inductive Call : Type :=
| Base (e : Event)
| EvImages (prompt size : string)            (** [client.images.generate] *)
| EvTranscription (filename : string)        (** [client.audio.transcriptions.create] *)
| EvReadFile (path : string)                 (** [fs.readFile] *)
| EvUnlink (path : string)                   (** [fs.unlink] *)
| EvCreatePPTX (title : string).             (** [createPPTX] *)

(** What these routes use besides [Server.Env]: the engine, the image and
    audio endpoints of the OpenAI client ([images] is
    [client.images.generate] followed by [.data], [transcriptions] is
    [client.audio.transcriptions.create] followed by [.text]), the file
    system, the MD5 digest in hexadecimal, the ISO date of the day, and
    the slide writer of [exports.js]. *)
Record Services : Type := mkServices {
  engine : Engine;
  openai : Server.Env;
  images : string -> string -> Z -> Completion Value;
  transcriptions : list Byte.byte -> string -> Completion string;
  readFile : string -> Completion (list Byte.byte);
  md5_hex : list Byte.byte -> string;
  today : string;
  createPPTX : string -> list Value -> option Value -> Completion unit
}.

(** ** [utils/openaiClient.js] *)

Definition generateImage (sv : Services) (prompt size : string) (n : Z)
  : Completion Value * list Call :=
  (match images sv prompt size n with
   | Return data => Return data
   | Throw error => Throw (mkError ("Image generation failed: " ++ message error))
   end,
   [EvImages prompt size]).

Definition transcribeAudio (sv : Services) (audioBuffer : list Byte.byte)
    (filename : string) : Completion string * list Call :=
  (match transcriptions sv audioBuffer filename with
   | Return text => Return text
   | Throw error => Throw (mkError ("Transcription failed: " ++ message error))
   end,
   [EvTranscription filename]).

(** ** [utils/prompts.js] *)

(** [styleInstructions[key]] as a text, [None] when the property is
    [undefined]. Besides the five styles, the object inherits
    [constructor] and [__proto__], the only names of [Object.prototype]
    without a capital letter. *)
Definition styleInstructions (key : string) : option string :=
  if String.eqb key "1800s" then
    Some "Victorian era, brass and wood construction, mechanical gears, hand-crafted details, ornate engravings"
  else if String.eqb key "1700s" then
    Some "Colonial period, simple wooden construction, basic metalwork, candlelit workshops"
  else if String.eqb key "1600s" then
    Some "Renaissance style, elaborate clockwork mechanisms, guild craftsmanship, parchment diagrams"
  else if String.eqb key "medieval" then
    Some "Medieval manuscript illumination style, stone and metal construction, monastery workshop"
  else if String.eqb key "ancient" then
    Some "Ancient civilization aesthetic, stone, bronze, and clay materials, hieroglyphic annotations"
  else if String.eqb key "constructor" then Some "function Object() { [native code] }"
  else if String.eqb key "__proto__" then Some "[object Object]"
  else None.

Definition getVisualPrompt (engine : Engine) (pathwayData : Value) (era : string)
  : Completion string :=
  let eraStyle :=
    match styleInstructions (toLowerCase era) with
    | Some style => style
    | None => default "" (styleInstructions "1800s")
    end in
  bind (text_of engine (get "title" pathwayData)) (fun title =>
  bind (text_of engine (get "prototype_description" pathwayData)) (fun prototype =>
  bind (text_of engine (get "visual_description" pathwayData)) (fun visual =>
  Return ("Create a detailed technical illustration of " ++ q title ++ " - " ++ prototype ++ "

Style: " ++ eraStyle ++ "
Format: Technical blueprint/schematic with cross-section views
Details: Show internal mechanisms, materials, and construction methods appropriate for the " ++ era ++ " era
Quality: Photorealistic rendering with period-accurate materials and craftsmanship
Background: Neutral/white background suitable for documentation
Perspective: Isometric view with cutaway sections showing internal workings

Additional context: " ++ visual)))).

Definition NARRATIVE_SYSTEM : string :=
  "You are a distinguished historian writing entries for an alternate history textbook. Your writing style should match academic historical texts of the 19th century, with formal language and detailed analysis of technological and social impact.".

Definition getNarrativePrompt (engine : Engine) (pathwayData : Value) (era : string)
  : Completion string :=
  bind (text_of engine (get "title" pathwayData)) (fun title =>
  bind (text_of engine (get "narrative" pathwayData)) (fun narrative =>
  bind (text_of engine (get "prototype_description" pathwayData)) (fun prototype =>
  bind (text_of engine (get "cultural_impact" pathwayData)) (fun impact =>
  Return ("
Write a 250-350 word historical entry describing the invention of " ++ q title ++ " during the " ++ era ++ " era. 

Include:
- The circumstances of its invention
- Key figures involved (create plausible names)
- Technical details of how it worked
- Social and economic impact
- How it influenced subsequent technological development
- Challenges and limitations of the early versions

Write in the style of a formal historical textbook entry, as if this invention actually existed and shaped history. Use historically consistent vocabulary and tone appropriate for the " ++ era ++ " period.

Context: " ++ narrative ++ "
Technical details: " ++ prototype ++ "
Cultural impact: " ++ impact))))).

(** ** [routes/openai.js] *)

(** The fields of [req.body] that [POST /generate-image] reads. *)
Record ImageBody : Type := mkImageBody {
  prompt : option string;
  style : option string;
  size : option string;
  pathwayData : option Value;
  era : option string
}.

(** [`${prompt}_${style}_${size}`] with the defaults of the
    destructuring. *)
Definition cacheKey (prompt : string) (style size : option string) : string :=
  prompt ++ "_" ++ default "technical" style ++ "_" ++ default "1024x1024" size.

(** The last handler of [POST /generate-image]. *)
Definition image_handler (sv : Services) (now : Z) (cs : Caches) (body : ImageBody)
  : Response * Caches * list Call :=
  let size_text := default "1024x1024" (size body) in
  if negb (nonempty (prompt body)) || String.eqb (trim (default "" (prompt body))) "" then
    (error_response 400 "Image prompt is required", cs, [])
  else
    let prompt_text := default "" (prompt body) in
    let key := cacheKey prompt_text (style body) (size body) in
    let '(cached, cs) := getCachedImage cs now key in
    let lookup := [Base (EvCacheGet "image" (image_key key))] in
    if is_truthy cached then
      (Server.cached_true "images" (default JNull cached), cs, lookup)
    else
      let visual := is_truthy (pathwayData body) && nonempty (era body) in
      let calls :=
        if visual then (lookup ++ [Base (EvPrompt "getVisualPrompt")])%list else lookup in
      match
        (if visual
         then getVisualPrompt (engine sv) (default JNull (pathwayData body))
                (default "" (era body))
         else Return prompt_text)
      with
      | Throw _ => (error_response 500 "Failed to generate image", cs, calls)
      | Return enhancedPrompt =>
          let '(images, gen) := generateImage sv enhancedPrompt size_text 1 in
          let calls := (calls ++ gen)%list in
          match images with
          | Throw _ => (error_response 500 "Failed to generate image", cs, calls)
          | Return images =>
              (Server.cached_false "images" images,
               setCachedImage cs now key images,
               (calls ++ [Base (EvCacheSet "image" (image_key key))])%list)
          end
      end.

(** [POST /api/generate-image]: the limiter, then the handler. *)
Definition post_generate_image (sv : Services) (now : Z) (st : Server.State)
    (ip : string) (body : ImageBody) : Response * Server.State * list Call :=
  match Server.imageLimiter (Server.rateLimits st) ip now with
  | (Server.Respond answer, rl) => (answer, Server.mkState rl (Server.caches st), [])
  | (Server.Next _, rl) =>
      let '(answer, cs, calls) := image_handler sv now (Server.caches st) body in
      (answer, Server.mkState rl cs, calls)
  end.

(** The fields of [req.body] that [POST /narrative] reads. *)
Record NarrativeBody : Type := mkNarrativeBody {
  n_pathwayData : option Value;
  n_era : option string
}.

(** [POST /api/narrative]: no limiter, no moderation, no cache. *)
Definition post_narrative (sv : Services) (body : NarrativeBody)
  : Response * list Call :=
  if negb (is_truthy (n_pathwayData body)) || negb (nonempty (n_era body)) then
    (error_response 400 "Pathway data and era are required", [])
  else
    let pathwayData := default JNull (n_pathwayData body) in
    let era := default "" (n_era body) in
    (* the log line, which prints the title *)
    match text_of (engine sv) (get "title" pathwayData) with
    | Throw _ => (error_response 500 "Failed to generate narrative", [])
    | Return _ =>
        match getNarrativePrompt (engine sv) pathwayData era with
        | Throw _ =>
            (error_response 500 "Failed to generate narrative",
             [Base (EvPrompt "getNarrativePrompt")])
        | Return prompt =>
            let '(narrative, gpt) :=
              Server.callGPT (openai sv) NARRATIVE_SYSTEM prompt (6 # 10) 800 in
            let calls := (Base (EvPrompt "getNarrativePrompt") :: map Base gpt)%list in
            match narrative with
            | Throw _ => (error_response 500 "Failed to generate narrative", calls)
            | Return narrative =>
                (mkResponse 200 (JObject [("narrative", JString narrative)]), calls)
            end
        end
    end.

(** [req.file] as the upload middleware leaves it. *)
Record Upload : Type := mkUpload { path : string; originalname : string }.

(** [fs.unlink(req.file.path).catch(console.error)] *)
Definition unlink (file : Upload) : list Call := [EvUnlink (path file)].

(** The last handler of [POST /transcribe]. *)
Definition transcribe_handler (sv : Services) (now : Z) (cs : Caches)
    (file : option Upload) : Response * Caches * list Call :=
  match file with
  | None => (error_response 400 "Audio file is required", cs, [])
  | Some file =>
      (* the [catch] block *)
      let failed (cs : Caches) (calls : list Call) :=
        (error_response 500 "Failed to transcribe audio", cs,
         (calls ++ (if String.eqb (path file) "" then [] else unlink file))%list) in
      match readFile sv (path file) with
      | Throw _ => failed cs [EvReadFile (path file)]
      | Return fileBuffer =>
          let fileHash := md5_hex sv fileBuffer in
          let '(cached, cs) := getCachedTranscription cs now fileHash in
          let calls :=
            [EvReadFile (path file); Base (EvCacheGet "audio" (audio_key fileHash))] in
          if is_truthy cached then
            (Server.cached_true "text" (default JNull cached), cs,
             (calls ++ unlink file)%list)
          else
            let '(transcription, call) :=
              transcribeAudio sv fileBuffer (originalname file) in
            let calls := (calls ++ call)%list in
            match transcription with
            | Throw _ => failed cs calls
            | Return transcription =>
                (Server.cached_false "text" (JString transcription),
                 setCachedTranscription cs now fileHash (JString transcription),
                 (calls ++ Base (EvCacheSet "audio" (audio_key fileHash)) :: unlink file)%list)
            end
      end
  end.

(** The fields of [req.body] that [POST /export] reads. *)
Record ExportBody : Type := mkExportBody {
  e_title : option string;
  e_invention : option string;
  e_era : option string;
  e_decomposition : option Value;
  e_simulations : option Value;
  e_narratives : option Value;
  e_images : option Value
}.

(** How [POST /export] goes on: with a JSON answer, or, the headers set
    for a download under [filename], with the streaming of the deck. *)
Inductive ExportAnswer : Type :=
| Json (answer : Response)
| Attachment (filename : string).

(** [POST /api/export], up to the call of [pptx.stream]. *)
Definition post_export (sv : Services) (body : ExportBody) : ExportAnswer * list Call :=
  if negb (nonempty (e_title body)) || negb (nonempty (e_invention body)) then
    (Json (error_response 400 "Title and invention are required"), [])
  else
    let title := default "" (e_title body) in
    let invention := default "" (e_invention body) in
    let failed (calls : list Call) :=
      (Json (error_response 500 "Failed to export presentation"), calls) in
    match Exports.prepareSectionsForExport (engine sv) (e_decomposition body)
            (e_simulations body) (e_narratives body) with
    | Throw _ => failed []
    | Return sections =>
        match createPPTX sv title sections
                (match e_images body with
                 | Some images => Some images
                 | None => Some (JObject [])
                 end) with
        | Throw _ => failed [EvCreatePPTX title]
        | Return _ =>
            match Exports.generateExportFilename (engine sv) (today sv) invention
                    (e_era body) "pptx" with
            | Throw _ => failed [EvCreatePPTX title]
            | Return filename => (Attachment filename, [EvCreatePPTX title])
            end
        end
    end.

(** [GET /api/cache-stats] *)
Definition get_cache_stats (cs : Caches) : Response :=
  mkResponse 200 (CacheAdmin.getCacheStats cs).

End Routes.

(* ===================================================================== *)
(** * More notions and concrete cases *)
(* ===================================================================== *)

Module Checks.

(** A feasibility score between 0 and 10, as a JSON integer. *)
Definition is_score (v : Value) : bool :=
  match v with
  | JNumber lexeme =>
      existsb (String.eqb lexeme) ["0"; "1"; "2"; "3"; "4"; "5"; "6"; "7"; "8"; "9"; "10"]
  | _ => false
  end.

Definition is_nonempty_string_array (v : Value) : bool :=
  match v with
  | JArray (item :: rest) => forallb Spec.is_string (item :: rest)
  | _ => false
  end.

(** A pathway as the system prompt of [simulate/index.ts] asks for it. *)
Definition is_pathway (v : Value) : bool :=
  match v with
  | JObject fields =>
      Spec.has "title" Spec.is_string fields
      && Spec.has "narrative" Spec.is_string fields
      && Spec.has "technical_steps" is_nonempty_string_array fields
      && Spec.has "prototype_description" Spec.is_string fields
      && Spec.has "feasibility_score" is_score fields
      && Spec.has "required_breakthroughs" is_nonempty_string_array fields
  | _ => false
  end.

(** Simulations with at least one pathway, all of them well formed. *)
Definition simulations_valid (v : Value) : bool :=
  match v with
  | JObject fields =>
      match obj_get "pathways" fields with
      | Some (JArray (p :: rest)) => forallb is_pathway (p :: rest)
      | _ => false
      end
  | _ => false
  end.

(** The calls that delete a file. *)
Definition unlinks (calls : list Routes.Call) : list string :=
  flat_map (fun c => match c with Routes.EvUnlink path => [path] | _ => [] end) calls.


(** The texts the Express routes put in the body of an answer 500. *)
Definition failure_messages : list string :=
  ["Failed to deconstruct invention"; "Failed to parse AI response";
   "Failed to generate simulations"; "Failed to analyze invention";
   "Failed to parse simulation results"; "Failed to generate image";
   "Failed to generate narrative"; "Failed to transcribe audio";
   "Failed to export presentation"].

(** An answer that, when its status is 500, has one of these texts as
    its [error] and nothing else. *)
Definition generic (answer : Response) : Prop :=
  status answer = 500 ->
  exists msg, In msg failure_messages /\ answer = error_response 500 msg.

(** A letter, a digit or an underscore. *)
Definition is_word_char (a : ascii) : bool :=
  Exports.is_alnum a || Ascii.eqb a "_".

(** The characters of a text. *)
Definition chars (s : string) : list ascii := list_ascii_of_string s.

End Checks.

Module Cases.

(** An engine that prints a number lexeme as it is. *)
Definition engine : Coerce.Engine :=
  Coerce.mkEngine Json.parse (fun _ => "{}") (fun _ => "{}") (fun lexeme => lexeme)
    (fun _ => "0.8") (fun _ => true) (fun what => mkError what).

(** Services whose image endpoint answers [data] and whose audio endpoint
    answers [text]; every file holds the same three bytes. *)
Definition services (data : Completion Value) (text : Completion string)
  : Routes.Services :=
  Routes.mkServices engine (Scenario.server (Return "{}") (Return []))
    (fun _ _ _ => data) (fun _ _ => text)
    (fun _ => Return [Byte.x52; Byte.x49; Byte.x46])
    (fun _ => "0cc175b9c0f1b6a831c399e269772661")
    "2025-01-02"
    (fun _ _ _ => Return tt).

Definition one_image : Value :=
  JArray [JObject [("url", JString "https://images.example/1.png")]].

Definition upload : Routes.Upload := Routes.mkUpload "uploads/3f2a" "memo.wav".


End Cases.

(* ===================================================================== *)
(** * Sequences of cache accesses *)
(* ===================================================================== *)

Module Usage.

Import CacheJs.

(** One use of [cache.js] by the routes: a [getCached...] or a
    [setCached...] call of a namespace, with the time it is made at. *)
Inductive Access : Type :=
| Lookup (ns : Namespace) (subject : Subject ns) (time : Z)
| Store (ns : Namespace) (subject : Subject ns) (time : Z) (value : Value).

Definition perform (cs : Caches) (a : Access) : Caches :=
  match a with
  | Lookup ns subject time => snd (getCached ns cs time subject)
  | Store ns subject time value => setCached ns cs time subject value
  end.

(** The caches after a sequence of accesses. *)
Definition replay (cs : Caches) (accesses : list Access) : Caches :=
  fold_left perform accesses cs.

Definition same (a b : Namespace) : bool :=
  match a, b with
  | Deconstruction, Deconstruction | Simulation, Simulation
  | Image, Image | Transcription, Transcription => true
  | _, _ => false
  end.

(** How many lookups, and how many stores, a sequence makes in a
    namespace. *)
Definition lookups (ns : Namespace) (accesses : list Access) : Z :=
  Z.of_nat (Datatypes.length
    (List.filter (fun a => match a with Lookup ns' _ _ => same ns ns' | _ => false end)
       accesses)).

Definition stores (ns : Namespace) (accesses : list Access) : Z :=
  Z.of_nat (Datatypes.length
    (List.filter (fun a => match a with Store ns' _ _ _ => same ns ns' | _ => false end)
       accesses)).

(** The name of a namespace in the object [getCacheStats] returns. *)
Definition label (ns : Namespace) : string :=
  match ns with
  | Deconstruction => "deconstruction"
  | Simulation => "simulation"
  | Image => "image"
  | Transcription => "audio"
  end.

(** The counters and the number of keys of [c'] against those of [c],
    [gets] lookups and [puts] stores later. *)
Definition within (c c' : NodeCache.Cache) (gets puts : Z) : Prop :=
  NodeCache.hits c' + NodeCache.misses c' = NodeCache.hits c + NodeCache.misses c + gets
  /\ NodeCache.hits c <= NodeCache.hits c'
  /\ NodeCache.misses c <= NodeCache.misses c'
  /\ CacheAdmin.key_count c' <= CacheAdmin.key_count c + puts.

End Usage.

(* ===================================================================== *)
(** * The fallback loop: order and exhaustion *)
(* ===================================================================== *)

Section FallbackLoop.

Import Fallback.

Context {Req Res : Type}.
Variable exhausted : string.
Variable req : Req.

Implicit Types (p : Provider Req Res) (pre post : list (Provider Req Res)).

Lemma invocations_length pre index :
  Datatypes.length (invocations index pre) = Datatypes.length pre.
Proof.
  revert index. induction pre as [|q pre IH]; intros index; simpl; [|rewrite IH]; reflexivity.
Qed.

(** A failing prefix is walked through, and the first provider that
    succeeds ends the loop. *)
Lemma for_of_success pre p post r :
  Forall (fails req) pre ->
  fn p req = Return r ->
  forall index lastError,
    for_of exhausted index (pre ++ p :: post) req lastError
    = (Return r, invocations index (pre ++ [p])).
Proof.
  intros Hpre Hp. induction Hpre as [|q pre [e Hq] _ IH]; intros index lastError; simpl.
  - rewrite Hp. reflexivity.
  - rewrite Hq, IH. reflexivity.
Qed.

(** When the last provider fails too, its error is the one thrown,
    whatever was recorded before. *)
Lemma for_of_exhausted pre p e :
  Forall (fails req) pre ->
  fn p req = Throw e ->
  forall index lastError,
    for_of exhausted index (pre ++ [p]) req lastError
    = (Throw e, invocations index (pre ++ [p])).
Proof.
  intros Hpre Hp. induction Hpre as [|q pre [e' Hq] _ IH]; intros index lastError; simpl.
  - rewrite Hp. reflexivity.
  - rewrite Hq, IH. reflexivity.
Qed.

(** An empty list throws the error made for exhaustion. *)
Lemma run_empty : run exhausted [] req = (Throw (mkError exhausted) : Completion Res, []).
Proof. reflexivity. Qed.

End FallbackLoop.

(** The other loops of the edge functions, run on concrete environments. *)

Example generateImage_second_provider :
  Edge.GenerateImage.generateImage Scenario.keyless "a cat"
  = (Return
       (Edge.GenerateImage.image "1700000000000"
          "https://image.pollinations.ai/prompt/a%20cat?width=1024&height=1024&model=flux&seed=42"
          "Pollinations"),
     [EvInvoke 0 "HuggingFace"; EvInvoke 1 "Pollinations"]).
Proof. reflexivity. Qed.

Example generateImage_exhausted :
  Edge.GenerateImage.generateImage Scenario.all_down "a cat"
  = (Throw (mkError
       "Failed to generate image with Pollinations: Pollinations API error: 500"),
     [EvInvoke 0 "HuggingFace"; EvInvoke 1 "Pollinations"]).
Proof. reflexivity. Qed.

Example simulate_exhausted :
  Edge.Simulate.callLLM Scenario.all_down "prompt" "system"
  = (Throw (mkError "Together API error: 500"),
     [EvInvoke 0 "Groq"; EvInvoke 1 "Together"]).
Proof. reflexivity. Qed.

Example narrative_exhausted :
  Edge.Narrative.callLLM Scenario.no_keys "prompt" "system"
  = (Throw (mkError "GROQ_API_KEY not configured"), [EvInvoke 0 "Groq"]).
Proof. reflexivity. Qed.

(** C1. Providers are tried strictly in the order of the list: when the
    first [k-1] providers fail on the request and the [k]-th succeeds with
    [r], the loop returns [r], and the calls it made are exactly one
    invocation of each of the first [k] providers, in order; no provider
    after the [k]-th is invoked. This holds for the [callLLM] of the
    [deconstruct] function in particular. *)
Theorem fallback_order :
  forall (Req Res : Type) (exhausted : string) (req : Req)
         (pre post : list (Fallback.Provider Req Res)) (p : Fallback.Provider Req Res)
         (r : Res),
    Forall (Fallback.fails req) pre ->
    Fallback.fn p req = Return r ->
    Fallback.run exhausted (pre ++ p :: post) req
    = (Return r, Fallback.invocations 0 (pre ++ [p]))
    /\ Datatypes.length (Fallback.invocations 0 (pre ++ [p])) = S (Datatypes.length pre).
Proof.
  intros Req Res exhausted req pre post p r Hpre Hp.
  split.
  - unfold Fallback.run. apply for_of_success; assumption.
  - rewrite invocations_length, length_app. simpl. lia.
Qed.

Lemma fallback_order_witness :
  Edge.Deconstruct.callLLM (Scenario.hf_only "{}") "prompt" "system"
  = (Return "{}",
     [EvInvoke 0 "Groq"; EvInvoke 1 "Together"; EvInvoke 2 "HuggingFace"]).
Proof.
  pose (env := Scenario.hf_only "{}").
  apply (proj1 (fallback_order (string * string) string "All LLM providers failed"
           ("prompt", "system")
           [ Fallback.mkProvider "Groq" (Edge.callGroqAPI env "0.3" "1000");
             Fallback.mkProvider "Together" (Edge.callTogetherAPI env "0.3" "1000") ]
           []
           (Fallback.mkProvider "HuggingFace" (Edge.callHuggingFaceAPI env))
           "{}"
           ltac:(repeat constructor; eexists; reflexivity)
           ltac:(reflexivity))).
Defined.

(** The validation of the [deconstruct] function lets a subject through
    when it is not blank and at most 100 code units long. *)
Lemma edge_validation_passes JSON_parse env req inv :
  Edge.Deconstruct.method req <> "OPTIONS" ->
  Edge.Deconstruct.invention req = Some inv ->
  trim inv <> "" ->
  str_length inv <= 100 ->
  Edge.Deconstruct.serve JSON_parse env req
  = match Edge.Deconstruct.callLLM env (Edge.Deconstruct.userPrompt inv)
            Edge.Deconstruct.systemPrompt with
    | (Return response, calls) =>
        (mkResponse 200
           (JObject [("decomposition", Edge.Deconstruct.coerce JSON_parse inv response)]),
         calls)
    | (Throw error, calls) =>
        (mkResponse 500
           (JObject [("error", JString "Failed to deconstruct invention");
                     ("details", JString (message error))]),
         calls)
    end.
Proof.
  intros Hm Hinv Htrim Hlen. unfold Edge.Deconstruct.serve.
  apply String.eqb_neq in Hm, Htrim. rewrite Hm, Hinv, Htrim.
  destruct (Z.gtb_spec (str_length inv) 100) as [Hgt|_]; [lia|reflexivity].
Qed.

(** C2, as stated, fails: when every provider fails, what [callLLM] throws
    is not an error made for exhaustion. With every back end answering
    500, the three providers fail and the error thrown is the one of
    Hugging Face, the last provider. *)
Lemma exhaustion_not_wrapped :
  Forall (Fallback.fails ("prompt", "system"))
         (Edge.Deconstruct.providers Scenario.all_down)
  /\ exists e calls,
       Edge.Deconstruct.callLLM Scenario.all_down "prompt" "system" = (Throw e, calls)
       /\ Edge.callHuggingFaceAPI Scenario.all_down ("prompt", "system") = Throw e
       /\ message e = "Hugging Face API error: 500"
       /\ ~ Spec.is_all_providers_failed "All LLM providers failed" e.
Proof.
  split.
  - repeat constructor; eexists; reflexivity.
  - eexists; eexists. split; [reflexivity|]. split; [reflexivity|].
    split; [reflexivity|].
    unfold Spec.is_all_providers_failed. simpl. discriminate.
Qed.

(** C2, amended. When every provider of a non-empty list fails, the loop
    throws the error of the last provider itself, unwrapped, after one
    invocation of each provider in order; the handler of the [deconstruct]
    function answers 500 and gives the message of that error as
    [details]. *)
Theorem exhaustion_rethrows_last :
  (forall (Req Res : Type) (exhausted : string) (req : Req)
          (pre : list (Fallback.Provider Req Res)) (p : Fallback.Provider Req Res)
          (e : Error),
      Forall (Fallback.fails req) pre ->
      Fallback.fn p req = Throw e ->
      Fallback.run exhausted (pre ++ [p]) req
      = (Throw e, Fallback.invocations 0 (pre ++ [p])))
  /\ (forall JSON_parse env req inv e calls,
      Edge.Deconstruct.method req <> "OPTIONS" ->
      Edge.Deconstruct.invention req = Some inv ->
      trim inv <> "" ->
      str_length inv <= 100 ->
      Edge.Deconstruct.callLLM env (Edge.Deconstruct.userPrompt inv)
        Edge.Deconstruct.systemPrompt = (Throw e, calls) ->
      Edge.Deconstruct.serve JSON_parse env req
      = (mkResponse 500
           (JObject [("error", JString "Failed to deconstruct invention");
                     ("details", JString (message e))]),
         calls)).
Proof.
  split.
  - intros Req Res exhausted req pre p e Hpre Hp.
    unfold Fallback.run. apply for_of_exhausted; assumption.
  - intros JSON_parse env req inv e calls Hm Hinv Htrim Hlen Hcall.
    rewrite (edge_validation_passes _ _ _ inv) by assumption.
    rewrite Hcall. reflexivity.
Qed.

Lemma exhaustion_rethrows_last_witness :
  Edge.Deconstruct.callLLM Scenario.all_down "prompt" "system"
  = (Throw (mkError "Hugging Face API error: 500"),
     [EvInvoke 0 "Groq"; EvInvoke 1 "Together"; EvInvoke 2 "HuggingFace"])
  /\ Edge.Deconstruct.serve Json.parse Scenario.all_down Scenario.telephone
     = (mkResponse 500
          (JObject [("error", JString "Failed to deconstruct invention");
                    ("details", JString "Hugging Face API error: 500")]),
        [EvInvoke 0 "Groq"; EvInvoke 1 "Together"; EvInvoke 2 "HuggingFace"]).
Proof.
  pose (env := Scenario.all_down).
  split.
  - apply (proj1 exhaustion_rethrows_last (string * string)%type string
             "All LLM providers failed" ("prompt", "system")
             [ Fallback.mkProvider "Groq" (Edge.callGroqAPI env "0.3" "1000");
               Fallback.mkProvider "Together" (Edge.callTogetherAPI env "0.3" "1000") ]
             (Fallback.mkProvider "HuggingFace" (Edge.callHuggingFaceAPI env))
             (mkError "Hugging Face API error: 500")).
    + repeat constructor; eexists; reflexivity.
    + reflexivity.
  - apply (proj2 exhaustion_rethrows_last Json.parse env Scenario.telephone "Telephone"
             (mkError "Hugging Face API error: 500")
             [EvInvoke 0 "Groq"; EvInvoke 1 "Together"; EvInvoke 2 "HuggingFace"]).
    + simpl. discriminate.
    + reflexivity.
    + vm_compute. discriminate.
    + vm_compute. discriminate.
    + reflexivity.
Defined.

(* ===================================================================== *)
(** * The extraction of JSON from the answer text *)
(* ===================================================================== *)

Section Extraction.

Import Edge.

Lemma append_assoc (a b c : string) : (a ++ b) ++ c = a ++ b ++ c.
Proof. induction a as [|x a IH]; simpl; [|rewrite IH]; reflexivity. Qed.







End Extraction.




(* ===================================================================== *)
(** * Response coercion *)
(* ===================================================================== *)

(** C3, as stated, fails on both servers. On the Express route an answer
    that is not JSON ends the request with status 500. On the edge
    function the answer [{}] parses, and is returned as the decomposition
    although it has none of the fields of the schema. *)
Lemma coercion_can_fail_or_be_invalid :
  fst (fst (Server.post_deconstruct
              (Scenario.server (Return "not json at all")
                               (Return [Server.mkModeration false]))
              0 Scenario.fresh
              (Server.mkRequest "203.0.113.7" (Scenario.body_of "Telephone"))))
  = error_response 500 "Failed to parse AI response"
  /\ fst (Edge.Deconstruct.serve Json.parse (Scenario.hf_only "{}") Scenario.telephone)
     = mkResponse 200 (JObject [("decomposition", JObject [])])
  /\ Spec.schema_valid (JObject []) = false.
Proof.
  vm_compute. repeat split.
Qed.

(** C3, amended. In the edge function a parse failure never reaches the
    caller: whatever text the provider returned, the handler answers 200;
    when the text taken from the answer does not parse, the decomposition
    is the placeholder object, which is valid for the schema; when it
    parses, the decomposition is the parsed value as it is. In the Express
    route an answer that does not parse ends the request with status 500
    and the message [Failed to parse AI response]. *)
Theorem coercion_falls_back :
  (forall (JSON_parse : string -> option Value) (inv response : string),
      Spec.schema_valid (Edge.Deconstruct.fallback inv) = true
      /\ (JSON_parse (Edge.jsonStr response) = None ->
          Edge.Deconstruct.coerce JSON_parse inv response = Edge.Deconstruct.fallback inv)
      /\ (forall d, JSON_parse (Edge.jsonStr response) = Some d ->
          Edge.Deconstruct.coerce JSON_parse inv response = d))
  /\ (forall JSON_parse env req inv response calls,
      Edge.Deconstruct.method req <> "OPTIONS" ->
      Edge.Deconstruct.invention req = Some inv ->
      trim inv <> "" ->
      str_length inv <= 100 ->
      Edge.Deconstruct.callLLM env (Edge.Deconstruct.userPrompt inv)
        Edge.Deconstruct.systemPrompt = (Return response, calls) ->
      Edge.Deconstruct.serve JSON_parse env req
      = (mkResponse 200
           (JObject [("decomposition", Edge.Deconstruct.coerce JSON_parse inv response)]),
         calls))
  /\ (forall env now cs input text,
      Server.present
        (fst (CacheJs.getCachedDeconstruction cs now (Server.s_invention input))) = false ->
      Server.chat env Server.DECONSTRUCTION_SYSTEM
        (Server.getDeconstructionPrompt (Server.s_invention input)) (2 # 10) 1500
      = Return text ->
      Server.JSON_parse env text = None ->
      fst (fst (Server.deconstruct_handler env now cs input))
      = error_response 500 "Failed to parse AI response").
Proof.
  split; [|split].
  - intros JSON_parse inv response. unfold Edge.Deconstruct.coerce.
    split; [reflexivity|]. split.
    + intros ->. reflexivity.
    + intros d ->. reflexivity.
  - intros JSON_parse env req inv response calls Hm Hinv Htrim Hlen Hcall.
    rewrite (edge_validation_passes _ _ _ inv) by assumption.
    rewrite Hcall. reflexivity.
  - intros env now cs input text Hmiss Hchat Hparse.
    unfold Server.deconstruct_handler.
    destruct (CacheJs.getCachedDeconstruction cs now (Server.s_invention input))
      as [cached cs'].
    simpl in Hmiss. rewrite Hmiss.
    unfold Server.callGPT. rewrite Hchat, Hparse. reflexivity.
Qed.

Lemma coercion_falls_back_witness :
  Edge.Deconstruct.coerce Json.parse "Telephone" "not json at all"
  = Edge.Deconstruct.fallback "Telephone"
  /\ Edge.Deconstruct.coerce Json.parse "Telephone" "Sure: {} Done."
     = JObject []
  /\ Edge.Deconstruct.serve Json.parse (Scenario.hf_only "not json at all")
       Scenario.telephone
     = (mkResponse 200
          (JObject [("decomposition",
                     Edge.Deconstruct.coerce Json.parse "Telephone" "not json at all")]),
        [EvInvoke 0 "Groq"; EvInvoke 1 "Together"; EvInvoke 2 "HuggingFace"])
  /\ fst (fst (Server.deconstruct_handler
                 (Scenario.server (Return "not json at all") (Return []))
                 0 CacheJs.initial (Server.mkSanitized "Telephone" "1800s")))
     = error_response 500 "Failed to parse AI response".
Proof.
  split; [|split; [|split]].
  - apply (proj1 (proj2 (proj1 coercion_falls_back Json.parse "Telephone"
                           "not json at all"))).
    reflexivity.
  - apply (proj2 (proj2 (proj1 coercion_falls_back Json.parse "Telephone"
                           "Sure: {} Done."))).
    reflexivity.
  - apply (proj1 (proj2 coercion_falls_back) Json.parse
             (Scenario.hf_only "not json at all") Scenario.telephone "Telephone").
    + simpl. discriminate.
    + reflexivity.
    + vm_compute. discriminate.
    + vm_compute. discriminate.
    + reflexivity.
  - apply (proj2 (proj2 coercion_falls_back)
             (Scenario.server (Return "not json at all") (Return []))
             0 CacheJs.initial (Server.mkSanitized "Telephone" "1800s")
             "not json at all").
    + vm_compute. reflexivity.
    + reflexivity.
    + reflexivity.
Defined.

(* ===================================================================== *)
(** * Validation at the boundary *)
(* ===================================================================== *)




(* ===================================================================== *)
(** * The cache *)
(* ===================================================================== *)

Section CacheRoundTrip.

Import CacheJs.

Lemma fst_let {A B C : Type} (x : A * B) (f : B -> C) :
  fst (let '(r, c) := x in (r, f c)) = fst x.
Proof. destruct x; reflexivity. Qed.

(** An entry just set is read back until its time has passed. *)
Lemma get_set_live ttl c now now' key value :
  0 < ttl ->
  now' <= now + ttl * 1000 ->
  fst (NodeCache.get (NodeCache.set ttl c now key value) now' key) = Some value.
Proof.
  intros Httl Hlive. unfold NodeCache.get, NodeCache.set. simpl.
  rewrite lookup_insert_eq. simpl.
  destruct (Z.eqb_spec ttl 0) as [?|_]; [lia|].
  destruct (Z.ltb_spec (now + ttl * 1000) now') as [?|_]; [lia|].
  rewrite andb_false_r. reflexivity.
Qed.

(** After that, reading it is a miss. *)
Lemma get_set_expired ttl c now now' key value :
  0 < ttl ->
  0 <= now ->
  now + ttl * 1000 < now' ->
  fst (NodeCache.get (NodeCache.set ttl c now key value) now' key) = None.
Proof.
  intros Httl Hnow Hlate. unfold NodeCache.get, NodeCache.set. simpl.
  rewrite lookup_insert_eq. simpl.
  destruct (Z.eqb_spec ttl 0) as [?|_]; [lia|].
  destruct (Z.eqb_spec (now + ttl * 1000) 0) as [?|_]; [lia|].
  destruct (Z.ltb_spec (now + ttl * 1000) now') as [_|?]; [|lia].
  reflexivity.
Qed.

(** The instance of each namespace is built with the time to live the
    specification gives it. *)
Lemma ttl_of_namespace :
  deconstructionTTL * 1000 = ttl_ms Deconstruction
  /\ simulationTTL * 1000 = ttl_ms Simulation
  /\ imageTTL * 1000 = ttl_ms Image
  /\ audioTTL * 1000 = ttl_ms Transcription.
Proof. repeat split. Qed.

End CacheRoundTrip.

(** C6. In every namespace, a value set for a subject is read back
    unchanged by a get for the same subject made at once, and by any get
    made until the time to live of the namespace (1 h, 30 min, 2 h,
    10 min) has elapsed; a get made after that is a miss. *)
Theorem cache_round_trip :
  forall (ns : CacheJs.Namespace) (cs : CacheJs.Caches) (now : Z)
         (subject : CacheJs.Subject ns) (value : Value),
    let cs' := CacheJs.setCached ns cs now subject value in
    fst (CacheJs.getCached ns cs' now subject) = Some value
    /\ (forall now', now' <= now + CacheJs.ttl_ms ns ->
        fst (CacheJs.getCached ns cs' now' subject) = Some value)
    /\ (forall now', 0 <= now -> now + CacheJs.ttl_ms ns < now' ->
        fst (CacheJs.getCached ns cs' now' subject) = None).
Proof.
  intros ns cs now subject value cs'.
  assert (Hlive : forall now', now' <= now + CacheJs.ttl_ms ns ->
            fst (CacheJs.getCached ns cs' now' subject) = Some value).
  { intros now' H. subst cs'.
    destruct ns; simpl in *; [| destruct subject as [[invention era] creativity] | |];
      unfold CacheJs.getCachedDeconstruction, CacheJs.setCachedDeconstruction,
        CacheJs.getCachedSimulation, CacheJs.setCachedSimulation,
        CacheJs.getCachedImage, CacheJs.setCachedImage,
        CacheJs.getCachedTranscription, CacheJs.setCachedTranscription;
      simpl; rewrite fst_let; apply get_set_live;
      unfold CacheJs.deconstructionTTL, CacheJs.simulationTTL, CacheJs.imageTTL,
        CacheJs.audioTTL; lia. }
  split; [|split].
  - apply Hlive. destruct ns; simpl; lia.
  - exact Hlive.
  - intros now' Hnow H. subst cs'.
    destruct ns; simpl in *; [| destruct subject as [[invention era] creativity] | |];
      unfold CacheJs.getCachedDeconstruction, CacheJs.setCachedDeconstruction,
        CacheJs.getCachedSimulation, CacheJs.setCachedSimulation,
        CacheJs.getCachedImage, CacheJs.setCachedImage,
        CacheJs.getCachedTranscription, CacheJs.setCachedTranscription;
      simpl; rewrite fst_let; apply get_set_expired;
      unfold CacheJs.deconstructionTTL, CacheJs.simulationTTL, CacheJs.imageTTL,
        CacheJs.audioTTL; lia.
Qed.

Lemma cache_round_trip_witness :
  fst (CacheJs.getCachedDeconstruction
         (CacheJs.setCachedDeconstruction CacheJs.initial 1000 "Telephone" (JObject []))
         3601000 "Telephone") = Some (JObject [])
  /\ fst (CacheJs.getCachedDeconstruction
            (CacheJs.setCachedDeconstruction CacheJs.initial 1000 "Telephone" (JObject []))
            3601001 "Telephone") = None.
Proof.
  split.
  - apply (proj1 (proj2 (cache_round_trip CacheJs.Deconstruction CacheJs.initial 1000
                           "Telephone" (JObject []))) 3601000).
    simpl. lia.
  - apply (proj2 (proj2 (cache_round_trip CacheJs.Deconstruction CacheJs.initial 1000
                           "Telephone" (JObject []))) 3601001); simpl; lia.
Defined.




(* ===================================================================== *)
(** * Moderation *)
(* ===================================================================== *)

(** C9. Moderation fails open. For a request that passed validation: when
    the call to the moderation endpoint throws, [moderateContent] answers
    [flagged: false], and unless the keyword test matched the middleware
    calls [next()]; and whenever the middleware answers instead of calling
    [next()], the status is 400 and either the keyword test matched or the
    moderation endpoint answered, and its first result is flagged. *)
Theorem moderation_fail_open :
  forall (env : Server.Env) (body : Server.Body) (inv : string),
    Server.invention body = Some inv ->
    trim inv <> "" ->
    str_length inv <= 100 ->
    ((exists e, Server.moderations env inv = Throw e) ->
     fst (Server.moderateContent env inv) = Some (Server.mkModeration false))
    /\ ((exists e, Server.moderations env inv = Throw e) ->
        Server.checkModerationKeywords inv = false ->
        exists input,
          Server.validateAndModerateInput env body
          = (Server.Next input, [EvModeration inv])
          /\ Server.s_invention input = trim inv)
    /\ (forall answer calls,
        Server.validateAndModerateInput env body = (Server.Respond answer, calls) ->
        status answer = 400
        /\ (Server.checkModerationKeywords inv = true
            \/ exists results m,
                 Server.moderations env inv = Return results
                 /\ head results = Some m
                 /\ Server.flagged m = true)).
Proof.
  intros env body inv Hinv Htrim Hlen.
  assert (Hv : Server.validateAndModerateInput env body
               = if Server.checkModerationKeywords inv
                 then (Server.Respond (error_response 400 "Invalid invention topic"), [])
                 else
                   let proceed :=
                     Server.Next
                       (Server.mkSanitized (trim inv)
                          (match Server.era body with
                           | Some era => if String.eqb era "" then "1800s" else trim era
                           | None => "1800s"
                           end)) in
                   match fst (Server.moderateContent env inv) with
                   | Some m =>
                       if Server.flagged m
                       then (Server.Respond
                               (error_response 400 "Content flagged by moderation system"),
                             [EvModeration inv])
                       else (proceed, [EvModeration inv])
                   | None => (proceed, [EvModeration inv])
                   end).
  { unfold Server.validateAndModerateInput. rewrite Hinv.
    apply String.eqb_neq in Htrim. rewrite Htrim.
    destruct (Z.gtb_spec (str_length inv) 100) as [?|_]; [lia|].
    destruct (Server.checkModerationKeywords inv); reflexivity. }
  split; [|split].
  - intros [e He]. unfold Server.moderateContent. rewrite He. reflexivity.
  - intros [e He] Hkw. rewrite Hv, Hkw. unfold Server.moderateContent. rewrite He.
    simpl. eexists. split; reflexivity.
  - intros answer calls H. rewrite Hv in H.
    destruct (Server.checkModerationKeywords inv).
    + injection H as <- <-. split; [reflexivity|]. left; reflexivity.
    + unfold Server.moderateContent in H. simpl in H.
      destruct (Server.moderations env inv) as [results|e] eqn:Hmod.
      * destruct (head results) as [m|] eqn:Hhead; [|discriminate].
        destruct (Server.flagged m) eqn:Hflag; [|discriminate].
        injection H as <- <-. split; [reflexivity|]. right. eauto.
      * discriminate.
Qed.

Lemma moderation_fail_open_witness :
  fst (Server.moderateContent
         (Scenario.server (Return "{}") (Throw (mkError "503 Service Unavailable")))
         "Telephone")
  = Some (Server.mkModeration false)
  /\ exists input,
       Server.validateAndModerateInput
         (Scenario.server (Return "{}") (Throw (mkError "503 Service Unavailable")))
         (Scenario.body_of "Telephone")
       = (Server.Next input, [EvModeration "Telephone"])
       /\ Server.s_invention input = trim "Telephone".
Proof.
  assert (Hvalid : trim "Telephone" <> "" /\ str_length "Telephone" <= 100)
    by (vm_compute; split; discriminate).
  split.
  - apply (proj1 (moderation_fail_open
                    (Scenario.server (Return "{}") (Throw (mkError "503 Service Unavailable")))
                    (Scenario.body_of "Telephone") "Telephone" eq_refl
                    (proj1 Hvalid) (proj2 Hvalid))).
    eexists; reflexivity.
  - apply (proj1 (proj2 (moderation_fail_open
                    (Scenario.server (Return "{}") (Throw (mkError "503 Service Unavailable")))
                    (Scenario.body_of "Telephone") "Telephone" eq_refl
                    (proj1 Hvalid) (proj2 Hvalid)))).
    + eexists; reflexivity.
    + reflexivity.
Defined.

(* ===================================================================== *)
(** * The pipeline of a route: cache hit, or generation and store *)
(* ===================================================================== *)

Section Pipeline.

Import CacheJs Server.




End Pipeline.



(* ===================================================================== *)
(** * The rate limiter *)
(* ===================================================================== *)

Section RateLimit.

Import Server.

Variables (maxRequests windowMs : Z).

Implicit Types (rl : gmap string (list Z)) (ip : string).

Lemma filter_filter {A : Type} (f : A -> bool) (l : list A) :
  List.filter f (List.filter f l) = List.filter f l.
Proof.
  induction l as [|x l IH]; simpl; [reflexivity|].
  destruct (f x) eqn:Hx; simpl; [rewrite Hx, IH|]; auto.
Qed.

(** Making the entry of [ip] when there is none does not change what is
    recorded for anyone. *)
Lemma recorded_ensure rl ip ip' :
  Spec.recorded
    (match rl !! ip with
     | Some _ => rl
     | None => <[ip := []]> rl
     end) ip'
  = Spec.recorded rl ip'.
Proof.
  unfold Spec.recorded. destruct (rl !! ip) eqn:Hip; [reflexivity|].
  destruct (decide (ip = ip')) as [<-|Hne].
  - rewrite lookup_insert_eq, Hip. reflexivity.
  - rewrite lookup_insert_ne by exact Hne. reflexivity.
Qed.

(** A request that finds [maxRequests] timestamps or more in the window is
    answered 429, and no timestamp is added or removed for any address. *)
Lemma rate_limit_rejection rl ip now :
  maxRequests <= Spec.in_window rl ip now windowMs ->
  exists answer rl',
    simpleRateLimit maxRequests windowMs rl ip now = (Respond answer, rl')
    /\ status answer = 429
    /\ forall ip', Spec.recorded rl' ip' = Spec.recorded rl ip'.
Proof.
  intros Hfull. unfold simpleRateLimit.
  pose proof (recorded_ensure rl ip) as Hrec.
  set (rl1 := match rl !! ip with Some _ => rl | None => <[ip := []]> rl end) in *.
  unfold Spec.in_window in Hfull. rewrite <- (Hrec ip) in Hfull.
  unfold Spec.recorded in Hfull at 1.
  destruct (Z.geb_spec
              (Z.of_nat (Datatypes.length
                 (List.filter (fun time => now - time <? windowMs)
                    (default [] (rl1 !! ip))))) maxRequests) as [_|Hlt]; [|lia].
  eexists; eexists. split; [reflexivity|]. split; [reflexivity|exact Hrec].
Qed.

(** A request that finds fewer is let through; its time is added to the
    timestamps still in the window, and with it the window holds at most
    [maxRequests] timestamps. Nothing changes for the other addresses. *)
Lemma rate_limit_admission rl ip now :
  Spec.in_window rl ip now windowMs < maxRequests ->
  exists rl',
    simpleRateLimit maxRequests windowMs rl ip now = (Next tt, rl')
    /\ Spec.recorded rl' ip
       = (List.filter (fun time => now - time <? windowMs) (Spec.recorded rl ip)
          ++ [now])%list
    /\ (forall ip', ip' <> ip -> Spec.recorded rl' ip' = Spec.recorded rl ip')
    /\ (0 < windowMs -> Spec.in_window rl' ip now windowMs <= maxRequests).
Proof.
  intros Hroom. unfold simpleRateLimit.
  pose proof (recorded_ensure rl ip) as Hrec.
  set (rl1 := match rl !! ip with Some _ => rl | None => <[ip := []]> rl end) in *.
  unfold Spec.in_window in Hroom. rewrite <- (Hrec ip) in Hroom.
  unfold Spec.recorded in Hroom at 1.
  destruct (Z.geb_spec
              (Z.of_nat (Datatypes.length
                 (List.filter (fun time => now - time <? windowMs)
                    (default [] (rl1 !! ip))))) maxRequests) as [Hge|_]; [lia|].
  eexists. split; [reflexivity|].
  assert (Hnew : Spec.recorded
                   (<[ip := (List.filter (fun time => now - time <? windowMs)
                               (default [] (rl1 !! ip)) ++ [now])%list]> rl1) ip
                 = (List.filter (fun time => now - time <? windowMs)
                      (Spec.recorded rl ip) ++ [now])%list).
  { unfold Spec.recorded at 1. rewrite lookup_insert_eq. simpl.
    rewrite <- (Hrec ip). reflexivity. }
  split; [exact Hnew|]. split.
  - intros ip' Hne. rewrite <- (Hrec ip'). unfold Spec.recorded.
    rewrite lookup_insert_ne by congruence. reflexivity.
  - intros Hwin. unfold Spec.in_window. rewrite Hnew.
    rewrite List.filter_app, filter_filter, length_app. simpl.
    rewrite <- (Hrec ip). unfold Spec.recorded at 1.
    destruct (Z.ltb_spec (now - now) windowMs); simpl; lia.
Qed.

(** One limiter alone keeps, for every address, at most [maxRequests]
    timestamps. *)
Lemma single_limiter_step rl ip now :
  0 <= maxRequests ->
  (forall ip', Z.of_nat (Datatypes.length (Spec.recorded rl ip')) <= maxRequests) ->
  forall ip',
    Z.of_nat (Datatypes.length
                (Spec.recorded (snd (simpleRateLimit maxRequests windowMs rl ip now)) ip'))
    <= maxRequests.
Proof.
  intros Hmax Hinv ip'.
  destruct (Z.lt_ge_cases (Spec.in_window rl ip now windowMs) maxRequests) as [Hroom|Hfull].
  - destruct (rate_limit_admission rl ip now Hroom) as (rl' & -> & Hip & Hother & _).
    simpl. destruct (decide (ip' = ip)) as [->|Hne].
    + rewrite Hip, length_app. simpl. unfold Spec.in_window in Hroom. lia.
    + rewrite (Hother ip' Hne). apply Hinv.
  - destruct (rate_limit_rejection rl ip now Hfull) as (answer & rl' & -> & _ & Hsame).
    simpl. rewrite Hsame. apply Hinv.
Qed.

Lemma single_limiter_never_exceeds requests :
  0 <= maxRequests ->
  forall rl,
    (forall ip', Z.of_nat (Datatypes.length (Spec.recorded rl ip')) <= maxRequests) ->
    forall ip' now,
      Spec.in_window
        (Scenario.after_requests (simpleRateLimit maxRequests windowMs) requests rl)
        ip' now windowMs
      <= maxRequests.
Proof.
  intros Hmax. induction requests as [|[ip time] requests IH]; intros rl Hinv ip' now.
  - simpl. unfold Spec.in_window.
    pose proof (List.filter_length_le (fun time => now - time <? windowMs)
                  (Spec.recorded rl ip')) as Hle.
    specialize (Hinv ip'). lia.
  - simpl. apply IH. apply single_limiter_step; assumption.
Qed.

(** When the limiter answers, the handler does not run: the calls made
    are those of the validation, and the caches are untouched. *)
Lemma limited_route_skips_handler limiter handler env now st req input calls answer rl :
  validateAndModerateInput env (body req) = (Next input, calls) ->
  limiter (rateLimits st) (ip req) now = (Respond answer, rl) ->
  route limiter handler env now st req = (answer, mkState rl (caches st), calls).
Proof. intros Hv Hl. unfold route. rewrite Hv, Hl. reflexivity. Qed.

(** When the limiter lets the request through, the handler runs next, on
    the caches as they are. *)
Lemma admitted_route_runs_handler limiter handler env now st req input calls rl :
  validateAndModerateInput env (body req) = (Next input, calls) ->
  limiter (rateLimits st) (ip req) now = (Next tt, rl) ->
  route limiter handler env now st req
  = (let '(answer, cs, calls') := handler (caches st) input (body req) in
     (answer, mkState rl cs, (calls ++ calls')%list)).
Proof. intros Hv Hl. unfold route. rewrite Hv, Hl. reflexivity. Qed.

End RateLimit.

(** C10 on the code. The three limiters read and write one map, keyed by
    address only. After four requests let through by the limiter of
    [/deconstruct] (10 per 5 minutes), the entry of the address holds four
    timestamps within the window, more than the 3 allowed by the limiter
    of [/generate-image], and that limiter answers 429 to the first image
    request of the address, leaving the map as it is. With a map of its
    own, the same limiter lets the request through. *)
Theorem shared_limiter_map_exceeds_bound :
  let ip := "203.0.113.7" in
  let rl :=
    Scenario.after_requests Server.deconstructLimiter
      [(ip, 0); (ip, 1); (ip, 2); (ip, 3)] ∅ in
  Spec.recorded rl ip = [0; 1; 2; 3]
  /\ Spec.in_window rl ip 4 300000 = 4
  /\ 3 < Spec.in_window rl ip 4 300000
  /\ (exists answer,
         Server.imageLimiter rl ip 4 = (Server.Respond answer, rl)
         /\ status answer = 429)
  /\ fst (Server.imageLimiter ∅ ip 4) = Server.Next tt.
Proof.
  vm_compute. repeat split. eexists. split; reflexivity.
Qed.

(* ===================================================================== *)
(** * Strings: trimming, lower case, search *)
(* ===================================================================== *)

Section StringFacts.

Lemma lower_ascii_whitespace (a : ascii) :
  is_whitespace (lower_ascii a) = is_whitespace a.
Proof. destruct a as [[] [] [] [] [] [] [] []]; reflexivity. Qed.

Lemma lower_ascii_idempotent (a : ascii) :
  lower_ascii (lower_ascii a) = lower_ascii a.
Proof. destruct a as [[] [] [] [] [] [] [] []]; reflexivity. Qed.

Lemma toLowerCase_app (s t : string) :
  toLowerCase (s ++ t) = toLowerCase s ++ toLowerCase t.
Proof. induction s as [|a s IH]; simpl; [|rewrite IH]; reflexivity. Qed.

Lemma toLowerCase_idempotent (s : string) :
  toLowerCase (toLowerCase s) = toLowerCase s.
Proof.
  induction s as [|a s IH]; simpl; [|rewrite IH, lower_ascii_idempotent]; reflexivity.
Qed.

Lemma toLowerCase_length (s : string) :
  String.length (toLowerCase s) = String.length s.
Proof. induction s as [|a s IH]; simpl; [|rewrite IH]; reflexivity. Qed.

Lemma trimStart_lower (s : string) :
  trimStart (toLowerCase s) = toLowerCase (trimStart s).
Proof.
  induction s as [|a s IH]; [reflexivity|].
  cbn [toLowerCase trimStart]. rewrite lower_ascii_whitespace.
  destruct (is_whitespace a); [exact IH|reflexivity].
Qed.

Lemma trimEnd_lower (s : string) :
  trimEnd (toLowerCase s) = toLowerCase (trimEnd s).
Proof.
  induction s as [|a s IH]; [reflexivity|].
  cbn [toLowerCase trimEnd]. rewrite IH, lower_ascii_whitespace.
  destruct (trimEnd s); [destruct (is_whitespace a)|]; reflexivity.
Qed.

Lemma trim_lower (s : string) : trim (toLowerCase s) = toLowerCase (trim s).
Proof. unfold trim. rewrite trimStart_lower, trimEnd_lower. reflexivity. Qed.

(** The first character left by [trimStart] is not white space. *)
Lemma trimStart_head (s : string) (a : ascii) (r : string) :
  trimStart s = String a r -> is_whitespace a = false.
Proof.
  induction s as [|b s IH]; cbn [trimStart]; [discriminate|].
  destruct (is_whitespace b) eqn:Hb; [exact IH|].
  intros H. injection H as <- <-. exact Hb.
Qed.

Lemma trimEnd_nil_iff (s : string) : trimEnd s = "" <-> trimStart s = "".
Proof.
  induction s as [|a s IH]; [split; reflexivity|].
  cbn [trimEnd trimStart]. split.
  - destruct (trimEnd s) eqn:He; [|discriminate].
    destruct (is_whitespace a); [intros _; apply IH; reflexivity|discriminate].
  - destruct (is_whitespace a); [|discriminate].
    intros H. apply IH in H. rewrite H. reflexivity.
Qed.

(** A text is blank (empty or white space only) when [trim] leaves
    nothing of it. *)
Lemma blank_trimStart (s : string) : trim s = "" <-> trimStart s = "".
Proof.
  unfold trim. split.
  - intros H. apply trimEnd_nil_iff in H.
    destruct (trimStart s) as [|a r] eqn:Hs; [reflexivity|].
    pose proof (trimStart_head _ _ _ Hs) as Ha.
    cbn [trimStart] in H. rewrite Ha in H. discriminate.
  - intros ->. reflexivity.
Qed.

Lemma blank_trimEnd (s : string) : trim s = "" <-> trimEnd s = "".
Proof. rewrite blank_trimStart. symmetry. apply trimEnd_nil_iff. Qed.

Lemma trimStart_blank_app (l s : string) :
  trim l = "" -> trimStart (l ++ s) = trimStart s.
Proof.
  rewrite blank_trimStart.
  induction l as [|a l IH]; [reflexivity|].
  cbn [trimStart]. simpl. destruct (is_whitespace a); [exact IH|discriminate].
Qed.

Lemma trimEnd_app_blank (s r : string) :
  trim r = "" -> trimEnd (s ++ r) = trimEnd s.
Proof.
  rewrite blank_trimEnd. intros Hr.
  induction s as [|a s IH]; simpl; [exact Hr|].
  rewrite IH. reflexivity.
Qed.

(** What follows the leading white space is kept whole by [trimStart]. *)
Lemma trimStart_app_keep (s t : string) :
  trimStart s <> "" -> trimStart (s ++ t) = trimStart s ++ t.
Proof.
  induction s as [|a s IH]; cbn [trimStart]; [congruence|].
  simpl. destruct (is_whitespace a); [exact IH|reflexivity].
Qed.

Lemma trimEnd_app_keep (s t : string) :
  trimEnd t <> "" -> trimEnd (s ++ t) = s ++ trimEnd t.
Proof.
  intros Ht. induction s as [|a s IH]; simpl; [reflexivity|].
  rewrite IH. destruct (s ++ trimEnd t) eqn:He; [|reflexivity].
  destruct s; simpl in He; [contradiction|discriminate].
Qed.

Lemma trimEnd_not_blank (s : string) : trim s <> "" -> trimEnd s <> "".
Proof. intros H He. apply H. apply blank_trimEnd. exact He. Qed.

Lemma trimStart_not_blank (s : string) : trim s <> "" -> trimStart s <> "".
Proof. intros H He. apply H. apply blank_trimStart. exact He. Qed.

(** Blank text around a text does not change what [trim] gives. *)
Lemma trim_pad (l s r : string) :
  trim l = "" -> trim r = "" -> trim (l ++ s ++ r) = trim s.
Proof.
  intros Hl Hr. unfold trim. rewrite (trimStart_blank_app l _ Hl).
  destruct (trimStart s) as [|a t] eqn:Hs.
  - assert (Hb : trim (s ++ r) = "").
    { apply blank_trimStart. 
      assert (Hs' : trim s = "") by (apply blank_trimStart; exact Hs).
      rewrite (trimStart_blank_app s r Hs'). apply blank_trimStart. exact Hr. }
    apply blank_trimStart in Hb. rewrite Hb. reflexivity.
  - rewrite trimStart_app_keep by (rewrite Hs; discriminate).
    rewrite Hs. apply trimEnd_app_blank. exact Hr.
Qed.

Lemma trimEnd_trimStart_comm (s : string) :
  trimStart (trimEnd s) = trimEnd (trimStart s).
Proof.
  induction s as [|a s IH]; [reflexivity|].
  cbn [trimStart]. destruct (is_whitespace a) eqn:Ha.
  - rewrite <- IH. cbn [trimEnd].
    destruct (trimEnd s) eqn:He.
    + rewrite Ha. reflexivity.
    + cbn [trimStart]. rewrite Ha. reflexivity.
  - cbn [trimEnd]. destruct (trimEnd s) eqn:He.
    + rewrite Ha. cbn [trimStart]. rewrite Ha. reflexivity.
    + cbn [trimStart]. rewrite Ha. reflexivity.
Qed.

Lemma trimStart_idempotent (s : string) : trimStart (trimStart s) = trimStart s.
Proof.
  destruct (trimStart s) as [|a r] eqn:Hs; [reflexivity|].
  cbn [trimStart]. rewrite (trimStart_head _ _ _ Hs). reflexivity.
Qed.

Lemma trimEnd_idempotent (s : string) : trimEnd (trimEnd s) = trimEnd s.
Proof.
  induction s as [|a s IH]; [reflexivity|].
  cbn [trimEnd]. destruct (trimEnd s) as [|b t] eqn:He.
  - destruct (is_whitespace a) eqn:Ha; [reflexivity|].
    cbn [trimEnd]. rewrite Ha. reflexivity.
  - cbn [trimEnd] in *. rewrite IH. reflexivity.
Qed.

Lemma trim_idempotent (s : string) : trim (trim s) = trim s.
Proof.
  unfold trim. rewrite trimEnd_trimStart_comm, trimStart_idempotent.
  apply trimEnd_idempotent.
Qed.

Lemma trimStart_length (s : string) :
  (String.length (trimStart s) <= String.length s)%nat.
Proof.
  induction s as [|a s IH]; cbn [trimStart]; [lia|].
  destruct (is_whitespace a); simpl; lia.
Qed.

Lemma trimEnd_length (s : string) :
  (String.length (trimEnd s) <= String.length s)%nat.
Proof.
  induction s as [|a s IH]; cbn [trimEnd]; [lia|].
  destruct (trimEnd s); [destruct (is_whitespace a)|]; simpl in *; lia.
Qed.

Lemma trim_length (s : string) : str_length (trim s) <= str_length s.
Proof.
  unfold str_length, trim.
  pose proof (trimEnd_length (trimStart s)). pose proof (trimStart_length s). lia.
Qed.

Lemma startsWith_app (w t : string) : startsWith w (w ++ t) = true.
Proof.
  induction w as [|a w IH]; simpl; [destruct t; reflexivity|].
  rewrite Ascii.eqb_refl. exact IH.
Qed.

Lemma includes_here (s w : string) : startsWith w s = true -> includes s w = true.
Proof. intros H. destruct s; simpl; rewrite H; reflexivity. Qed.

Lemma includes_app_r (pre s w : string) :
  includes s w = true -> includes (pre ++ s) w = true.
Proof.
  intros H. induction pre as [|a pre IH]; simpl; [exact H|].
  rewrite IH. apply orb_true_r.
Qed.

Lemma includes_app_l (s post w : string) :
  includes s w = true -> includes (s ++ post) w = true.
Proof.
  assert (Hsw : forall w s post, startsWith w s = true -> startsWith w (s ++ post) = true).
  { induction w0 as [|b w0 IHw]; intros s0 post0; [destruct s0; reflexivity|].
    destruct s0 as [|c s0]; simpl; [discriminate|].
    intros H. apply andb_true_iff in H as [-> H]. apply (IHw _ _ H). }
  induction s as [|a s IH]; intros H.
  - simpl in H. rewrite orb_false_r in H. apply includes_here.
    apply (Hsw w "" post H).
  - cbn [includes] in H. apply orb_true_iff in H as [H|H].
    + apply includes_here. apply (Hsw _ _ post H).
    + simpl. rewrite (IH H). apply orb_true_r.
Qed.

Lemma includes_middle (pre w post : string) : includes (pre ++ w ++ post) w = true.
Proof. apply includes_app_r, includes_here, startsWith_app. Qed.

(** [trim] takes blank text away from both ends and nothing else. *)
Lemma trim_decompose (s : string) :
  exists l r, s = l ++ trim s ++ r /\ trim l = "" /\ trim r = "".
Proof.
  assert (Hstart : forall s, exists l, s = l ++ trimStart s /\ trim l = "").
  { induction s0 as [|a s0 (l & Hl & Hb)]; [exists ""; split; reflexivity|].
    cbn [trimStart]. destruct (is_whitespace a) eqn:Ha.
    - exists (String a l). split; [simpl; rewrite <- Hl; reflexivity|].
      apply blank_trimStart. cbn [trimStart]. rewrite Ha.
      apply blank_trimStart. exact Hb.
    - exists "". split; reflexivity. }
  assert (Hend : forall s, exists r, s = trimEnd s ++ r /\ trim r = "").
  { induction s0 as [|a s0 (r & Hr & Hb)]; [exists ""; split; reflexivity|].
    cbn [trimEnd]. destruct (trimEnd s0) as [|b t] eqn:He.
    - destruct (is_whitespace a) eqn:Ha.
      + exists (String a s0). split; [reflexivity|].
        apply blank_trimStart. cbn [trimStart]. rewrite Ha.
        apply trimEnd_nil_iff. exact He.
      + exists r. split; [simpl in *; rewrite <- Hr; reflexivity|exact Hb].
    - exists r. split; [simpl in *; rewrite <- Hr; reflexivity|exact Hb]. }
  destruct (Hstart s) as (l & Hl & Hbl).
  destruct (Hend (trimStart s)) as (r & Hr & Hbr).
  exists l, r. unfold trim. split; [|split; assumption].
  rewrite <- Hr. exact Hl.
Qed.

End StringFacts.

(* ===================================================================== *)
(** * The fallback loop, whatever the providers do *)
(* ===================================================================== *)

Lemma first_success_or_all_fail {Req Res : Type} (req : Req)
    (providers : list (Fallback.Provider Req Res)) :
  (exists pre p post r,
      providers = (pre ++ p :: post)%list
      /\ Forall (Fallback.fails req) pre
      /\ Fallback.fn p req = Return r)
  \/ Forall (Fallback.fails req) providers.
Proof.
  induction providers as [|q providers IH]; [right; constructor|].
  destruct (Fallback.fn q req) as [r|e] eqn:Hq.
  - left. exists [], q, providers, r. repeat split; [constructor|exact Hq].
  - destruct IH as [(pre & p & post & r & -> & Hpre & Hp)|Hall].
    + left. exists (q :: pre), p, post, r.
      repeat split; [constructor; [exists e; exact Hq|exact Hpre]|exact Hp].
    + right. constructor; [exists e; exact Hq|exact Hall].
Qed.

(** X1. Whatever the providers do, the loop ends in one of two ways. It
    returns the result of the first provider that does not throw, after
    one invocation of each provider up to that one, in order. Or every
    provider throws, each was invoked once in order, and the error thrown
    is the one of the last provider (the error made for exhaustion when
    the list is empty). *)
Theorem fallback_outcome :
  forall (Req Res : Type) (exhausted : string)
         (providers : list (Fallback.Provider Req Res)) (req : Req),
    (exists pre p post r,
        providers = (pre ++ p :: post)%list
        /\ Forall (Fallback.fails req) pre
        /\ Fallback.fn p req = Return r
        /\ Fallback.run exhausted providers req
           = (Return r, Fallback.invocations 0 (pre ++ [p])))
    \/ (Forall (Fallback.fails req) providers
        /\ exists e,
             Fallback.run exhausted providers req
             = (Throw e, Fallback.invocations 0 providers)
             /\ (providers = [] -> e = mkError exhausted)
             /\ (forall pre p, providers = (pre ++ [p])%list ->
                 Fallback.fn p req = Throw e)).
Proof.
  intros Req Res exhausted providers req.
  destruct (first_success_or_all_fail req providers)
    as [(pre & p & post & r & -> & Hpre & Hp)|Hall].
  - left. exists pre, p, post, r. repeat split; try assumption.
    unfold Fallback.run. apply for_of_success; assumption.
  - right. split; [exact Hall|].
    induction providers as [|p pre _] using rev_ind.
    + exists (mkError exhausted). split; [reflexivity|]. split; [reflexivity|].
      intros pre p H. destruct pre; discriminate.
    + apply Forall_app in Hall as [Hpre Hp].
      inversion Hp as [|? ? [e He] _]; subst.
      exists e. split; [|split].
      * unfold Fallback.run. apply for_of_exhausted; assumption.
      * intros H. destruct pre; discriminate.
      * intros pre' p' H. apply app_inj_tail in H as [_ <-]. exact He.
Qed.

(* ===================================================================== *)
(** * What [validateAndModerateInput] lets through *)
(* ===================================================================== *)

Section Screening.

Import Server.

Lemma blank_app (a b : string) : trim (a ++ b) = "" -> trim a = "" /\ trim b = "".
Proof.
  rewrite !blank_trimStart.
  induction a as [|x a IH]; [intros H; split; [reflexivity|exact H]|].
  cbn [trimStart]. simpl. destruct (is_whitespace x); [exact IH|discriminate].
Qed.

Lemma keyword_not_blank (kw : string) : In kw MODERATION_KEYWORDS -> trim kw <> "".
Proof.
  intros H. repeat (destruct H as [<-|H]; [vm_compute; discriminate|]). destruct H.
Qed.

Lemma keywords_monotone (s t : string) :
  (forall kw, includes (toLowerCase s) kw = true -> includes (toLowerCase t) kw = true) ->
  checkModerationKeywords s = true -> checkModerationKeywords t = true.
Proof.
  intros Hst H. unfold checkModerationKeywords in *.
  apply existsb_exists in H as (kw & Hin & Hkw).
  apply existsb_exists. exists kw. split; [exact Hin|apply Hst, Hkw].
Qed.

(** No keyword found in a text, none found in its trimmed form. *)
Lemma keywords_trim (inv : string) :
  checkModerationKeywords inv = false -> checkModerationKeywords (trim inv) = false.
Proof.
  intros H. destruct (checkModerationKeywords (trim inv)) eqn:Ht; [|reflexivity].
  rewrite <- H. symmetry. revert Ht. apply keywords_monotone.
  intros kw Hkw. destruct (trim_decompose inv) as (l & r & Hd & _ & _).
  rewrite Hd at 1. rewrite !toLowerCase_app.
  apply includes_app_r, includes_app_l, Hkw.
Qed.

End Screening.

(** X2. The keyword screen looks for the keywords anywhere in the
    invention and in any letter case: an invention of at most 100 code
    units that contains a word whose lower-case form is one of the eight
    keywords is answered 400 [Invalid invention topic], and the moderation
    endpoint is not called. *)
Theorem keyword_screening :
  forall (env : Server.Env) (body : Server.Body) (pre word post kw : string),
    Server.invention body = Some (pre ++ word ++ post) ->
    In kw Server.MODERATION_KEYWORDS ->
    toLowerCase word = kw ->
    str_length (pre ++ word ++ post) <= 100 ->
    Server.validateAndModerateInput env body
    = (Server.Respond (error_response 400 "Invalid invention topic"), []).
Proof.
  intros env body pre word post kw Hinv Hin Hkw Hlen.
  unfold Server.validateAndModerateInput. rewrite Hinv.
  destruct (String.eqb_spec (trim (pre ++ word ++ post)) "") as [Hblank|_].
  - exfalso. apply blank_app in Hblank as [_ Hblank].
    apply blank_app in Hblank as [Hblank _].
    apply (keyword_not_blank kw Hin).
    rewrite <- Hkw, trim_lower, Hblank. reflexivity.
  - destruct (Z.gtb_spec (str_length (pre ++ word ++ post)) 100) as [?|_]; [lia|].
    assert (Hcheck : Server.checkModerationKeywords (pre ++ word ++ post) = true).
    { unfold Server.checkModerationKeywords. apply existsb_exists.
      exists kw. split; [exact Hin|].
      rewrite !toLowerCase_app, Hkw. apply includes_middle. }
    rewrite Hcheck. reflexivity.
Qed.

Lemma keyword_screening_witness :
  Server.validateAndModerateInput
    (Scenario.server (Return "{}") (Return []))
    (Scenario.body_of "The DrugStore counter")
  = (Server.Respond (error_response 400 "Invalid invention topic"), []).
Proof.
  apply (keyword_screening (Scenario.server (Return "{}") (Return []))
           (Scenario.body_of "The DrugStore counter")
           "The " "Drug" "Store counter" "drug").
  - reflexivity.
  - simpl. tauto.
  - reflexivity.
  - vm_compute. discriminate.
Defined.

(** X3. What the middleware hands to the handlers. When it calls
    [next()], the invention was there, the moderation endpoint was called
    once, on the invention as sent, and the sanitized invention is the
    trimmed one: it is not empty, has no white space at either end, is at
    most 100 code units long and contains no keyword. *)
Theorem sanitized_input :
  forall (env : Server.Env) (body : Server.Body) (input : Server.Sanitized)
         (calls : list Event),
    Server.validateAndModerateInput env body = (Server.Next input, calls) ->
    exists inv,
      Server.invention body = Some inv
      /\ calls = [EvModeration inv]
      /\ Server.s_invention input = trim inv
      /\ Server.s_invention input <> ""
      /\ trim (Server.s_invention input) = Server.s_invention input
      /\ str_length (Server.s_invention input) <= 100
      /\ Server.checkModerationKeywords (Server.s_invention input) = false.
Proof.
  intros env body input calls H. unfold Server.validateAndModerateInput in H.
  destruct (Server.invention body) as [inv|]; [|discriminate].
  exists inv. split; [reflexivity|].
  destruct (String.eqb_spec (trim inv) "") as [|Hne]; [discriminate|].
  destruct (Z.gtb_spec (str_length inv) 100) as [|Hlen]; [discriminate|].
  destruct (Server.checkModerationKeywords inv) eqn:Hkw; [discriminate|].
  unfold Server.moderateContent in H.
  assert (Hin : input = Server.mkSanitized (trim inv)
                  (match Server.era body with
                   | Some era => if String.eqb era "" then "1800s" else trim era
                   | None => "1800s"
                   end)
                /\ calls = [EvModeration inv]).
  { destruct (match Server.moderations env inv with
              | Return results => head results
              | Throw _ => Some (Server.mkModeration false)
              end) as [m|].
    - destruct (Server.flagged m); [discriminate|].
      injection H as <- <-. split; reflexivity.
    - injection H as <- <-. split; reflexivity. }
  destruct Hin as [-> ->]. simpl.
  repeat split.
  - exact Hne.
  - apply trim_idempotent.
  - pose proof (trim_length inv). lia.
  - apply keywords_trim, Hkw.
Qed.

Lemma sanitized_input_witness :
  exists inv,
    Server.invention (Scenario.body_of "  Telephone ") = Some inv
    /\ [EvModeration "  Telephone "] = [EvModeration inv]
    /\ "Telephone" = trim inv
    /\ "Telephone" <> ""
    /\ trim "Telephone" = "Telephone"
    /\ str_length "Telephone" <= 100
    /\ Server.checkModerationKeywords "Telephone" = false.
Proof.
  apply (sanitized_input (Scenario.server (Return "{}") (Return []))
           (Scenario.body_of "  Telephone ")
           (Server.mkSanitized "Telephone" "1800s")
           [EvModeration "  Telephone "]).
  reflexivity.
Defined.

(** X4. The era is neither bounded nor screened: when a request without
    era passes the middleware, the same request with any era passes too,
    with the same calls; the sanitized era is the trimmed era, and the
    default [1800s] only replaces an era that is absent or the empty
    text (an era of white space only is sanitized to the empty text). *)
Theorem era_is_not_screened :
  forall (env : Server.Env) (inv : string) (creativity : option Q)
         (decomposition : option Value) (input : Server.Sanitized)
         (calls : list Event) (era : string),
    Server.validateAndModerateInput env
      (Server.mkBody (Some inv) None creativity decomposition)
    = (Server.Next input, calls) ->
    Server.s_era input = "1800s"
    /\ Server.validateAndModerateInput env
         (Server.mkBody (Some inv) (Some era) creativity decomposition)
       = (Server.Next
            (Server.mkSanitized (Server.s_invention input)
               (if String.eqb era "" then "1800s" else trim era)),
          calls).
Proof.
  intros env inv creativity decomposition input calls era H.
  unfold Server.validateAndModerateInput in *.
  cbn [Server.invention Server.era] in *.
  destruct (String.eqb (trim inv) ""); [discriminate|].
  destruct (str_length inv >? 100); [discriminate|].
  destruct (Server.checkModerationKeywords inv); [discriminate|].
  destruct (Server.moderateContent env inv) as [[m|] c]; cbn in H |- *.
  - destruct (Server.flagged m); [discriminate|].
    injection H as <- <-. split; reflexivity.
  - injection H as <- <-. split; reflexivity.
Qed.

Lemma era_is_not_screened_witness :
  Server.validateAndModerateInput (Scenario.server (Return "{}") (Return []))
    (Server.mkBody (Some "Telephone") (Some " the era of the bomb ") None None)
  = (Server.Next (Server.mkSanitized "Telephone" "the era of the bomb"),
     [EvModeration "Telephone"]).
Proof.
  apply (proj2 (era_is_not_screened (Scenario.server (Return "{}") (Return []))
                  "Telephone" None None (Server.mkSanitized "Telephone" "1800s")
                  [EvModeration "Telephone"] " the era of the bomb " eq_refl)).
Defined.

(* ===================================================================== *)
(** * Cache keys *)
(* ===================================================================== *)

Section CacheKeys.

Import CacheJs.

Lemma trim_fixed (s : string) : trim s = s -> trimStart s = s /\ trimEnd s = s.
Proof.
  intros H. split.
  - rewrite <- H at 1. unfold trim.
    rewrite <- trimEnd_trimStart_comm, trimStart_idempotent, trimEnd_trimStart_comm.
    exact H.
  - rewrite <- H at 1. unfold trim. rewrite trimEnd_idempotent. exact H.
Qed.

(** Around an underscore, [trim] works on each side separately. *)
Lemma trim_underscore (x y : string) :
  trim (x ++ "_" ++ y) = trimStart x ++ "_" ++ trimEnd y.
Proof.
  assert (Hend : trimEnd ("_" ++ y) = "_" ++ trimEnd y).
  { simpl. destruct (trimEnd y); reflexivity. }
  unfold trim. destruct (trimStart x) as [|a t] eqn:Hx.
  - assert (Hb : trim x = "") by (apply blank_trimStart; exact Hx).
    rewrite (trimStart_blank_app x _ Hb). exact Hend.
  - rewrite trimStart_app_keep by (rewrite Hx; discriminate).
    rewrite Hx, trimEnd_app_keep by (rewrite Hend; discriminate).
    rewrite Hend. reflexivity.
Qed.

End CacheKeys.

(** X5. The cache of decompositions does not tell apart spellings that
    differ in letter case or in white space around the name: their keys
    are equal, and what was stored under one spelling is read back under
    the other. *)
Theorem deconstruction_cache_respelling :
  forall (cs : CacheJs.Caches) (now : Z) (data : Value)
         (inv inv' l r : string),
    trim l = "" ->
    trim r = "" ->
    toLowerCase inv' = toLowerCase inv ->
    CacheJs.deconstruct_key (l ++ inv' ++ r) = CacheJs.deconstruct_key inv
    /\ fst (CacheJs.getCachedDeconstruction
              (CacheJs.setCachedDeconstruction cs now inv data) now (l ++ inv' ++ r))
       = Some data.
Proof.
  intros cs now data inv inv' l r Hl Hr Hcase.
  assert (Hkey : CacheJs.deconstruct_key (l ++ inv' ++ r) = CacheJs.deconstruct_key inv).
  { unfold CacheJs.deconstruct_key. rewrite !toLowerCase_app, Hcase.
    rewrite trim_pad; [reflexivity| |]; rewrite trim_lower; [rewrite Hl|rewrite Hr];
      reflexivity. }
  split; [exact Hkey|].
  unfold CacheJs.getCachedDeconstruction, CacheJs.setCachedDeconstruction.
  rewrite Hkey. cbn [CacheJs.deconstructionCache].
  rewrite fst_let. apply get_set_live; unfold CacheJs.deconstructionTTL; lia.
Qed.

Lemma deconstruction_cache_respelling_witness :
  CacheJs.deconstruct_key ("  " ++ "TELEPHONE" ++ " ") = CacheJs.deconstruct_key "Telephone"
  /\ fst (CacheJs.getCachedDeconstruction
            (CacheJs.setCachedDeconstruction CacheJs.initial 0 "Telephone" (JObject []))
            0 ("  " ++ "TELEPHONE" ++ " "))
     = Some (JObject []).
Proof.
  apply (deconstruction_cache_respelling CacheJs.initial 0 (JObject [])
           "Telephone" "TELEPHONE" "  " " "); reflexivity.
Defined.

(** X6. The key of the simulation cache joins the invention and the era
    with an underscore, so it does not tell where the invention ends: for
    trimmed texts [a], [b] and [e], the invention [a_b] in the era [e]
    and the invention [a] in the era [b_e] have one key, and the
    simulations stored for the first are read back for the second. *)
Theorem simulation_key_ambiguous :
  forall (cs : CacheJs.Caches) (now : Z) (data : Value) (a b e creativity : string),
    trim a = a ->
    trim b = b ->
    trim e = e ->
    CacheJs.simulate_key (a ++ "_" ++ b) e creativity
    = CacheJs.simulate_key a (b ++ "_" ++ e) creativity
    /\ fst (CacheJs.getCachedSimulation
              (CacheJs.setCachedSimulation cs now (a ++ "_" ++ b) e creativity data)
              now a (b ++ "_" ++ e) creativity)
       = Some data.
Proof.
  intros cs now data a b e creativity Ha Hb He.
  assert (Hkey : CacheJs.simulate_key (a ++ "_" ++ b) e creativity
                 = CacheJs.simulate_key a (b ++ "_" ++ e) creativity).
  { unfold CacheJs.simulate_key.
    destruct (trim_fixed a Ha) as [Hsa Hea]. destruct (trim_fixed b Hb) as [Hsb Heb].
    destruct (trim_fixed e He) as [Hse Hee].
    rewrite !trim_lower, !trim_underscore, Ha, He, Hsa, Heb, Hsb, Hee.
    rewrite !toLowerCase_app, !append_assoc. reflexivity. }
  split; [exact Hkey|].
  unfold CacheJs.getCachedSimulation, CacheJs.setCachedSimulation.
  rewrite <- Hkey. cbn [CacheJs.simulationCache].
  rewrite fst_let. apply get_set_live; unfold CacheJs.simulationTTL; lia.
Qed.

Lemma simulation_key_ambiguous_witness :
  CacheJs.simulate_key ("steam" ++ "_" ++ "engine") "1800s" "0.7"
  = CacheJs.simulate_key "steam" ("engine" ++ "_" ++ "1800s") "0.7"
  /\ fst (CacheJs.getCachedSimulation
            (CacheJs.setCachedSimulation CacheJs.initial 0
               ("steam" ++ "_" ++ "engine") "1800s" "0.7" (JObject []))
            0 "steam" ("engine" ++ "_" ++ "1800s") "0.7")
     = Some (JObject []).
Proof.
  apply (simulation_key_ambiguous CacheJs.initial 0 (JObject [])
           "steam" "engine" "1800s" "0.7"); reflexivity.
Defined.

(** X7. The namespaces are apart: storing a value in one namespace does
    not change what a lookup in another namespace gives, at any time and
    for any subject. *)
Theorem namespaces_are_isolated :
  forall (ns1 ns2 : CacheJs.Namespace) (cs : CacheJs.Caches) (now now' : Z)
         (s1 : CacheJs.Subject ns1) (data : Value) (s2 : CacheJs.Subject ns2),
    ns1 <> ns2 ->
    fst (CacheJs.getCached ns2 (CacheJs.setCached ns1 cs now s1 data) now' s2)
    = fst (CacheJs.getCached ns2 cs now' s2).
Proof.
  intros ns1 ns2 cs now now' s1 data s2 Hne.
  destruct ns1, ns2; try contradiction; simpl in *;
    repeat match goal with
           | s : (string * string * string)%type |- _ => destruct s as [[? ?] ?]
           end;
    unfold CacheJs.getCachedDeconstruction, CacheJs.setCachedDeconstruction,
      CacheJs.getCachedSimulation, CacheJs.setCachedSimulation,
      CacheJs.getCachedImage, CacheJs.setCachedImage,
      CacheJs.getCachedTranscription, CacheJs.setCachedTranscription;
    simpl; rewrite !fst_let; reflexivity.
Qed.

Lemma namespaces_are_isolated_witness :
  fst (CacheJs.getCachedImage
         (CacheJs.setCachedTranscription CacheJs.initial 0 "p" (JString "text")) 5 "p")
  = fst (CacheJs.getCachedImage CacheJs.initial 5 "p").
Proof.
  apply (namespaces_are_isolated CacheJs.Transcription CacheJs.Image CacheJs.initial
           0 5 "p" (JString "text") "p").
  discriminate.
Defined.

(* ===================================================================== *)
(** * The rate limiter: recovery and independence of addresses *)
(* ===================================================================== *)

Section LimiterMore.

Import Server.

Lemma filter_none {A : Type} (f : A -> bool) (l : list A) :
  Forall (fun x => f x = false) l -> List.filter f l = [].
Proof.
  induction 1 as [|x l Hx _ IH]; simpl; [reflexivity|]. rewrite Hx. exact IH.
Qed.

(** Whether a request is let through depends on the timestamps recorded
    for its address only. *)
Lemma decision_by_recorded maxRequests windowMs rl1 rl2 ip now :
  Spec.recorded rl1 ip = Spec.recorded rl2 ip ->
  fst (simpleRateLimit maxRequests windowMs rl1 ip now)
  = fst (simpleRateLimit maxRequests windowMs rl2 ip now).
Proof.
  intros H. unfold simpleRateLimit.
  pose proof (recorded_ensure rl1 ip ip) as H1.
  pose proof (recorded_ensure rl2 ip ip) as H2.
  unfold Spec.recorded in H1 at 1. unfold Spec.recorded in H2 at 1.
  rewrite H1, H2, H.
  destruct (_ >=? maxRequests); reflexivity.
Qed.

End LimiterMore.

(** X8. The window slides: once every timestamp recorded for an address
    is [windowMs] old or older, the next request of that address is let
    through by a limiter that allows at least one request, and the old
    timestamps are dropped: only the time of this request stays
    recorded. *)
Theorem limiter_window_recovery :
  forall (maxRequests windowMs : Z) (rl : gmap string (list Z)) (ip : string) (now : Z),
    0 < maxRequests ->
    Forall (fun time => windowMs <= now - time) (Spec.recorded rl ip) ->
    exists rl',
      Server.simpleRateLimit maxRequests windowMs rl ip now = (Server.Next tt, rl')
      /\ Spec.recorded rl' ip = [now].
Proof.
  intros maxRequests windowMs rl ip now Hmax Hold.
  assert (Hnone : List.filter (fun time => now - time <? windowMs) (Spec.recorded rl ip)
                  = []).
  { apply filter_none. eapply Forall_impl; [exact Hold|].
    intros time Ht. simpl in *. apply Z.ltb_ge. exact Ht. }
  destruct (rate_limit_admission maxRequests windowMs rl ip now)
    as (rl' & Hrun & Hrec & _).
  { unfold Spec.in_window. rewrite Hnone. simpl. lia. }
  exists rl'. split; [exact Hrun|]. rewrite Hrec, Hnone. reflexivity.
Qed.

Lemma limiter_window_recovery_witness :
  let rl : gmap string (list Z) := {[ "203.0.113.7" := [0; 1; 2] ]} in
  exists rl',
    Server.imageLimiter rl "203.0.113.7" 300002 = (Server.Next tt, rl')
    /\ Spec.recorded rl' "203.0.113.7" = [300002].
Proof.
  apply (limiter_window_recovery 3 300000 {[ "203.0.113.7" := [0; 1; 2] ]}
           "203.0.113.7" 300002).
  - lia.
  - unfold Spec.recorded. rewrite lookup_singleton_eq. cbn [default from_option id].
    repeat constructor; lia.
Defined.

(** X9. Addresses do not affect each other: a request of one address,
    let through or not, by any limiter, changes neither the timestamps
    recorded for another address nor whether the next request of that
    other address is let through. *)
Theorem limiter_addresses_independent :
  forall (m w m' w' : Z) (rl : gmap string (list Z)) (ip ip' : string) (now now' : Z),
    ip <> ip' ->
    Spec.recorded (snd (Server.simpleRateLimit m w rl ip now)) ip' = Spec.recorded rl ip'
    /\ fst (Server.simpleRateLimit m' w' (snd (Server.simpleRateLimit m w rl ip now))
              ip' now')
       = fst (Server.simpleRateLimit m' w' rl ip' now').
Proof.
  intros m w m' w' rl ip ip' now now' Hne.
  assert (Hrec : Spec.recorded (snd (Server.simpleRateLimit m w rl ip now)) ip'
                 = Spec.recorded rl ip').
  { destruct (Z.lt_ge_cases (Spec.in_window rl ip now w) m) as [Hroom|Hfull].
    - destruct (rate_limit_admission m w rl ip now Hroom) as (rl' & -> & _ & Hother & _).
      simpl. apply Hother. congruence.
    - destruct (rate_limit_rejection m w rl ip now Hfull) as (a & rl' & -> & _ & Hsame).
      simpl. apply Hsame. }
  split; [exact Hrec|]. apply decision_by_recorded. exact Hrec.
Qed.

Lemma limiter_addresses_independent_witness :
  Spec.recorded (snd (Server.imageLimiter ∅ "203.0.113.7" 0)) "198.51.100.9"
  = Spec.recorded ∅ "198.51.100.9"
  /\ fst (Server.imageLimiter (snd (Server.imageLimiter ∅ "203.0.113.7" 0))
            "198.51.100.9" 1)
     = fst (Server.imageLimiter ∅ "198.51.100.9" 1).
Proof.
  apply (limiter_addresses_independent 3 300000 3 300000 ∅
           "203.0.113.7" "198.51.100.9" 0 1).
  discriminate.
Defined.

(* ===================================================================== *)
(** * Results that [if (cached)] does not accept *)
(* ===================================================================== *)



(* ===================================================================== *)
(** * Edge functions: images, simulations, narratives *)
(* ===================================================================== *)

Section EdgeFacts.

Import Fallback Edge Coerce EdgeHandlers.

Lemma huggingface_picture env prompt picture :
  GenerateImage.generateWithHuggingFace env prompt = Return picture ->
  get "provider" picture = Some (JString "HuggingFace").
Proof.
  unfold GenerateImage.generateWithHuggingFace.
  destruct (missing _); [discriminate|].
  destruct (fetch _ _ _ _) as [e|status [payload|e]]; try discriminate.
  destruct (negb (ok status)); [discriminate|].
  intros [= <-]. reflexivity.
Qed.

Lemma pollinations_outcome env prompt :
  match GenerateImage.generateWithPollinations env prompt with
  | Return picture => get "provider" picture = Some (JString "Pollinations")
  | Throw error =>
      exists reason,
        message error = "Failed to generate image with Pollinations: " ++ reason
  end.
Proof.
  unfold GenerateImage.generateWithPollinations.
  destruct (fetch _ _ _ _) as [e|status content].
  - exists (message e). reflexivity.
  - destruct (negb (ok status)); [eexists|]; reflexivity.
Qed.

(** The loop of [simulate] starts with Groq, whatever happens next. *)
Lemma simulate_starts_with_groq env prompt system :
  head (snd (Simulate.callLLM env prompt system)) = Some (EvInvoke 0 "Groq").
Proof.
  unfold Simulate.callLLM, run, Simulate.providers. cbn [for_of fn name].
  destruct (callGroqAPI _ _ _ _); [reflexivity|].
  destruct (callTogetherAPI _ _ _ _); reflexivity.
Qed.

(** The loop of [narrative] is one call of Groq. *)
Lemma narrative_is_groq env prompt system :
  Narrative.callLLM env prompt system
  = (callGroqAPI env "0.7" "800" (prompt, system), [EvInvoke 0 "Groq"]).
Proof.
  unfold Narrative.callLLM, run, Narrative.providers. cbn [for_of fn name].
  destruct (callGroqAPI _ _ _ _); reflexivity.
Qed.

Lemma nonempty_some (s : string) : s <> "" -> nonempty (Some s) = true.
Proof. intros H. simpl. destruct (String.eqb_spec s ""); [contradiction|reflexivity]. Qed.

Lemma not_options (m : string) : m <> "OPTIONS" -> String.eqb m "OPTIONS" = false.
Proof. intros H. destruct (String.eqb_spec m "OPTIONS"); [contradiction|reflexivity]. Qed.


End EdgeFacts.

(** X11. How [generateImage] of the image function ends. A picture comes
    from Hugging Face after one invocation, or from Pollinations after
    both were invoked in that order. A failure is never that of Hugging
    Face: both providers were invoked, and the error is the one
    [generateWithPollinations] makes, whose message starts with
    "Failed to generate image with Pollinations: ". *)
Theorem image_generation_outcome :
  forall (env : Edge.Env) (prompt : string),
    match Edge.GenerateImage.generateImage env prompt with
    | (Return picture, calls) =>
        (calls = [EvInvoke 0 "HuggingFace"]
         /\ Coerce.get "provider" picture = Some (JString "HuggingFace"))
        \/ (calls = [EvInvoke 0 "HuggingFace"; EvInvoke 1 "Pollinations"]
            /\ Coerce.get "provider" picture = Some (JString "Pollinations"))
    | (Throw error, calls) =>
        calls = [EvInvoke 0 "HuggingFace"; EvInvoke 1 "Pollinations"]
        /\ exists reason,
             message error = "Failed to generate image with Pollinations: " ++ reason
    end.
Proof.
  intros env prompt.
  unfold Edge.GenerateImage.generateImage, Fallback.run, Edge.GenerateImage.providers.
  cbn [Fallback.for_of Fallback.fn Fallback.name].
  destruct (Edge.GenerateImage.generateWithHuggingFace env prompt) as [picture|e] eqn:Hhf.
  - left. split; [reflexivity|]. eapply huggingface_picture; exact Hhf.
  - pose proof (pollinations_outcome env prompt) as Hp.
    destruct (Edge.GenerateImage.generateWithPollinations env prompt) as [picture|e'].
    + right. split; [reflexivity|exact Hp].
    + split; [reflexivity|exact Hp].
Qed.



(** X13. The simulation function checks only that an invention and an
    era were sent. It answers 400, without invoking a provider, exactly
    when one of them is absent or empty; any other request, whatever the
    length of its texts and even when they are blank, starts the provider
    loop with Groq and is answered 200 or 500. *)
Theorem simulate_function_checks_presence_only :
  forall (engine : Coerce.Engine) (env : Edge.Env) (req : EdgeHandlers.SimulationRequest),
    EdgeHandlers.s_method req <> "OPTIONS" ->
    let answer := fst (EdgeHandlers.serve_simulate engine env req) in
    let calls := snd (EdgeHandlers.serve_simulate engine env req) in
    (status answer = 400
     <-> Coerce.nonempty (EdgeHandlers.s_invention req) = false
         \/ Coerce.nonempty (EdgeHandlers.s_era req) = false)
    /\ (status answer = 400 -> calls = [])
    /\ (status answer <> 400 ->
        head calls = Some (EvInvoke 0 "Groq")
        /\ (status answer = 200 \/ status answer = 500)).
Proof.
  intros engine env req Hm answer calls. subst answer calls.
  unfold EdgeHandlers.serve_simulate. cbv zeta. rewrite (not_options _ Hm).
  destruct (Coerce.nonempty (EdgeHandlers.s_invention req)) eqn:Hi; cbn [negb orb];
    [destruct (Coerce.nonempty (EdgeHandlers.s_era req)) eqn:He; cbn [negb orb]|].
  - match goal with
    | |- context [Edge.Simulate.callLLM ?e ?p ?s] =>
        pose proof (simulate_starts_with_groq e p s) as Hhead;
        destruct (Edge.Simulate.callLLM e p s) as [[response|error] calls]
    end; cbn [fst snd status EdgeHandlers.failure] in Hhead |- *.
    + split; [split; [discriminate|intros [H|H]; discriminate]|].
      split; [discriminate|]. intros _. split; [exact Hhead|left; reflexivity].
    + split; [split; [discriminate|intros [H|H]; discriminate]|].
      split; [discriminate|]. intros _. split; [exact Hhead|right; reflexivity].
  - cbn [fst snd status error_response].
    split; [split; [right; reflexivity|reflexivity]|].
    split; [reflexivity|]. intros H; exfalso; apply H; reflexivity.
  - cbn [fst snd status error_response].
    split; [split; [left; reflexivity|reflexivity]|].
    split; [reflexivity|]. intros H; exfalso; apply H; reflexivity.
Qed.

Lemma simulate_function_checks_presence_only_witness :
  let req :=
    EdgeHandlers.mkSimulationRequest "POST" (Some "   ") (Some "1800s") None None None in
  head (snd (EdgeHandlers.serve_simulate Cases.engine Scenario.no_keys req))
  = Some (EvInvoke 0 "Groq").
Proof.
  intros req.
  apply (proj2 (proj2 (simulate_function_checks_presence_only Cases.engine
                         Scenario.no_keys req ltac:(discriminate)))).
  vm_compute. discriminate.
Defined.

(** X14. Once a provider of the simulation function has answered, the
    request is answered 200: with the value parsed from the answer,
    whatever it is, and, when nothing can be parsed, with three
    placeholder pathways that name the invention and the era and have
    the form the system prompt asks for. *)
Theorem simulate_function_answers_200 :
  forall (engine : Coerce.Engine) (env : Edge.Env) (req : EdgeHandlers.SimulationRequest)
         (invention era response : string) (calls : list Event),
    EdgeHandlers.s_method req <> "OPTIONS" ->
    EdgeHandlers.s_invention req = Some invention -> invention <> "" ->
    EdgeHandlers.s_era req = Some era -> era <> "" ->
    Edge.Simulate.callLLM env
      (EdgeHandlers.simulate_user engine invention era (EdgeHandlers.s_decomposition req)
         (default (3 # 1) (EdgeHandlers.s_depth req))
         (default (8 # 10) (EdgeHandlers.s_creativity req)))
      EdgeHandlers.simulate_system
    = (Return response, calls) ->
    exists simulations,
      EdgeHandlers.serve_simulate engine env req = (mkResponse 200 simulations, calls)
      /\ match Coerce.JSON_parse engine (Edge.jsonStr response) with
         | Some parsed => simulations = parsed
         | None =>
             simulations = EdgeHandlers.fallback_simulations invention era
             /\ Checks.simulations_valid simulations = true
             /\ exists p1 p2 p3,
                  Coerce.get "pathways" simulations = Some (JArray [p1; p2; p3])
                  /\ Coerce.get "title" p1
                     = Some (JString ("Early " ++ invention ++ " - Mechanical Approach"))
         end.
Proof.
  intros engine env req invention era response calls Hm Hi Hine He Hene Hcall.
  unfold EdgeHandlers.serve_simulate. rewrite (not_options _ Hm), Hi, He.
  rewrite (nonempty_some _ Hine), (nonempty_some _ Hene). cbn [negb orb default from_option id].
  rewrite Hcall. eexists. split; [reflexivity|].
  destruct (Coerce.JSON_parse engine (Edge.jsonStr response)); [reflexivity|].
  split; [reflexivity|]. split; [reflexivity|].
  do 3 eexists. split; reflexivity.
Qed.

Lemma simulate_function_answers_200_witness :
  let req :=
    EdgeHandlers.mkSimulationRequest "POST" (Some "Telephone") (Some "1800s")
      None None None in
  let env :=
    Edge.mkEnv (fun _ => Some "token") 0 0
      (fun _ _ _ => Edge.Responded 200 (Return "I cannot answer that.")) in
  fst (EdgeHandlers.serve_simulate Cases.engine env req)
  = mkResponse 200 (EdgeHandlers.fallback_simulations "Telephone" "1800s").
Proof.
  intros req env.
  destruct (simulate_function_answers_200 Cases.engine env req "Telephone" "1800s"
              "I cannot answer that." [EvInvoke 0 "Groq"]
              ltac:(discriminate) eq_refl ltac:(discriminate) eq_refl
              ltac:(discriminate) eq_refl) as (simulations & Hrun & Hshape).
  rewrite Hrun. vm_compute in Hshape. destruct Hshape as [-> _]. reflexivity.
Defined.

(** X15. The narrative function has one provider and no fallback. For a
    request whose prompt can be built, Groq is invoked once. When it
    answers, the request is answered 200 with the answer trimmed of the
    white space around it, the era as sent and the title of the pathway;
    when it fails (a missing Groq key included, whatever other keys are
    configured) the request is answered 500 with the message of that
    failure as details. *)
Theorem narrative_function_outcome :
  forall (engine : Coerce.Engine) (env : Edge.Env) (req : EdgeHandlers.NarrativeRequest)
         (data : Value) (era prompt : string),
    EdgeHandlers.n_method req <> "OPTIONS" ->
    EdgeHandlers.n_pathwayData req = Some data -> truthy data = true ->
    EdgeHandlers.n_era req = Some era -> era <> "" ->
    EdgeHandlers.narrative_user engine data era = Return prompt ->
    snd (EdgeHandlers.serve_narrative engine env req) = [EvInvoke 0 "Groq"]
    /\ match Edge.callGroqAPI env "0.7" "800" (prompt, EdgeHandlers.narrative_system) with
       | Return content =>
           exists narrative,
             fst (EdgeHandlers.serve_narrative engine env req)
             = mkResponse 200
                 (JObject ([("narrative", JString narrative); ("era", JString era)]
                           ++ Exports.field "title" (Coerce.get "title" data)))
             /\ narrative = trim content
             /\ trim narrative = narrative
       | Throw error =>
           fst (EdgeHandlers.serve_narrative engine env req)
           = EdgeHandlers.failure "Failed to generate narrative" error
           /\ (Edge.missing (Edge.env_get env "GROQ_API_KEY") = true ->
               message error = "GROQ_API_KEY not configured")
       end.
Proof.
  intros engine env req data era prompt Hm Hd Htruthy He Hene Hprompt.
  unfold EdgeHandlers.serve_narrative.
  rewrite (not_options _ Hm), Hd, He. cbn [Coerce.is_truthy default from_option id].
  rewrite Htruthy, (nonempty_some _ Hene). cbn [negb orb].
  rewrite Hprompt, narrative_is_groq.
  destruct (Edge.callGroqAPI env "0.7" "800" (prompt, EdgeHandlers.narrative_system))
    as [content|error] eqn:Hgroq.
  - split; [reflexivity|]. exists (trim content). cbn [fst].
    split; [|split; [reflexivity|apply trim_idempotent]].
    unfold Exports.field. destruct (Coerce.get "title" data); reflexivity.
  - split; [reflexivity|]. split; [reflexivity|].
    intros Hmissing. unfold Edge.callGroqAPI, Edge.chat_adapter in Hgroq.
    rewrite Hmissing in Hgroq. injection Hgroq as <-. reflexivity.
Qed.

Lemma narrative_function_outcome_witness :
  let data := JObject [("title", JString "Steam Loom")] in
  let req := EdgeHandlers.mkNarrativeRequest "POST" (Some data) (Some "1800s") in
  snd (EdgeHandlers.serve_narrative Cases.engine (Scenario.hf_only "a tale") req)
  = [EvInvoke 0 "Groq"].
Proof.
  intros data req.
  apply (proj1 (narrative_function_outcome Cases.engine (Scenario.hf_only "a tale") req
                  data "1800s" _ ltac:(discriminate) eq_refl eq_refl eq_refl
                  ltac:(discriminate) eq_refl)).
Defined.

(** X16. The narrative function joins the technical steps and the
    required breakthroughs of the pathway, which may be absent or [null]
    but, when present, have to be arrays: for any other value of one of
    them the request is answered 500 and no provider is invoked. *)
Theorem narrative_function_needs_arrays :
  forall (engine : Coerce.Engine) (env : Edge.Env) (req : EdgeHandlers.NarrativeRequest)
         (data steps : Value) (era field : string),
    EdgeHandlers.n_method req <> "OPTIONS" ->
    EdgeHandlers.n_pathwayData req = Some data -> truthy data = true ->
    EdgeHandlers.n_era req = Some era -> era <> "" ->
    field = "technical_steps" \/ field = "required_breakthroughs" ->
    Coerce.get field data = Some steps ->
    steps <> JNull ->
    (forall items, steps <> JArray items) ->
    status (fst (EdgeHandlers.serve_narrative engine env req)) = 500
    /\ snd (EdgeHandlers.serve_narrative engine env req) = [].
Proof.
  intros engine env req data steps era field Hm Hd Htruthy He Hene Hfield Hget Hnull Harr.
  assert (Hjoin : exists e, Coerce.optional_join engine ", " (Some steps) = Throw e).
  { destruct steps; try (eexists; reflexivity).
    - contradiction.
    - exfalso. eapply Harr. reflexivity. }
  destruct Hjoin as [e Hjoin].
  assert (Hthrows : exists e', EdgeHandlers.narrative_user engine data era = Throw e').
  { unfold EdgeHandlers.narrative_user.
    destruct (Coerce.text_of engine (Coerce.get "title" data)); [|eauto].
    cbn [Coerce.bind].
    destruct (Coerce.text_of engine (Coerce.get "prototype_description" data)); [|eauto].
    cbn [Coerce.bind].
    destruct Hfield as [-> | ->].
    - rewrite Hget, Hjoin. eauto.
    - destruct (Coerce.optional_join engine ", " (Coerce.get "technical_steps" data));
        [|eauto].
      cbn [Coerce.bind]. rewrite Hget, Hjoin. eauto. }
  destruct Hthrows as [e' Hthrows].
  unfold EdgeHandlers.serve_narrative.
  rewrite (not_options _ Hm), Hd, He. cbn [Coerce.is_truthy default from_option id].
  rewrite Htruthy, (nonempty_some _ Hene). cbn [negb orb].
  rewrite Hthrows. split; reflexivity.
Qed.

Lemma narrative_function_needs_arrays_witness :
  let data :=
    JObject [("title", JString "Steam Loom");
             ("technical_steps", JString "boil, then weave")] in
  let req := EdgeHandlers.mkNarrativeRequest "POST" (Some data) (Some "1800s") in
  snd (EdgeHandlers.serve_narrative Cases.engine Scenario.all_down req) = [].
Proof.
  intros data req.
  apply (narrative_function_needs_arrays Cases.engine Scenario.all_down req data
           (JString "boil, then weave") "1800s" "technical_steps"
           ltac:(discriminate) eq_refl eq_refl eq_refl ltac:(discriminate)
           (or_introl eq_refl) eq_refl ltac:(discriminate) ltac:(discriminate)).
Defined.

(* ===================================================================== *)
(** * Cache statistics *)
(* ===================================================================== *)

Section Counters.

Import CacheJs CacheAdmin Usage.

Lemma snd_let {A B C : Type} (x : A * B) (f : B -> C) :
  snd (let '(r, c) := x in (r, f c)) = f (snd x).
Proof. destruct x; reflexivity. Qed.

Lemma within_refl c : within c c 0 0.
Proof. unfold within. lia. Qed.

Lemma within_trans c1 c2 c3 g1 p1 g2 p2 :
  within c1 c2 g1 p1 -> within c2 c3 g2 p2 -> within c1 c3 (g1 + g2) (p1 + p2).
Proof. unfold within. lia. Qed.

Lemma get_within c now key : within c (snd (NodeCache.get c now key)) 1 0.
Proof.
  unfold within, NodeCache.get, key_count.
  destruct (NodeCache.data c !! key) as [e|] eqn:Hk; [destruct (negb _ && _)|];
    cbn [snd NodeCache.hits NodeCache.misses NodeCache.data];
    repeat split; try lia.
  rewrite map_size_delete, Hk. lia.
Qed.

Lemma set_within ttl c now key value :
  within c (NodeCache.set ttl c now key value) 0 1.
Proof.
  unfold within, NodeCache.set, key_count.
  cbn [NodeCache.hits NodeCache.misses NodeCache.data].
  repeat split; try lia.
  rewrite map_size_insert. destruct (NodeCache.data c !! key); unfold id; lia.
Qed.

(** One access moves the counters of its namespace by one lookup or one
    store, and leaves the other instances as they are. *)
Lemma perform_within cs a ns :
  within (instance ns cs) (instance ns (perform cs a))
    (lookups ns [a]) (stores ns [a]).
Proof.
  destruct a as [ns' subject time|ns' subject time value];
    destruct ns, ns'; try destruct subject as [[invention era] creativity];
    cbn [perform getCached setCached instance lookups stores List.filter same
         Datatypes.length Z.of_nat];
    unfold getCachedDeconstruction, getCachedSimulation, getCachedImage,
      getCachedTranscription, setCachedDeconstruction, setCachedSimulation,
      setCachedImage, setCachedTranscription;
    rewrite ?snd_let;
    cbn [deconstructionCache simulationCache imageCache audioCache];
    first [apply within_refl | apply get_within | apply set_within].
Qed.

Lemma replay_within accesses : forall cs ns,
  within (instance ns cs) (instance ns (replay cs accesses))
    (lookups ns accesses) (stores ns accesses).
Proof.
  induction accesses as [|a rest IH]; intros cs ns.
  - apply within_refl.
  - pose proof (within_trans _ _ _ _ _ _ _ (perform_within cs a ns)
                  (IH (perform cs a) ns)) as H.
    unfold replay in *. cbn [fold_left].
    assert (Hl : lookups ns (a :: rest) = lookups ns [a] + lookups ns rest).
    { unfold lookups. cbn [List.filter].
      destruct (match a with Lookup ns' _ _ => same ns ns' | _ => false end);
        cbn [Datatypes.length]; lia. }
    assert (Hs : stores ns (a :: rest) = stores ns [a] + stores ns rest).
    { unfold stores. cbn [List.filter].
      destruct (match a with Store ns' _ _ _ => same ns ns' | _ => false end);
        cbn [Datatypes.length]; lia. }
    rewrite Hl, Hs. exact H.
Qed.

End Counters.

(** X17. What [getCacheStats] reports. After [clearAllCaches] and any
    sequence of lookups and stores, the entry of each namespace gives
    three numbers: the hits and the misses add up to the number of
    lookups made in that namespace (every lookup counts once, as a hit
    or as a miss, and nothing else counts), and the keys are at most the
    stores made in it. *)
Theorem cache_statistics_count_lookups :
  forall (cs : CacheJs.Caches) (accesses : list Usage.Access) (ns : CacheJs.Namespace),
    exists keys hits misses : Z,
      Coerce.get (Usage.label ns)
        (CacheAdmin.getCacheStats
           (Usage.replay (CacheAdmin.clearAllCaches cs) accesses))
      = Some (JObject [("keys", JNumber (Z_to_string keys));
                       ("hits", JNumber (Z_to_string hits));
                       ("misses", JNumber (Z_to_string misses))])
      /\ 0 <= hits /\ 0 <= misses
      /\ hits + misses = Usage.lookups ns accesses
      /\ 0 <= keys <= Usage.stores ns accesses.
Proof.
  intros cs accesses ns.
  pose proof (replay_within accesses (CacheAdmin.clearAllCaches cs) ns) as H.
  set (cs' := Usage.replay (CacheAdmin.clearAllCaches cs) accesses) in *.
  exists (CacheAdmin.key_count (CacheAdmin.instance ns cs')),
         (NodeCache.hits (CacheAdmin.instance ns cs')),
         (NodeCache.misses (CacheAdmin.instance ns cs')).
  split; [destruct ns; reflexivity|].
  assert (Hstart : NodeCache.hits (CacheAdmin.instance ns (CacheAdmin.clearAllCaches cs)) = 0
                   /\ NodeCache.misses (CacheAdmin.instance ns (CacheAdmin.clearAllCaches cs)) = 0
                   /\ CacheAdmin.key_count
                        (CacheAdmin.instance ns (CacheAdmin.clearAllCaches cs)) = 0).
  { destruct ns; repeat split. }
  destruct Hstart as (Hh & Hmi & Hk). unfold Usage.within in H.
  rewrite Hh, Hmi, Hk in H.
  assert (0 <= CacheAdmin.key_count (CacheAdmin.instance ns cs'))
    by (unfold CacheAdmin.key_count; lia).
  lia.
Qed.

(* ===================================================================== *)
(** * The Express server: images, audio, narratives *)
(* ===================================================================== *)

Section RouteFacts.

Import CacheJs Coerce Routes.



Lemma blank_prompt sv now cs body :
  nonempty (prompt body) = false \/ trim (default "" (prompt body)) = "" ->
  image_handler sv now cs body = (error_response 400 "Image prompt is required", cs, []).
Proof.
  intros H. unfold image_handler.
  destruct H as [-> | ->]; [reflexivity|].
  rewrite orb_true_r. reflexivity.
Qed.


End RouteFacts.

(** X18. On [POST /generate-image] the limiter runs before the prompt is
    looked at. A request that finds fewer than 3 timestamps in the window
    is recorded, whatever its body and whatever the answer is; when its
    prompt is absent, empty or blank it is answered 400, and it has used
    one of the 3 requests of the window all the same. *)
Theorem image_requests_are_counted_first :
  forall (sv : Routes.Services) (now : Z) (st : Server.State) (ip : string)
         (body : Routes.ImageBody),
    Spec.in_window (Server.rateLimits st) ip now 300000 < 3 ->
    let after := snd (fst (Routes.post_generate_image sv now st ip body)) in
    Spec.recorded (Server.rateLimits after) ip
    = (List.filter (fun time => now - time <? 300000)
         (Spec.recorded (Server.rateLimits st) ip) ++ [now])%list
    /\ (Coerce.nonempty (Routes.prompt body) = false
        \/ trim (default "" (Routes.prompt body)) = "" ->
        fst (fst (Routes.post_generate_image sv now st ip body))
        = error_response 400 "Image prompt is required"
        /\ snd (Routes.post_generate_image sv now st ip body) = []
        /\ Server.caches after = Server.caches st).
Proof.
  intros sv now st ip body Hroom after. subst after.
  destruct (rate_limit_admission 3 300000 (Server.rateLimits st) ip now Hroom)
    as (rl' & Hpass & Hrec & _).
  unfold Routes.post_generate_image, Server.imageLimiter. rewrite Hpass.
  split.
  - destruct (Routes.image_handler sv now (Server.caches st) body) as [[answer cs] calls].
    exact Hrec.
  - intros Hblank. rewrite (blank_prompt sv now (Server.caches st) body Hblank).
    repeat split.
Qed.

Lemma image_requests_are_counted_first_witness :
  let body := Routes.mkImageBody (Some "   ") None None None None in
  let sv := Cases.services (Return Cases.one_image) (Return "hello") in
  Spec.recorded
    (Server.rateLimits
       (snd (fst (Routes.post_generate_image sv 1000 Scenario.fresh "10.0.0.1" body))))
    "10.0.0.1"
  = [1000].
Proof.
  intros body sv.
  apply (proj1 (image_requests_are_counted_first sv 1000 Scenario.fresh "10.0.0.1" body
                  ltac:(vm_compute; reflexivity))).
Defined.



(** X20. [POST /transcribe] deletes the upload once, as the last thing
    it does, however the request ends (served from the cache,
    transcribed, or failed while reading the file or transcribing it),
    when the upload has a path; and the first thing it does is read that
    file. *)
Theorem upload_is_always_deleted :
  forall (sv : Routes.Services) (now : Z) (cs : CacheJs.Caches) (file : Routes.Upload),
    Routes.path file <> "" ->
    exists between : list Routes.Call,
      snd (Routes.transcribe_handler sv now cs (Some file))
      = (Routes.EvReadFile (Routes.path file) :: between
           ++ [Routes.EvUnlink (Routes.path file)])%list
      /\ Checks.unlinks between = [].
Proof.
  intros sv now cs file Hpath. unfold Routes.transcribe_handler.
  destruct (String.eqb_spec (Routes.path file) "") as [?|_]; [contradiction|].
  destruct (Routes.readFile sv (Routes.path file)) as [buffer|e].
  - destruct (CacheJs.getCachedTranscription cs now (Routes.md5_hex sv buffer))
      as [cached cs0].
    destruct (Coerce.is_truthy cached).
    + exists [Routes.Base (EvCacheGet "audio"
                (CacheJs.audio_key (Routes.md5_hex sv buffer)))].
      split; reflexivity.
    + unfold Routes.transcribeAudio.
      destruct (Routes.transcriptions sv buffer (Routes.originalname file)).
      * exists [Routes.Base (EvCacheGet "audio"
                  (CacheJs.audio_key (Routes.md5_hex sv buffer)));
                Routes.EvTranscription (Routes.originalname file);
                Routes.Base (EvCacheSet "audio"
                  (CacheJs.audio_key (Routes.md5_hex sv buffer)))].
        split; reflexivity.
      * exists [Routes.Base (EvCacheGet "audio"
                  (CacheJs.audio_key (Routes.md5_hex sv buffer)));
                Routes.EvTranscription (Routes.originalname file)].
        split; reflexivity.
  - exists []. split; reflexivity.
Qed.

Lemma upload_is_always_deleted_witness :
  exists between : list Routes.Call,
    snd (Routes.transcribe_handler
           (Cases.services (Return Cases.one_image) (Throw (mkError "timeout")))
           0 CacheJs.initial (Some Cases.upload))
    = (Routes.EvReadFile "uploads/3f2a" :: between
         ++ [Routes.EvUnlink "uploads/3f2a"])%list
    /\ Checks.unlinks between = [].
Proof.
  apply (upload_is_always_deleted
           (Cases.services (Return Cases.one_image) (Throw (mkError "timeout")))
           0 CacheJs.initial Cases.upload).
  discriminate.
Defined.

(** X21. An empty transcription (what silence gives) is stored by
    [POST /transcribe] and answered with [cached: false], but it is
    never served from the cache: every later upload of the same audio
    is sent to the transcription endpoint again. *)
Theorem empty_transcription_is_never_served :
  forall (sv : Routes.Services) (now : Z) (cs : CacheJs.Caches) (file : Routes.Upload)
         (buffer : list Byte.byte),
    let fileHash := Routes.md5_hex sv buffer in
    Routes.readFile sv (Routes.path file) = Return buffer ->
    Coerce.is_truthy (fst (CacheJs.getCachedTranscription cs now fileHash)) = false ->
    Routes.transcriptions sv buffer (Routes.originalname file) = Return "" ->
    exists cs1,
      fst (Routes.transcribe_handler sv now cs (Some file))
      = (Server.cached_false "text" (JString ""), cs1)
      /\ fst (CacheJs.getCachedTranscription cs1 now fileHash) = Some (JString "")
      /\ forall (now' : Z) (again : Routes.Upload),
           Routes.readFile sv (Routes.path again) = Return buffer ->
           In (Routes.EvTranscription (Routes.originalname again))
              (snd (Routes.transcribe_handler sv now' cs1 (Some again))).
Proof.
  intros sv now cs file buffer fileHash Hread Hmiss Htext.
  exists (CacheJs.setCachedTranscription
            (snd (CacheJs.getCachedTranscription cs now fileHash)) now fileHash
            (JString "")).
  split; [|split].
  - unfold Routes.transcribe_handler. rewrite Hread. fold fileHash.
    destruct (CacheJs.getCachedTranscription cs now fileHash) as [cached cs0].
    cbn [fst snd] in *. rewrite Hmiss. unfold Routes.transcribeAudio.
    rewrite Htext. reflexivity.
  - unfold CacheJs.getCachedTranscription, CacheJs.setCachedTranscription.
    cbn [CacheJs.audioCache]. rewrite fst_let.
    apply get_set_live; unfold CacheJs.audioTTL; lia.
  - intros now' again Hagain. unfold Routes.transcribe_handler.
    rewrite Hagain. fold fileHash.
    match goal with
    | |- context [CacheJs.getCachedTranscription ?c ?t ?k] =>
        assert (Hfalsy : Coerce.is_truthy (fst (CacheJs.getCachedTranscription c t k))
                         = false);
        [|destruct (CacheJs.getCachedTranscription c t k) as [cached cs2]]
    end.
    { unfold CacheJs.getCachedTranscription, CacheJs.setCachedTranscription.
      cbn [CacheJs.audioCache]. rewrite fst_let.
      unfold NodeCache.get, NodeCache.set. cbn [NodeCache.data].
      rewrite lookup_insert_eq. cbn [NodeCache.t NodeCache.v].
      destruct (negb _ && _); reflexivity. }
    cbn [fst] in Hfalsy. rewrite Hfalsy. unfold Routes.transcribeAudio.
    destruct (Routes.transcriptions sv buffer (Routes.originalname again));
      cbn [snd]; rewrite ?in_app_iff; cbn [In]; tauto.
Qed.

Lemma empty_transcription_is_never_served_witness :
  let sv := Cases.services (Return Cases.one_image) (Return "") in
  exists cs1,
    fst (Routes.transcribe_handler sv 0 CacheJs.initial (Some Cases.upload))
    = (Server.cached_false "text" (JString ""), cs1)
    /\ In (Routes.EvTranscription "memo.wav")
          (snd (Routes.transcribe_handler sv 1 cs1 (Some Cases.upload))).
Proof.
  intros sv.
  destruct (empty_transcription_is_never_served sv 0 CacheJs.initial Cases.upload
              [Byte.x52; Byte.x49; Byte.x46] eq_refl eq_refl eq_refl)
    as (cs1 & Hfirst & _ & Hlater).
  exists cs1. split; [exact Hfirst|]. apply (Hlater 1 Cases.upload). reflexivity.
Defined.

(* ===================================================================== *)
(** * The Express server: export *)
(* ===================================================================== *)

Section ExportFacts.

Import Coerce Exports.

Lemma clean_length (s : string) : String.length (clean s) = String.length s.
Proof. induction s as [|a s IH]; [reflexivity|]. cbn [clean String.length]. now rewrite IH. Qed.

Lemma clean_word (s : string) :
  Forall (fun a => Checks.is_word_char a = true) (Checks.chars (clean s)).
Proof.
  induction s as [|a s IH]; [constructor|].
  cbn [clean Checks.chars list_ascii_of_string]. constructor; [|exact IH].
  unfold Checks.is_word_char. destruct (is_alnum a) eqn:Ha; [rewrite Ha|]; reflexivity.
Qed.

Lemma clean_fixed (s : string) :
  Forall (fun a => Checks.is_word_char a = true) (Checks.chars s) -> clean s = s.
Proof.
  induction s as [|a s IH]; [reflexivity|].
  cbn [clean Checks.chars list_ascii_of_string]. intros H.
  apply Forall_cons in H as [Ha Hs]. rewrite (IH Hs). f_equal.
  unfold Checks.is_word_char in Ha. destruct (is_alnum a); [reflexivity|].
  cbn [orb] in Ha. apply Ascii.eqb_eq in Ha. congruence.
Qed.



End ExportFacts.

(** X22. [POST /export] cannot succeed without an era, although it asks
    only for a title and an invention: a request that has both and no
    era is answered 500, and when the sections could be prepared the
    deck was built before the failure. *)
Theorem export_needs_an_era :
  forall (sv : Routes.Services) (body : Routes.ExportBody),
    Coerce.nonempty (Routes.e_title body) = true ->
    Coerce.nonempty (Routes.e_invention body) = true ->
    Routes.e_era body = None ->
    fst (Routes.post_export sv body)
    = Routes.Json (error_response 500 "Failed to export presentation")
    /\ (forall sections,
          Exports.prepareSectionsForExport (Routes.engine sv) (Routes.e_decomposition body)
            (Routes.e_simulations body) (Routes.e_narratives body) = Return sections ->
          snd (Routes.post_export sv body)
          = [Routes.EvCreatePPTX (default "" (Routes.e_title body))]).
Proof.
  intros sv body Ht Hi He. unfold Routes.post_export.
  rewrite Ht, Hi, He. cbn [negb orb].
  destruct (Exports.prepareSectionsForExport _ _ _ _) as [sections|e].
  - destruct (Routes.createPPTX sv _ _ _); split; try reflexivity;
      intros ? _; reflexivity.
  - split; [reflexivity|]. intros ? [=].
Qed.

Lemma export_needs_an_era_witness :
  fst (Routes.post_export (Cases.services (Return Cases.one_image) (Return "hello"))
         (Routes.mkExportBody (Some "Steam Loom") (Some "loom") None None None None None))
  = Routes.Json (error_response 500 "Failed to export presentation").
Proof.
  apply (proj1 (export_needs_an_era
                  (Cases.services (Return Cases.one_image) (Return "hello"))
                  (Routes.mkExportBody (Some "Steam Loom") (Some "loom") None None None
                     None None)
                  eq_refl eq_refl eq_refl)).
Defined.

(** X23. The name [generateExportFilename] gives a download. Between
    the fixed parts, the invention and the era appear with the same
    number of characters as they were given, every character of them a
    letter, a digit or an underscore (so no quote, slash, dot or line
    break of the request reaches the header), and unchanged when they
    had no other character. *)
Theorem export_filename_is_safe :
  forall (engine : Coerce.Engine) (today invention era format : string),
    exists name_invention name_era : string,
      Exports.generateExportFilename engine today invention (Some era) format
      = Return ("reverse_invention_" ++ name_invention ++ "_" ++ name_era ++ "_"
                  ++ today ++ "." ++ format)
      /\ str_length name_invention = str_length invention
      /\ str_length name_era = str_length era
      /\ Forall (fun a => Checks.is_word_char a = true) (Checks.chars name_invention)
      /\ Forall (fun a => Checks.is_word_char a = true) (Checks.chars name_era)
      /\ (Forall (fun a => Checks.is_word_char a = true) (Checks.chars invention) ->
          name_invention = invention)
      /\ (Forall (fun a => Checks.is_word_char a = true) (Checks.chars era) ->
          name_era = era).
Proof.
  intros engine today invention era format.
  exists (Exports.clean invention), (Exports.clean era).
  split; [reflexivity|]. unfold str_length. rewrite !clean_length.
  repeat split; auto using clean_word, clean_fixed.
Qed.



Ltac settle Hmsg Hother :=
  cbn [fst snd];
  first [ apply Hmsg; cbn; tauto
        | apply Hother; discriminate ].

(** X25. The Express routes tell the client nothing about a failure but
    one of nine fixed texts: whenever a handler answers 500, the body is
    an object with the single property [error] holding one of them,
    whatever the back end threw. *)
Theorem express_failures_are_generic :
  (forall env now cs input,
      Checks.generic (fst (fst (Server.deconstruct_handler env now cs input))))
  /\ (forall env now cs input body,
        Checks.generic (fst (fst (Server.simulate_handler env now cs input body))))
  /\ (forall sv now cs body,
        Checks.generic (fst (fst (Routes.image_handler sv now cs body))))
  /\ (forall sv body, Checks.generic (fst (Routes.post_narrative sv body)))
  /\ (forall sv now cs file,
        Checks.generic (fst (fst (Routes.transcribe_handler sv now cs file))))
  /\ (forall sv body answer,
        fst (Routes.post_export sv body) = Routes.Json answer -> Checks.generic answer).
Proof.
  assert (Hmsg : forall msg, In msg Checks.failure_messages ->
                             Checks.generic (error_response 500 msg)).
  { intros msg Hin _. exists msg. split; [exact Hin|reflexivity]. }
  assert (Hother : forall code body, code <> 500 -> Checks.generic (mkResponse code body)).
  { intros code body Hne H. cbn in H. contradiction. }
  repeat split.
  - intros env now cs input. unfold Server.deconstruct_handler.
    destruct (CacheJs.getCachedDeconstruction _ _ _) as [cached cs0].
    destruct (Server.present cached); [settle Hmsg Hother|].
    destruct (Server.callGPT _ _ _ _ _) as [[response|e] calls]; [|settle Hmsg Hother].
    destruct (Server.JSON_parse env response); settle Hmsg Hother.
  - intros env now cs input body. unfold Server.simulate_handler.
    destruct (CacheJs.getCachedSimulation _ _ _ _ _) as [cached cs0].
    destruct (Server.present cached); [settle Hmsg Hother|].
    destruct (Server.present (Server.decomposition body)).
    + destruct (Server.callGPT _ _ _ _ _) as [[response|e] calls];
        [|settle Hmsg Hother].
      destruct (Server.JSON_parse env response); settle Hmsg Hother.
    + destruct (CacheJs.getCachedDeconstruction _ _ _) as [cached' cs1].
      destruct (Server.present cached').
      * destruct (Server.callGPT _ _ _ _ _) as [[response|e] calls];
          [|settle Hmsg Hother].
        destruct (Server.JSON_parse env response); settle Hmsg Hother.
      * destruct (Server.callGPT env Server.DECONSTRUCTION_SYSTEM _ _ _)
          as [[response|e] calls]; [|settle Hmsg Hother].
        destruct (Server.JSON_parse env response); [|settle Hmsg Hother].
        destruct (Server.callGPT _ _ _ _ _) as [[response'|e] calls'];
          [|settle Hmsg Hother].
        destruct (Server.JSON_parse env response'); settle Hmsg Hother.
  - intros sv now cs body. unfold Routes.image_handler.
    destruct (negb _ || _); [settle Hmsg Hother|].
    destruct (CacheJs.getCachedImage _ _ _) as [cached cs0].
    destruct (Coerce.is_truthy cached); [settle Hmsg Hother|].
    destruct (Coerce.is_truthy _ && _);
      [destruct (Routes.getVisualPrompt _ _ _); [|settle Hmsg Hother]|];
      unfold Routes.generateImage; destruct (Routes.images sv _ _ _);
      settle Hmsg Hother.
  - intros sv body. unfold Routes.post_narrative.
    destruct (negb _ || _); [settle Hmsg Hother|].
    destruct (Coerce.text_of _ _); [|settle Hmsg Hother].
    destruct (Routes.getNarrativePrompt _ _ _); [|settle Hmsg Hother].
    destruct (Server.callGPT _ _ _ _ _) as [[narrative|e] calls]; settle Hmsg Hother.
  - intros sv now cs [file|]; unfold Routes.transcribe_handler; [|settle Hmsg Hother].
    destruct (Routes.readFile sv _); [|settle Hmsg Hother].
    destruct (CacheJs.getCachedTranscription _ _ _) as [cached cs0].
    destruct (Coerce.is_truthy cached); [settle Hmsg Hother|].
    unfold Routes.transcribeAudio.
    destruct (Routes.transcriptions sv _ _); settle Hmsg Hother.
  - intros sv body answer. unfold Routes.post_export.
    destruct (negb _ || _); [intros [= <-]; settle Hmsg Hother|].
    destruct (Exports.prepareSectionsForExport _ _ _ _);
      [|intros [= <-]; settle Hmsg Hother].
    destruct (Routes.createPPTX sv _ _ _); [|intros [= <-]; settle Hmsg Hother].
    destruct (Exports.generateExportFilename _ _ _ _ _);
      [discriminate|intros [= <-]; settle Hmsg Hother].
Qed.
